(** * rim-space: the room / turn synchronisation core of the Truth-or-Dare game

    A shallow embedding of the React pages of the repository
    (CreateRoomPage, JoinRoomPage, RoomLobbyPage, GamePage) together with the
    relational store declared in [supabase_setup.sql], and the properties of
    the turn engine, the response log and the join / start-game flows.

    Conventions of the embedding.
    - A JavaScript string is a [string]; each character is one code unit
      (the model carries code units below 256).
    - An [async] handler is a computation in the monad [M]: it threads the
      world (store, session storage, router location, timers, component
      state) and completes normally, by an early [return] or by a [throw].
      Store effects made before a [throw] stay in the world.
    - Values the environment supplies (the store's [uuid_generate_v4()] and
      [NOW()], and [Math.random()]) are explicit arguments.
    - Values a handler reads from the render it was created in (its closure)
      are explicit arguments where the handler runs later than that render. *)

From Stdlib Require Import String Ascii List ZArith QArith Qround Bool Lia.
From Stdlib Require Import Sorted Permutation DecimalString.
From Stdlib Require Import NArith Nnat.
From Stdlib Require DecimalFacts DecimalPos.
Import ListNotations.

Local Open Scope string_scope.
Local Open Scope Z_scope.

(** ** JavaScript values and builtins used by the pages *)

Module Js.

(** Truthiness of a string: only the empty string is falsy. *)
Definition truthy (s : string) : bool := negb (s =? "")%string.

(** [!v] for a value of type [string | null]. *)
Definition falsy (v : option string) : bool :=
    match v with
    | None => true
    | Some s => negb (truthy s)
    end.

(** White space and line terminators stripped by [String.prototype.trim],
      among the code units below 256: TAB, LF, VT, FF, CR, SP, NBSP. *)
Definition isWhiteSpace (c : ascii) : bool :=
    let n := nat_of_ascii c in
    ((9 <=? n)%nat && (n <=? 13)%nat) || (n =? 32)%nat || (n =? 160)%nat.

Fixpoint trimStart (s : string) : string :=
    match s with
    | EmptyString => EmptyString
    | String c s' => if isWhiteSpace c then trimStart s' else s
    end.

Fixpoint trimEnd (s : string) : string :=
    match s with
    | EmptyString => EmptyString
    | String c s' =>
        match trimEnd s' with
        | EmptyString => if isWhiteSpace c then EmptyString else String c EmptyString
        | t => String c t
        end
    end.

Definition trim (s : string) : string := trimEnd (trimStart s).

(** [Array.prototype.findIndex]: the first index whose element satisfies
      the predicate, [-1] when there is none. *)
Fixpoint findIndex {A : Type} (f : A -> bool) (l : list A) : Z :=
    match l with
    | [] => -1
    | x :: l' =>
        if f x then 0
        else let i := findIndex f l' in if i <? 0 then -1 else i + 1
    end.

(** [arr[i]]: [undefined] (here [None]) outside [0 .. length-1]. *)
Definition index {A : Type} (l : list A) (i : Z) : option A :=
    if i <? 0 then None else nth_error l (Z.to_nat i).

(** [arr.length] *)
Definition length {A : Type} (l : list A) : Z := Z.of_nat (List.length l).

(** [a % b] on integers: the sign follows the dividend. *)
Definition rem (a b : Z) : Z := Z.rem a b.

(** [Math.floor] on the (exact) product [Math.random() * n]. *)
Definition floor (q : Q) : Z := Qfloor q.

(** [n.toString()] for an integer. *)
Definition toString (n : Z) : string := NilZero.string_of_int (Z.to_int n).

(** [`${v}`] for a value of type [string | undefined]. *)
Definition template (v : option string) : string :=
  match v with
  | Some s => s
  | None => "undefined"
  end.

(** Thrown values: [new Error(msg)], the engine's [TypeError] on a property
      read of [undefined], and a PostgREST error object thrown as it is. *)
Inductive Thrown : Type :=
  | Error (message : string)
  | TypeError (message : string)
  | PostgrestError (code : string) (message : string).

(** [err.message] *)
Definition message (e : Thrown) : string :=
    match e with
    | Error m => m
    | TypeError m => m
    | PostgrestError _ m => m
    end.

(** Reading [.id] of [undefined]. *)
Definition undefined_id : Thrown :=
    TypeError "Cannot read properties of undefined (reading 'id')".

End Js.

(** ** Data model: the rows of [supabase_setup.sql] *)

Inductive Status : Type := waiting | active | ended.

Inductive PromptType : Type := truth | dare.

Definition Status_eqb (a b : Status) : bool :=
  match a, b with
  | waiting, waiting | active, active | ended, ended => true
  | _, _ => false
  end.

Definition PromptType_eqb (a b : PromptType) : bool :=
  match a, b with
  | truth, truth | dare, dare => true
  | _, _ => false
  end.

Module Room.
Record t : Type := mk
    { id : string; code : string; created_at : Z; status : Status }.
End Room.

Module Player.
Record t : Type := mk
    { id : string; nickname : string; room_id : string; is_host : bool;
      turn_order : Z; created_at : Z }.
End Player.

Module Prompt.
Record t : Type := mk
    { id : string; type : PromptType; content : string; created_at : Z }.
End Prompt.

Module GameState.
Record t : Type := mk
    { id : string; room_id : string; current_player_id : string;
      current_prompt_id : option string; status : Status;
      created_at : Z; updated_at : Z }.
End GameState.

Module Response.
Record t : Type := mk
    { id : string; room_id : string; player_id : string; prompt_id : string;
      response : string; created_at : Z }.
End Response.

(** A response row with its embedded resources
    [players:player_id (nickname)] and [prompts:prompt_id (content, type)]. *)
Module ExtendedResponse.
Record t : Type := mk
    { row : Response.t;
      players : option string;
      prompts : option (string * PromptType) }.
End ExtendedResponse.

(** ** Ordering of a select: a stable insertion sort

    Rows with equal keys keep their table order (the store leaves their
    order open). *)

Section Order.
Context {A : Type} (le : A -> A -> bool).

(** [a] may come before [b] in the ordered result. *)
Definition precedes (a b : A) : Prop := le a b = true.

Fixpoint insert_by (x : A) (l : list A) : list A :=
    match l with
    | [] => [x]
    | y :: l' => if le x y then x :: l else y :: insert_by x l'
    end.

Definition order_by (l : list A) : list A := fold_right insert_by [] l.
End Order.

(** ** The store: tables, constraints, defaults and the [updated_at] trigger

    [uuid] stands for the value of [uuid_generate_v4()] and [now] for the
    value of [NOW()] at the statement.  An insert appends the row; a select
    without [order] returns the rows in table order.  A request is answered
    by the store: it fails on a primary key, unique or foreign key
    violation and on [.single()] over other than one row; the row level
    policies of the script allow every statement the pages issue. *)

Module Supabase.

Record t : Type := mk
  { rooms : list Room.t;
    players : list Player.t;
    prompts : list Prompt.t;
    game_state : list GameState.t;
    responses : list Response.t }.

(** The [{ data, error }] object a request resolves to. *)
Inductive Result (A : Type) : Type :=
| Data (data : A)
| Failure (code : string) (message : string).
Arguments Data {A} data.
Arguments Failure {A} code message.

(** PostgREST's error for [.single()] when the rows are not exactly one. *)
Definition PGRST116 : string := "PGRST116".

Definition single {A : Type} (rows : list A) : Result A :=
  match rows with
  | [row] => Data row
  | _ => Failure PGRST116 "JSON object requested, multiple (or no) rows returned"
  end.

Definition unique_violation {A : Type} : Result A :=
  Failure "23505" "duplicate key value violates unique constraint".

Definition foreign_key_violation {A : Type} : Result A :=
  Failure "23503" "insert or update on table violates foreign key constraint".

Definition has_room (db : t) (id : string) : bool :=
  existsb (fun r => (Room.id r =? id)%string) (rooms db).

Definition has_player (db : t) (id : string) : bool :=
  existsb (fun p => (Player.id p =? id)%string) (players db).

Definition has_prompt (db : t) (id : string) : bool :=
  existsb (fun p => (Prompt.id p =? id)%string) (prompts db).

(** [from("rooms").insert([{ code }]).select().single()]:
    [id], [created_at] and [status = 'waiting'] are column defaults;
    [code] is UNIQUE. *)
Definition insert_room (uuid : string) (now : Z) (code : string) (db : t)
  : t * Result Room.t :=
  if has_room db uuid
     || existsb (fun r => (Room.code r =? code)%string) (rooms db)
  then (db, unique_violation)
  else
    let row := Room.mk uuid code now waiting in
    (mk (rooms db ++ [row]) (players db) (prompts db) (game_state db)
        (responses db),
     Data row).

(** [from("rooms").select("id, status").eq("code", code).single()] *)
Definition select_room_by_code (code : string) (db : t) : Result Room.t :=
  single (filter (fun r => (Room.code r =? code)%string) (rooms db)).

(** [from("rooms").select("status").eq("id", id).single()] *)
Definition select_room_by_id (id : string) (db : t) : Result Room.t :=
  single (filter (fun r => (Room.id r =? id)%string) (rooms db)).

(** [from("rooms").update({ status }).eq("id", id)] *)
Definition update_room_status (id : string) (status : Status) (db : t)
  : t * Result unit :=
  (mk (map (fun r => if (Room.id r =? id)%string
                     then Room.mk (Room.id r) (Room.code r) (Room.created_at r) status
                     else r) (rooms db))
      (players db) (prompts db) (game_state db) (responses db),
   Data tt).

(** [from("players").insert([{ nickname, room_id, is_host, turn_order }])
    .select().single()]: [room_id] references [rooms(id)]. *)
Definition insert_player (uuid : string) (now : Z)
    (nickname room_id : string) (is_host : bool) (turn_order : Z) (db : t)
  : t * Result Player.t :=
  if has_player db uuid then (db, unique_violation)
  else if negb (has_room db room_id) then (db, foreign_key_violation)
  else
    let row := Player.mk uuid nickname room_id is_host turn_order now in
    (mk (rooms db) (players db ++ [row]) (prompts db) (game_state db)
        (responses db),
     Data row).

(** [.order("turn_order", { ascending: true })] *)
Definition by_turn_order (a b : Player.t) : bool :=
  Player.turn_order a <=? Player.turn_order b.

(** [.eq("room_id", roomId)] on [players] *)
Definition player_in_room (roomId : string) (p : Player.t) : bool :=
  (Player.room_id p =? roomId)%string.

(** [from("players").select("*").eq("room_id", roomId)
    .order("turn_order", { ascending: true })] *)
Definition select_players (roomId : string) (db : t) : Result (list Player.t) :=
  Data (order_by by_turn_order (filter (player_in_room roomId) (players db))).

(** [from("prompts").select("*").limit(n)] *)
Definition select_prompts_limit (n : nat) (db : t) : Result (list Prompt.t) :=
  Data (firstn n (prompts db)).

(** [from("prompts").select("*").eq("type", type)] *)
Definition select_prompts_by_type (type : PromptType) (db : t)
  : Result (list Prompt.t) :=
  Data (filter (fun p => PromptType_eqb (Prompt.type p) type) (prompts db)).

(** [from("prompts").select("*").eq("id", promptId).single()] *)
Definition select_prompt_by_id (promptId : string) (db : t) : Result Prompt.t :=
  single (filter (fun p => (Prompt.id p =? promptId)%string) (prompts db)).

(** [from("game_state").insert([{ room_id, current_player_id,
    current_prompt_id, status }])]: the three ids are foreign keys. *)
Definition insert_game_state (uuid : string) (now : Z)
    (room_id current_player_id current_prompt_id : string) (status : Status)
    (db : t) : t * Result unit :=
  if existsb (fun g => (GameState.id g =? uuid)%string) (game_state db)
  then (db, unique_violation)
  else if negb (has_room db room_id && has_player db current_player_id
                && has_prompt db current_prompt_id)
  then (db, foreign_key_violation)
  else
    let row := GameState.mk uuid room_id current_player_id
                 (Some current_prompt_id) status now now in
    (mk (rooms db) (players db) (prompts db) (game_state db ++ [row])
        (responses db),
     Data tt).

(** [.eq("room_id", roomId)] on [game_state] *)
Definition matches_room (roomId : string) (g : GameState.t) : bool :=
  (GameState.room_id g =? roomId)%string.

(** [from("game_state").select("*").eq("room_id", roomId).single()] *)
Definition select_game_state (roomId : string) (db : t) : Result GameState.t :=
  single (filter (matches_room roomId) (game_state db)).

(** [from("game_state").update({ current_player_id }).eq("room_id", roomId)];
    the trigger [update_game_state_updated_at] refreshes [updated_at] of every
    row the statement updates. *)
Definition update_current_player (now : Z) (roomId current_player_id : string)
    (db : t) : t * Result unit :=
  if existsb (matches_room roomId) (game_state db)
     && negb (has_player db current_player_id)
  then (db, foreign_key_violation)
  else
    (mk (rooms db) (players db) (prompts db)
        (map (fun g =>
                if matches_room roomId g
                then GameState.mk (GameState.id g) (GameState.room_id g)
                       current_player_id (GameState.current_prompt_id g)
                       (GameState.status g) (GameState.created_at g) now
                else g) (game_state db))
        (responses db),
     Data tt).

(** [from("game_state").update({ current_prompt_id }).eq("room_id", roomId)] *)
Definition update_current_prompt (now : Z) (roomId current_prompt_id : string)
    (db : t) : t * Result unit :=
  if existsb (matches_room roomId) (game_state db)
     && negb (has_prompt db current_prompt_id)
  then (db, foreign_key_violation)
  else
    (mk (rooms db) (players db) (prompts db)
        (map (fun g =>
                if matches_room roomId g
                then GameState.mk (GameState.id g) (GameState.room_id g)
                       (GameState.current_player_id g) (Some current_prompt_id)
                       (GameState.status g) (GameState.created_at g) now
                else g) (game_state db))
        (responses db),
     Data tt).

(** [from("responses").insert([{ room_id, player_id, prompt_id, response }])] *)
Definition insert_response (uuid : string) (now : Z)
    (room_id player_id prompt_id response : string) (db : t)
  : t * Result Response.t :=
  if existsb (fun r => (Response.id r =? uuid)%string) (responses db)
  then (db, unique_violation)
  else if negb (has_room db room_id && has_player db player_id
                && has_prompt db prompt_id)
  then (db, foreign_key_violation)
  else
    let row := Response.mk uuid room_id player_id prompt_id response now in
    (mk (rooms db) (players db) (prompts db) (game_state db)
        (responses db ++ [row]),
     Data row).

(** The embedded resources of a response row: the referenced player's
    nickname and the referenced prompt's content and type. *)
Definition embed (db : t) (r : Response.t) : ExtendedResponse.t :=
  ExtendedResponse.mk r
    (option_map Player.nickname
       (find (fun p => (Player.id p =? Response.player_id r)%string) (players db)))
    (option_map (fun p => (Prompt.content p, Prompt.type p))
       (find (fun p => (Prompt.id p =? Response.prompt_id r)%string) (prompts db))).

(** [.order("created_at", { ascending: false })] *)
Definition newest_first (a b : Response.t) : bool :=
  Response.created_at b <=? Response.created_at a.

(** [.eq("room_id", roomId)] on [responses] *)
Definition response_in_room (roomId : string) (r : Response.t) : bool :=
  (Response.room_id r =? roomId)%string.

(** [from("responses").select("*, players:player_id (nickname),
    prompts:prompt_id (content, type)").eq("room_id", roomId)
    .order("created_at", { ascending: false })] *)
Definition select_responses (roomId : string) (db : t)
  : Result (list ExtendedResponse.t) :=
  Data (map (embed db)
          (order_by newest_first (filter (response_in_room roomId) (responses db)))).

End Supabase.

(** ** Handlers as computations *)

(** How a block of statements ends: normally with a value, by [return], or
    by [throw]. *)
Inductive Completion (A : Type) : Type :=
| Normal (a : A)
| Return
| Throw (e : Js.Thrown).
Arguments Normal {A} a.
Arguments Return {A}.
Arguments Throw {A} e.

Definition M (W A : Type) : Type := W -> W * Completion A.

Definition ret {W A : Type} (a : A) : M W A := fun w => (w, Normal a).

Definition bind {W A B : Type} (c : M W A) (k : A -> M W B) : M W B :=
  fun w =>
    match c w with
    | (w', Normal a) => k a w'
    | (w', Return) => (w', Return)
    | (w', Throw e) => (w', Throw e)
    end.

Definition throw {W A : Type} (e : Js.Thrown) : M W A := fun w => (w, Throw e).

Definition return_ {W A : Type} : M W A := fun w => (w, Return).

Definition gets {W A : Type} (f : W -> A) : M W A := fun w => (w, Normal (f w)).

Definition modify {W : Type} (f : W -> W) : M W unit := fun w => (f w, Normal tt).

(** [try { body } catch (err) { handler } finally { fin }] as the last
    statement of a function. *)
Definition try_catch_finally {W : Type} (body : M W unit)
    (handler : Js.Thrown -> M W unit) (fin : M W unit) : M W unit :=
  fun w =>
    match body w with
    | (w', Throw e) =>
        match handler e w' with
        | (w'', c) => (fst (fin w''), c)
        end
    | (w', c) => (fst (fin w'), c)
    end.

Definition try_catch {W : Type} (body : M W unit)
    (handler : Js.Thrown -> M W unit) : M W unit :=
  try_catch_finally body handler (ret tt).

(** A call of an [async] function: its [return] ends the callee only; an
    error it does not catch is thrown at the [await]. *)
Definition call {W : Type} (f : M W unit) : M W unit :=
  fun w =>
    match f w with
    | (w', Return) => (w', Normal tt)
    | (w', c) => (w', c)
    end.

(** The world a handler leaves behind. *)
Definition exec {W A : Type} (c : M W A) (w : W) : W := fst (c w).

Declare Scope handler_scope.
Delimit Scope handler_scope with handler.
Notation "x <- c ;; k" := (bind c (fun x => k))
  (at level 61, c at next level, right associativity) : handler_scope.
Notation "c ;; k" := (bind c (fun _ => k))
  (at level 61, right associativity) : handler_scope.
Local Open Scope handler_scope.

(** ** The world of one browser tab *)

(** [sessionStorage] with the keys the pages use. *)
Module Session.
Record t : Type := mk
  { playerId : option string; roomId : option string;
    nickname : option string; roomCode : option string }.
Definition empty : t := mk None None None None.
End Session.

(** What a pending [setTimeout] will run.  [NextTurn] carries the values
    [handleNextTurn] reads from the render that scheduled it. *)
Inductive Task : Type :=
| HideConfetti
| NextTurn (roomId : option string) (gameState : option GameState.t)
    (players : list Player.t).

Record World (UI : Type) : Type := mkWorld
  { db : Supabase.t;
    session : Session.t;
    location : option string;
    timers : list (Task * Z);
    ui : UI }.
Arguments mkWorld {UI} db session location timers ui.
Arguments db {UI} w.
Arguments session {UI} w.
Arguments location {UI} w.
Arguments timers {UI} w.
Arguments ui {UI} w.

Section Primitives.
Context {UI : Type}.

(** A request that changes the store. *)
Definition request {A : Type} (op : Supabase.t -> Supabase.t * A) : M (World UI) A :=
  fun w =>
    let (db', a) := op (db w) in
    (mkWorld db' (session w) (location w) (timers w) (ui w), Normal a).

(** A request that only reads the store. *)
Definition query {A : Type} (op : Supabase.t -> A) : M (World UI) A :=
  gets (fun w => op (db w)).

(** A React state setter. *)
Definition setState (f : UI -> UI) : M (World UI) unit :=
  modify (fun w => mkWorld (db w) (session w) (location w) (timers w) (f (ui w))).

Definition state {A : Type} (f : UI -> A) : M (World UI) A :=
  gets (fun w => f (ui w)).

Definition getItem {A : Type} (f : Session.t -> A) : M (World UI) A :=
  gets (fun w => f (session w)).

Definition setItem (f : Session.t -> Session.t) : M (World UI) unit :=
  modify (fun w => mkWorld (db w) (f (session w)) (location w) (timers w) (ui w)).

Definition navigate (path : string) : M (World UI) unit :=
  modify (fun w => mkWorld (db w) (session w) (Some path) (timers w) (ui w)).

Definition setTimeout (task : Task) (delay : Z) : M (World UI) unit :=
  modify (fun w =>
    mkWorld (db w) (session w) (location w) (timers w ++ [(task, delay)]) (ui w)).

(** [useParams()] for a route [prefix:roomCode]. *)
Definition useParams (route : string) : M (World UI) (option string) :=
  gets (fun w =>
    match location w with
    | Some path =>
        if prefix route path
        then Some (substring (String.length route)
                     (String.length path - String.length route) path)
        else None
    | None => None
    end).

(** [if (error) throw error] on a resolved request. *)
Definition orThrow {A : Type} (r : Supabase.Result A) : M (World UI) A :=
  match r with
  | Supabase.Data a => ret a
  | Supabase.Failure code message => throw (Js.PostgrestError code message)
  end.

End Primitives.

(** ** CreateRoomPage.tsx *)

Module CreateRoomPage.

Record State : Type := mkState
  { nickname : string; loading : bool; error : string }.

Definition initial : State := mkState "" false "".

Definition setNickname (v : string) (s : State) : State :=
  mkState v (loading s) (error s).
Definition setLoading (v : bool) (s : State) : State :=
  mkState (nickname s) v (error s).
Definition setError (v : string) (s : State) : State :=
  mkState (nickname s) (loading s) v.

(** [Math.floor(100000 + Math.random() * 900000).toString()] *)
Definition generateRoomCode (random : Q) : string :=
  Js.toString (Js.floor (100000 + random * 900000)%Q).

(** [handleCreateRoom]: [random] is the value of [Math.random()], and
    [(room_uuid, room_now)], [(player_uuid, player_now)] the store's defaults
    for the two inserted rows.  [.single()] resolves to a row or to an error,
    so [roomError || !room] and [playerError || !player] are the error
    tests. *)
Definition handleCreateRoom (random : Q) (room_uuid : string) (room_now : Z)
    (player_uuid : string) (player_now : Z) : M (World State) unit :=
  setState (setLoading true) ;;
  setState (setError "") ;;
  let code := generateRoomCode random in
  try_catch_finally
    ((* 1. Create room *)
     r <- request (Supabase.insert_room room_uuid room_now code) ;;
     room <- orThrow r ;;
     (* 2. Add player as host *)
     nickname <- state nickname ;;
     r <- request (Supabase.insert_player player_uuid player_now
                     nickname (Room.id room) true 1) ;;
     player <- orThrow r ;;
     (* 3. Store player info in sessionStorage *)
     setItem (fun s => Session.mk (Some (Player.id player)) (Some (Room.id room))
                         (Session.nickname s) (Some code)) ;;
     (* 4. Navigate to lobby *)
     navigate ("/room/" ++ code))
    (fun err =>
       setState (setError (if Js.truthy (Js.message err) then Js.message err
                           else "Something went wrong")))
    (setState (setLoading false)).

End CreateRoomPage.

(** ** JoinRoomPage.tsx *)

Module JoinRoomPage.

Record State : Type := mkState
  { nickname : string; roomCode : string; loading : bool; error : string;
    isValidRoom : bool; isGameStarted : bool }.

Definition initial : State := mkState "" "" false "" false false.

Definition setNickname (v : string) (s : State) : State :=
  mkState v (roomCode s) (loading s) (error s) (isValidRoom s) (isGameStarted s).
Definition setRoomCode (v : string) (s : State) : State :=
  mkState (nickname s) v (loading s) (error s) (isValidRoom s) (isGameStarted s).
Definition setLoading (v : bool) (s : State) : State :=
  mkState (nickname s) (roomCode s) v (error s) (isValidRoom s) (isGameStarted s).
Definition setError (v : string) (s : State) : State :=
  mkState (nickname s) (roomCode s) (loading s) v (isValidRoom s) (isGameStarted s).
Definition setIsValidRoom (v : bool) (s : State) : State :=
  mkState (nickname s) (roomCode s) (loading s) (error s) v (isGameStarted s).
Definition setIsGameStarted (v : bool) (s : State) : State :=
  mkState (nickname s) (roomCode s) (loading s) (error s) (isValidRoom s) v.

(** The messages [handleJoinRoom] shows. *)
Definition msg_empty : string := "Please enter both nickname and room code".
Definition msg_not_found : string := "Room not found. Please check the room code.".
Definition msg_started : string := "Game has already started".
Definition msg_failed : string := "Failed to join room. Please try again.".

(** [checkRoomStatus] *)
Definition checkRoomStatus : M (World State) unit :=
  try_catch
    (roomCode <- state roomCode ;;
     r <- query (Supabase.select_room_by_code roomCode) ;;
     match r with
     | Supabase.Failure code message =>
         if (code =? Supabase.PGRST116)%string then
           (* No rows returned *)
           setState (setIsValidRoom false) ;;
           setState (setIsGameStarted false)
         else throw (Js.PostgrestError code message)
     | Supabase.Data data =>
         setState (setIsValidRoom true) ;;
         setState (setIsGameStarted (Status_eqb (Room.status data) active))
     end)
    (fun err =>
       setState (setError (Js.message err)) ;;
       setState (setIsValidRoom false) ;;
       setState (setIsGameStarted false)).

(** [handleJoinRoom]: [(uuid, now)] are the store's defaults for the player
    row it may insert.  [.single()] resolves to a row or to an error, so the
    [!room] test that follows the error test has no case of its own. *)
Definition handleJoinRoom (uuid : string) (now : Z) : M (World State) unit :=
  nickname <- state nickname ;;
  roomCode <- state roomCode ;;
  if negb (Js.truthy (Js.trim nickname)) || negb (Js.truthy (Js.trim roomCode))
  then
    setState (setError msg_empty) ;;
    return_
  else
    try_catch_finally
      (setState (setLoading true) ;;
       setState (setError "") ;;
       (* First check if room exists and is not started *)
       r <- query (Supabase.select_room_by_code roomCode) ;;
       room <- match r with
               | Supabase.Failure code message =>
                   if (code =? Supabase.PGRST116)%string
                   then throw (Js.Error msg_not_found)
                   else throw (Js.PostgrestError code message)
               | Supabase.Data room => ret room
               end ;;
       (if Status_eqb (Room.status room) active
        then throw (Js.Error msg_started)
        else ret tt) ;;
       (* Add player to room *)
       r <- request (Supabase.insert_player uuid now (Js.trim nickname)
                       (Room.id room) false 0) ;;
       player <- match r with
                 | Supabase.Failure _ _ => throw (Js.Error msg_failed)
                 | Supabase.Data player => ret player
                 end ;;
       (* Store player info in session storage *)
       setItem (fun s => Session.mk (Some (Player.id player)) (Some (Room.id room))
                           (Some (Js.trim nickname)) (Session.roomCode s)) ;;
       (* Navigate to room lobby *)
       navigate ("/room/" ++ roomCode))
      (fun err => setState (setError (Js.message err)))
      (setState (setLoading false)).

End JoinRoomPage.

(** ** RoomLobbyPage.tsx *)

Module RoomLobbyPage.

Record State : Type := mkState
  { players : list Player.t; loading : bool; error : string;
    isHost : bool; gameStarted : bool }.

Definition initial : State := mkState [] true "" false false.

Definition setPlayers (v : list Player.t) (s : State) : State :=
  mkState v (loading s) (error s) (isHost s) (gameStarted s).
Definition setLoading (v : bool) (s : State) : State :=
  mkState (players s) v (error s) (isHost s) (gameStarted s).
Definition setError (v : string) (s : State) : State :=
  mkState (players s) (loading s) v (isHost s) (gameStarted s).
Definition setIsHost (v : bool) (s : State) : State :=
  mkState (players s) (loading s) (error s) v (gameStarted s).
Definition setGameStarted (v : bool) (s : State) : State :=
  mkState (players s) (loading s) (error s) (isHost s) v.

Definition msg_no_prompts : string := "No prompts available".

(** [fetchPlayers] *)
Definition fetchPlayers : M (World State) unit :=
  try_catch_finally
    (roomId <- getItem Session.roomId ;;
     match roomId with
     | None => return_
     | Some roomId =>
         if negb (Js.truthy roomId) then return_
         else
           r <- query (Supabase.select_players roomId) ;;
           data <- orThrow r ;;
           setState (setPlayers data)
     end)
    (fun err => setState (setError (Js.message err)))
    (setState (setLoading false)).

(** [checkGameStatus] *)
Definition checkGameStatus : M (World State) unit :=
  try_catch
    (roomId <- getItem Session.roomId ;;
     match roomId with
     | None => return_
     | Some roomId =>
         if negb (Js.truthy roomId) then return_
         else
           r <- query (Supabase.select_room_by_id roomId) ;;
           data <- orThrow r ;;
           setState (setGameStarted (Status_eqb (Room.status data) active))
     end)
    (fun err => setState (setError (Js.message err))).

(** [startGame]: [players] is the roster of the render the button belongs
    to, [random] the value of [Math.random()], [(uuid, now)] the store's
    defaults for the [game_state] row. *)
Definition startGame (players : list Player.t) (random : Q)
    (uuid : string) (now : Z) : M (World State) unit :=
  try_catch
    (roomId <- getItem Session.roomId ;;
     match roomId with
     | None => return_
     | Some roomId =>
         if negb (Js.truthy roomId) then return_
         else
           (* Update room status to active *)
           request (Supabase.update_room_status roomId active) ;;
           (* Create initial game state *)
           let firstPlayer := Js.index players 0 in
           (* Get a random prompt using a different approach *)
           r <- query (Supabase.select_prompts_limit 100) ;;
           prompts <- orThrow r ;;
           (if Js.length prompts =? 0
            then throw (Js.Error msg_no_prompts)
            else ret tt) ;;
           (* Select a random prompt from the array *)
           let randomPrompt :=
             Js.index prompts
               (Js.floor (random * inject_Z (Js.length prompts))%Q) in
           (* Create game state with the random prompt *)
           firstPlayer <- match firstPlayer with
                          | None => throw Js.undefined_id
                          | Some p => ret p
                          end ;;
           randomPrompt <- match randomPrompt with
                           | None => throw Js.undefined_id
                           | Some p => ret p
                           end ;;
           r <- request (Supabase.insert_game_state uuid now roomId
                           (Player.id firstPlayer) (Prompt.id randomPrompt)
                           active) ;;
           orThrow r ;;
           roomCode <- useParams "/room/" ;;
           navigate ("/game/" ++ Js.template roomCode)
     end)
    (fun err => setState (setError (Js.message err))).

(** A click on the start button: the button is rendered for the host only
    and is disabled below two players. *)
Definition clickStart (random : Q) (uuid : string) (now : Z)
  : M (World State) unit :=
  isHost <- state isHost ;;
  players <- state players ;;
  if negb isHost || (Js.length players <? 2) then ret tt
  else call (startGame players random uuid now).

End RoomLobbyPage.

(** ** GamePage.tsx *)

Module GamePage.

Record State : Type := mkState
  { players : list Player.t;
    currentPrompt : option Prompt.t;
    gameState : option GameState.t;
    loading : bool;
    error : string;
    selectedType : option PromptType;
    isCurrentPlayer : bool;
    response : string;
    hasResponded : bool;
    responses : list ExtendedResponse.t;
    showTypeSelection : bool;
    showConfetti : bool }.

Definition initial : State :=
  mkState [] None None true "" None false "" false [] true false.

Definition setPlayers (v : list Player.t) (s : State) : State :=
  mkState v (currentPrompt s) (gameState s) (loading s) (error s)
    (selectedType s) (isCurrentPlayer s) (response s) (hasResponded s)
    (responses s) (showTypeSelection s) (showConfetti s).
Definition setCurrentPrompt (v : option Prompt.t) (s : State) : State :=
  mkState (players s) v (gameState s) (loading s) (error s)
    (selectedType s) (isCurrentPlayer s) (response s) (hasResponded s)
    (responses s) (showTypeSelection s) (showConfetti s).
Definition setGameState (v : option GameState.t) (s : State) : State :=
  mkState (players s) (currentPrompt s) v (loading s) (error s)
    (selectedType s) (isCurrentPlayer s) (response s) (hasResponded s)
    (responses s) (showTypeSelection s) (showConfetti s).
Definition setLoading (v : bool) (s : State) : State :=
  mkState (players s) (currentPrompt s) (gameState s) v (error s)
    (selectedType s) (isCurrentPlayer s) (response s) (hasResponded s)
    (responses s) (showTypeSelection s) (showConfetti s).
Definition setError (v : string) (s : State) : State :=
  mkState (players s) (currentPrompt s) (gameState s) (loading s) v
    (selectedType s) (isCurrentPlayer s) (response s) (hasResponded s)
    (responses s) (showTypeSelection s) (showConfetti s).
Definition setSelectedType (v : option PromptType) (s : State) : State :=
  mkState (players s) (currentPrompt s) (gameState s) (loading s) (error s)
    v (isCurrentPlayer s) (response s) (hasResponded s)
    (responses s) (showTypeSelection s) (showConfetti s).
Definition setIsCurrentPlayer (v : bool) (s : State) : State :=
  mkState (players s) (currentPrompt s) (gameState s) (loading s) (error s)
    (selectedType s) v (response s) (hasResponded s)
    (responses s) (showTypeSelection s) (showConfetti s).
Definition setResponse (v : string) (s : State) : State :=
  mkState (players s) (currentPrompt s) (gameState s) (loading s) (error s)
    (selectedType s) (isCurrentPlayer s) v (hasResponded s)
    (responses s) (showTypeSelection s) (showConfetti s).
Definition setHasResponded (v : bool) (s : State) : State :=
  mkState (players s) (currentPrompt s) (gameState s) (loading s) (error s)
    (selectedType s) (isCurrentPlayer s) (response s) v
    (responses s) (showTypeSelection s) (showConfetti s).
Definition setResponses (v : list ExtendedResponse.t) (s : State) : State :=
  mkState (players s) (currentPrompt s) (gameState s) (loading s) (error s)
    (selectedType s) (isCurrentPlayer s) (response s) (hasResponded s)
    v (showTypeSelection s) (showConfetti s).
Definition setShowTypeSelection (v : bool) (s : State) : State :=
  mkState (players s) (currentPrompt s) (gameState s) (loading s) (error s)
    (selectedType s) (isCurrentPlayer s) (response s) (hasResponded s)
    (responses s) v (showConfetti s).
Definition setShowConfetti (v : bool) (s : State) : State :=
  mkState (players s) (currentPrompt s) (gameState s) (loading s) (error s)
    (selectedType s) (isCurrentPlayer s) (response s) (hasResponded s)
    (responses s) (showTypeSelection s) v.

Definition msg_no_prompts : string := "No prompts found".

(** What the component returns: the three early returns before the game
    screen. *)
Inductive View : Type :=
| Loading
| ErrorView (message : string)
| GameNotFound
| Game.

Definition render (s : State) : View :=
  if loading s then Loading
  else if Js.truthy (error s) then ErrorView (error s)
  else match gameState s with
       | None => GameNotFound
       | Some _ => Game
       end.

(** [fetchCurrentPrompt] *)
Definition fetchCurrentPrompt (promptId : string) : M (World State) unit :=
  try_catch
    (r <- query (Supabase.select_prompt_by_id promptId) ;;
     data <- orThrow r ;;
     setState (setCurrentPrompt (Some data)))
    (fun err => setState (setError (Js.message err))).

(** [fetchGameState] *)
Definition fetchGameState : M (World State) unit :=
  try_catch_finally
    (roomId <- getItem Session.roomId ;;
     match roomId with
     | None => return_
     | Some roomId =>
         if negb (Js.truthy roomId) then return_
         else
           r <- query (Supabase.select_game_state roomId) ;;
           data <- orThrow r ;;
           setState (setGameState (Some data)) ;;
           match GameState.current_prompt_id data with
           | Some promptId =>
               if Js.truthy promptId then call (fetchCurrentPrompt promptId) else ret tt
           | None => ret tt
           end
     end)
    (fun err => setState (setError (Js.message err)))
    (setState (setLoading false)).

(** [fetchPlayers]: [gameState] is the one of the render that created the
    callback. *)
Definition fetchPlayers (gameState : option GameState.t) : M (World State) unit :=
  try_catch
    (roomId <- getItem Session.roomId ;;
     playerId <- getItem Session.playerId ;;
     match roomId with
     | None => return_
     | Some roomId =>
         if negb (Js.truthy roomId) then return_
         else
           r <- query (Supabase.select_players roomId) ;;
           data <- orThrow r ;;
           setState (setPlayers data) ;;
           (* Check if current player is the active player *)
           setState (setIsCurrentPlayer
             match gameState, playerId with
             | Some g, Some playerId =>
                 (GameState.current_player_id g =? playerId)%string
             | _, _ => false
             end)
     end)
    (fun err => setState (setError (Js.message err))).

(** [fetchResponses] *)
Definition fetchResponses : M (World State) unit :=
  try_catch
    (roomId <- getItem Session.roomId ;;
     match roomId with
     | None => return_
     | Some roomId =>
         if negb (Js.truthy roomId) then return_
         else
           r <- query (Supabase.select_responses roomId) ;;
           data <- orThrow r ;;
           setState (setResponses data)
     end)
    (fun err => setState (setError (Js.message err))).

(** The callback of the [game_state] subscription; [payload] is the row the
    change event carries. *)
Definition onGameStateChange (payload : option GameState.t) : M (World State) unit :=
  match payload with
  | None => ret tt
  | Some new =>
      setState (setGameState (Some new)) ;;
      match GameState.current_prompt_id new with
      | Some promptId =>
          if Js.truthy promptId then call (fetchCurrentPrompt promptId) else ret tt
      | None => ret tt
      end ;;
      setState (setShowTypeSelection true) ;;
      setState (setSelectedType None) ;;
      setState (setResponse "") ;;
      setState (setHasResponded false)
  end.

(** [handleTypeSelection]: [random] is the value of [Math.random()] and
    [now] the store's clock at the update. *)
Definition handleTypeSelection (type : PromptType) (random : Q) (now : Z)
  : M (World State) unit :=
  try_catch
    (setState (setSelectedType (Some type)) ;;
     setState (setShowTypeSelection false) ;;
     setState (setResponse "") ;;
     setState (setHasResponded false) ;;
     roomId <- getItem Session.roomId ;;
     match roomId with
     | None => return_
     | Some roomId =>
         if negb (Js.truthy roomId) then return_
         else
           (* Fetch all prompts of the selected type *)
           r <- query (Supabase.select_prompts_by_type type) ;;
           prompts <- orThrow r ;;
           (if Js.length prompts =? 0
            then throw (Js.Error msg_no_prompts)
            else ret tt) ;;
           (* Select a random prompt *)
           let randomPrompt :=
             Js.index prompts
               (Js.floor (random * inject_Z (Js.length prompts))%Q) in
           randomPrompt <- match randomPrompt with
                           | None => throw Js.undefined_id
                           | Some p => ret p
                           end ;;
           request (Supabase.update_current_prompt now roomId
                      (Prompt.id randomPrompt)) ;;
           ret tt
     end)
    (fun err => setState (setError (Js.message err))).

(** The two indices [handleNextTurn] computes.
    Get current player index: *)
Definition currentPlayerIndex (gameState : GameState.t) (players : list Player.t) : Z :=
  Js.findIndex
    (fun p => (Player.id p =? GameState.current_player_id gameState)%string)
    players.

(** Get next player index (loop back to start if at end): *)
Definition nextPlayerIndex (gameState : GameState.t) (players : list Player.t) : Z :=
  Js.rem (currentPlayerIndex gameState players + 1) (Js.length players).

(** [handleNextTurn]: [roomId], [gameState] and [players] are those of the
    render that created the function, [now] the store's clock at the
    update. *)
Definition handleNextTurn (roomId : option string)
    (gameState : option GameState.t) (players : list Player.t) (now : Z)
  : M (World State) unit :=
  try_catch
    (match roomId, gameState with
     | Some roomId, Some gameState =>
         if negb (Js.truthy roomId) || (Js.length players =? 0) then return_
         else
           let nextPlayer := Js.index players (nextPlayerIndex gameState players) in
           (* Update game state with next player *)
           nextPlayer <- match nextPlayer with
                         | None => throw Js.undefined_id
                         | Some p => ret p
                         end ;;
           r <- request (Supabase.update_current_player now roomId
                           (Player.id nextPlayer)) ;;
           orThrow r ;;
           setState (setShowTypeSelection true) ;;
           setState (setSelectedType None) ;;
           setState (setResponse "") ;;
           setState (setHasResponded false)
     | _, _ => return_
     end)
    (fun err => setState (setError (Js.message err))).

(** [handleSubmitResponse]: [(uuid, now)] are the store's defaults for the
    inserted response.  The two [setTimeout] calls are recorded as pending
    timers; the second closes over the [handleNextTurn] of this render. *)
Definition handleSubmitResponse (uuid : string) (now : Z) : M (World State) unit :=
  try_catch
    (roomId <- getItem Session.roomId ;;
     playerId <- getItem Session.playerId ;;
     currentPrompt <- state currentPrompt ;;
     response <- state response ;;
     gameState <- state gameState ;;
     players <- state players ;;
     match roomId, playerId, currentPrompt with
     | Some roomId', Some playerId, Some currentPrompt =>
         if negb (Js.truthy roomId') || negb (Js.truthy playerId) then return_
         else
           request (Supabase.insert_response uuid now roomId' playerId
                      (Prompt.id currentPrompt) (Js.trim response)) ;;
           setState (setHasResponded true) ;;
           setState (setShowConfetti true) ;;
           setTimeout HideConfetti 3000 ;;
           (* Automatically move to next turn after a short delay *)
           setTimeout (NextTurn roomId gameState players) 2000
     | _, _, _ => return_
     end)
    (fun err => setState (setError (Js.message err))).

(** A pending timer fires. *)
Definition fire (task : Task) (now : Z) : M (World State) unit :=
  match task with
  | HideConfetti => setState (setShowConfetti false)
  | NextTurn roomId gameState players =>
      call (handleNextTurn roomId gameState players now)
  end.

(** The same task fired once per element of [nows] (the store's clock at each
    firing): the worlds after each firing. *)
Fixpoint fires (task : Task) (nows : list Z) (w : World State)
  : list (World State) :=
  match nows with
  | [] => []
  | now :: nows' =>
      let w' := exec (fire task now) w in
      w' :: fires task nows' w'
  end.

(** The row a change event of the room's [game_state] carries as [new]. *)
Definition feed (roomId : option string) (db : Supabase.t) : option GameState.t :=
  match roomId with
  | None => None
  | Some roomId =>
      match Supabase.select_game_state roomId db with
      | Supabase.Data g => Some g
      | Supabase.Failure _ _ => None
      end
  end.

(** One advance by a client that is up to date: the change event of the last
    update has reached its subscription, and the [handleNextTurn] of the
    resulting render runs. *)
Definition advance (now : Z) : M (World State) unit :=
  roomId <- getItem Session.roomId ;;
  payload <- query (feed roomId) ;;
  call (onGameStateChange payload) ;;
  gameState <- state gameState ;;
  players <- state players ;;
  call (handleNextTurn roomId gameState players now).

(** Consecutive advances, one per element of [nows]. *)
Definition advances (nows : list Z) (w : World State) : World State :=
  fold_left (fun w now => exec (advance now) w) nows w.

End GamePage.

(** ** Observations of the store used in the statements *)

(** [current_player_id] as a client reads it for a room. *)
Definition stored_current_player (roomId : string) (db : Supabase.t) : option string :=
  match Supabase.select_game_state roomId db with
  | Supabase.Data g => Some (GameState.current_player_id g)
  | Supabase.Failure _ _ => None
  end.

(** [current_prompt_id] as a client reads it for a room. *)
Definition stored_current_prompt (roomId : string) (db : Supabase.t)
  : option (option string) :=
  match Supabase.select_game_state roomId db with
  | Supabase.Data g => Some (GameState.current_prompt_id g)
  | Supabase.Failure _ _ => None
  end.

(** Everything of a [game_state] row but [current_player_id] and the
    trigger-maintained [updated_at]. *)
Definition frame (g : GameState.t)
  : string * string * option string * Status * Z :=
  (GameState.id g, GameState.room_id g, GameState.current_prompt_id g,
   GameState.status g, GameState.created_at g).

Definition option_string_eqb (a b : option string) : bool :=
  match a, b with
  | Some x, Some y => (x =? y)%string
  | None, None => true
  | _, _ => false
  end.

(** How many times a value changes along a trace of observations. *)
Fixpoint changes (trace : list (option string)) : nat :=
  match trace with
  | a :: (b :: _) as rest =>
      ((if option_string_eqb a b then 0 else 1) + changes rest)%nat
  | _ => 0%nat
  end.

Definition descending (a b : ExtendedResponse.t) : Prop :=
  Response.created_at (ExtendedResponse.row b)
  <= Response.created_at (ExtendedResponse.row a).

(** The client's session and roster, the store's player table, and the
    roster index of the player the room's single [game_state] row names. *)
Definition at_turn (rid : string) (roster table : list Player.t) (i : nat)
    (w : World GamePage.State) : Prop :=
  Session.roomId (session w) = Some rid
  /\ GamePage.players (ui w) = roster
  /\ Supabase.players (db w) = table
  /\ exists g p,
       Supabase.select_game_state rid (db w) = Supabase.Data g
       /\ nth_error roster i = Some p
       /\ GameState.current_player_id g = Player.id p.


(** ** A game between a host and a joiner, used for concrete runs *)

Module Scenario.

(** The sample prompts [supabase_setup.sql] seeds. *)
Definition catalog : list Prompt.t :=
  [ Prompt.mk "prompt-1" truth
      "What is the most embarrassing thing you have done in public?" 0;
    Prompt.mk "prompt-2" truth "What is your biggest fear?" 0;
    Prompt.mk "prompt-3" truth "What is the worst lie you have ever told?" 0;
    Prompt.mk "prompt-4" dare "Do your best dance move right now!" 0;
    Prompt.mk "prompt-5" dare
      "Let someone in the room post anything they want on your social media." 0;
    Prompt.mk "prompt-6" dare
      "Call your mom and tell her you are getting married tomorrow." 0 ].

Definition seeded (prompts : list Prompt.t) : Supabase.t :=
  Supabase.mk [] [] prompts [] [].

(** Ann creates room 482913. *)
Definition ann_created (prompts : list Prompt.t) : World CreateRoomPage.State :=
  exec (CreateRoomPage.handleCreateRoom (382913 # 900000) "room-1" 10 "ann" 11)
    (mkWorld (seeded prompts) Session.empty (Some "/create") []
       (CreateRoomPage.setNickname "Ann" CreateRoomPage.initial)).

(** Somebody fills in the join form against a store. *)
Definition join_form (store : Supabase.t) (nickname roomCode : string)
  : World JoinRoomPage.State :=
  mkWorld store Session.empty (Some "/join") []
    (JoinRoomPage.setRoomCode roomCode
       (JoinRoomPage.setNickname nickname JoinRoomPage.initial)).

(** Bob joins it. *)
Definition bob_joined (prompts : list Prompt.t) : World JoinRoomPage.State :=
  exec (JoinRoomPage.handleJoinRoom "bob" 20)
    (join_form (db (ann_created prompts)) " Bob " "482913").

(** Ann's lobby once it has fetched the roster. *)
Definition ann_lobby (prompts : list Prompt.t) : World RoomLobbyPage.State :=
  exec RoomLobbyPage.fetchPlayers
    (mkWorld (db (bob_joined prompts)) (session (ann_created prompts))
       (location (ann_created prompts)) []
       (RoomLobbyPage.setIsHost true RoomLobbyPage.initial)).

(** Ann starts the game. *)
Definition ann_started (prompts : list Prompt.t) : World RoomLobbyPage.State :=
  exec (RoomLobbyPage.clickStart (1 # 2) "game-1" 30) (ann_lobby prompts).

(** A player's game page once its three initial fetches are done. *)
Definition game_page (store : Supabase.t) (session : Session.t)
  : World GamePage.State :=
  exec GamePage.fetchResponses
    (exec (GamePage.fetchPlayers None)
       (exec GamePage.fetchGameState
          (mkWorld store session (Some "/game/482913") [] GamePage.initial))).

Definition bob_game : World GamePage.State :=
  game_page (db (ann_started catalog)) (session (bob_joined catalog)).

(** Bob has typed his answer. *)
Definition bob_answering : World GamePage.State :=
  exec (setState (GamePage.setResponse " I once sang karaoke ")) bob_game.

(** The same game over a catalog without dares. *)
Definition truths : list Prompt.t :=
  filter (fun p => PromptType_eqb (Prompt.type p) truth) catalog.

Definition bob_game_truths : World GamePage.State :=
  game_page (db (ann_started truths)) (session (bob_joined truths)).



(** The rows the run above leaves in the store. *)
Definition ann : Player.t := Player.mk "ann" "Ann" "room-1" true 1 11.
Definition bob : Player.t := Player.mk "bob" "Bob" "room-1" false 0 20.
Definition dance : Prompt.t :=
  Prompt.mk "prompt-4" dare "Do your best dance move right now!" 0.
Definition opening : GameState.t :=
  GameState.mk "game-1" "room-1" "bob" (Some "prompt-4") active 30 30.

(** A stale [game_state] snapshot naming a player the roster does not hold. *)
Definition stale : GameState.t :=
  GameState.mk "game-1" "room-1" "carol" (Some "prompt-1") active 30 30.

End Scenario.

(** ** Further parts of the pages *)



(** [from("players").select("is_host").eq("id", playerId).single()] *)
Definition select_player_by_id (playerId : string) (db : Supabase.t)
  : Supabase.Result Player.t :=
  Supabase.single
    (filter (fun p => (Player.id p =? playerId)%string) (Supabase.players db)).

(** The hosts and the joiners of a room, in table order. *)
Definition hosts (roomId : string) (db : Supabase.t) : list Player.t :=
  filter (fun p => Supabase.player_in_room roomId p && Player.is_host p)
    (Supabase.players db).

Definition joiners (roomId : string) (db : Supabase.t) : list Player.t :=
  filter (fun p => Supabase.player_in_room roomId p && negb (Player.is_host p))
    (Supabase.players db).

(** The turn orders the two registration paths write: 1 for the host of
    [handleCreateRoom], 0 for a joiner of [handleJoinRoom]. *)
Definition registered (db : Supabase.t) : Prop :=
  forall p, In p (Supabase.players db) ->
    Player.turn_order p = if Player.is_host p then 1 else 0.

(** Every player row references a room row. *)
Definition players_reference_rooms (db : Supabase.t) : Prop :=
  forall p, In p (Supabase.players db) ->
    Supabase.has_room db (Player.room_id p) = true.

(** RoomLobbyPage.tsx, inside the effect: [checkHost], with the [playerId]
    the effect read from the session. *)
Definition checkHost (playerId : string) : M (World RoomLobbyPage.State) unit :=
  r <- query (select_player_by_id playerId) ;;
  setState (RoomLobbyPage.setIsHost
              match r with
              | Supabase.Data player => Player.is_host player
              | Supabase.Failure _ _ => false
              end).

(** RoomLobbyPage.tsx: [joinGame] *)
Definition joinGame : M (World RoomLobbyPage.State) unit :=
  roomCode <- useParams "/room/" ;;
  navigate ("/game/" ++ Js.template roomCode).

(** GamePage.tsx: what the returned tree renders of the turn controls. *)
Module GameView.

(** The game screen is returned only past the three early returns. *)
Definition onScreen (s : GamePage.State) : bool :=
  match GamePage.render s with
  | GamePage.Game => true
  | _ => false
  end.

(** [{isCurrentPlayer && showTypeSelection && (...)}] *)
Definition showsTypeSelection (s : GamePage.State) : bool :=
  onScreen s && GamePage.isCurrentPlayer s && GamePage.showTypeSelection s.

(** [{currentPrompt && !showTypeSelection && (...)}] *)
Definition showsPrompt (s : GamePage.State) : bool :=
  onScreen s &&
  match GamePage.currentPrompt s with
  | Some _ => negb (GamePage.showTypeSelection s)
  | None => false
  end.

(** [{isCurrentPlayer && !hasResponded && (...)}] inside the prompt panel *)
Definition showsSubmit (s : GamePage.State) : bool :=
  showsPrompt s && GamePage.isCurrentPlayer s && negb (GamePage.hasResponded s).

(** [disabled={!response.trim()}] *)
Definition submitEnabled (s : GamePage.State) : bool :=
  showsSubmit s && Js.truthy (Js.trim (GamePage.response s)).

(** A click on the submit button of the current render. *)
Definition clickSubmit (uuid : string) (now : Z) : M (World GamePage.State) unit :=
  enabled <- state submitEnabled ;;
  if enabled then call (GamePage.handleSubmitResponse uuid now) else ret tt.

(** A click on one of the two type buttons of the current render. *)
Definition clickType (type : PromptType) (random : Q) (now : Z)
  : M (World GamePage.State) unit :=
  shown <- state showsTypeSelection ;;
  if shown then call (GamePage.handleTypeSelection type random now) else ret tt.

End GameView.

(** No room has two hosts. *)
Definition at_most_one_host (db : Supabase.t) : Prop :=
  forall roomId, (List.length (hosts roomId db) <= 1)%nat.

(** Everything of a [game_state] row but [current_prompt_id] and the
    trigger-maintained [updated_at]. *)
Definition turn_frame (g : GameState.t) : string * string * string * Status * Z :=
  (GameState.id g, GameState.room_id g, GameState.current_player_id g,
   GameState.status g, GameState.created_at g).

(** The [game_state] rows of the other rooms. *)
Definition other_rooms (roomId : string) (db : Supabase.t) : list GameState.t :=
  filter (fun g => negb (Supabase.matches_room roomId g)) (Supabase.game_state db).

(** ** Further runs of the sample game *)

Module Play.

(** The create form with a nickname typed in. *)
Definition create_form (store : Supabase.t) (nickname : string)
  : World CreateRoomPage.State :=
  mkWorld store Session.empty (Some "/create") []
    (CreateRoomPage.setNickname nickname CreateRoomPage.initial).

(** Bob's join form before he submits it. *)
Definition bob_form : World JoinRoomPage.State :=
  Scenario.join_form (db (Scenario.ann_created Scenario.catalog)) " Bob " "482913".

(** A lobby of room 482913 at its first render. *)
Definition lobby (store : Supabase.t) (session : Session.t)
  : World RoomLobbyPage.State :=
  mkWorld store session (Some "/room/482913") [] RoomLobbyPage.initial.


(** Ann is back in the lobby after her start. *)
Definition ann_again : World RoomLobbyPage.State :=
  mkWorld (db (Scenario.ann_started Scenario.catalog))
    (session (Scenario.ann_created Scenario.catalog))
    (Some "/room/482913") [] (ui (Scenario.ann_lobby Scenario.catalog)).

(** A game page of room 482913 at its first render. *)
Definition fresh_page (store : Supabase.t) (session : Session.t)
  : World GamePage.State :=
  mkWorld store session (Some "/game/482913") [] GamePage.initial.

(** Bob's game page after the roster fetch of the render that holds the
    game state. *)
Definition bob_turn : World GamePage.State :=
  exec (GamePage.fetchPlayers (GamePage.gameState (ui Scenario.bob_game)))
    Scenario.bob_game.

(** Bob has chosen a dare and typed his answer. *)
Definition bob_typed : World GamePage.State :=
  exec (setState (GamePage.setResponse " I once sang karaoke "))
    (exec (GamePage.handleTypeSelection dare (1 # 3) 41) bob_turn).

(** Bob has submitted his answer. *)
Definition bob_submitted : World GamePage.State :=
  exec (GamePage.handleSubmitResponse "response-1" 40) Scenario.bob_answering.

(** The game state of a second room, in the same store. *)
Definition elsewhere : GameState.t :=
  GameState.mk "game-2" "room-2" "dan" (Some "prompt-1") active 35 35.

Definition two_rooms : World GamePage.State :=
  let store := db Scenario.bob_game in
  mkWorld
    (Supabase.mk (Supabase.rooms store) (Supabase.players store)
       (Supabase.prompts store) (Supabase.game_state store ++ [elsewhere])
       (Supabase.responses store))
    (session Scenario.bob_game) (location Scenario.bob_game) []
    (ui Scenario.bob_game).

End Play.

(** * Facts about the builtins *)

Section OrderFacts.
Context {A : Type} (le : A -> A -> bool).
Hypothesis le_total : forall a b, le a b = true \/ le b a = true.
Hypothesis le_trans : forall a b c, le a b = true -> le b c = true -> le a c = true.

Lemma insert_by_perm (x : A) (l : list A) :
  Permutation (x :: l) (insert_by le x l).
Proof.
  induction l as [|y l IH]; simpl.
  - apply Permutation_refl.
  - destruct (le x y).
    + apply Permutation_refl.
    + eapply perm_trans; [apply perm_swap|]. now apply perm_skip.
Qed.

Lemma order_by_perm (l : list A) : Permutation l (order_by le l).
Proof.
  induction l as [|x l IH]; simpl.
  - constructor.
  - eapply perm_trans; [apply perm_skip, IH|]. apply insert_by_perm.
Qed.

Lemma insert_by_sorted (x : A) (l : list A) :
  StronglySorted (precedes le) l -> StronglySorted (precedes le) (insert_by le x l).
Proof.
  induction 1 as [|y l Hs IH Hall]; simpl.
  - repeat constructor.
  - destruct (le x y) eqn:E.
    + constructor; [now constructor|].
      constructor; [exact E|].
      eapply Forall_impl; [|exact Hall]. intros z Hz. unfold precedes in *. eauto.
    + constructor; [exact IH|].
      assert (Hyx : precedes le y x) by (destruct (le_total x y); [congruence | assumption]).
      eapply Permutation_Forall; [apply insert_by_perm|].
      now constructor.
Qed.

Lemma order_by_sorted (l : list A) : StronglySorted (precedes le) (order_by le l).
Proof.
  induction l as [|x l IH]; simpl.
  - constructor.
  - now apply insert_by_sorted.
Qed.

End OrderFacts.

(** The first row of a sorted list dominates a row that dominates all the
    others strictly. *)
Lemma sorted_head {A : Type} (R : A -> A -> Prop) (key : A -> Z) (x : A) (l : list A) :
  (forall a b, R a b -> key b <= key a) ->
  StronglySorted R l ->
  In x l ->
  (forall y, In y l -> y = x \/ key y < key x) ->
  hd_error l = Some x.
Proof.
  intros HR Hs Hin Hmax. destruct Hs as [|h t Hs Hall]; [contradiction|].
  simpl. f_equal. destruct (Hmax h (or_introl eq_refl)) as [->|Hlt]; [reflexivity|].
  destruct Hin as [->|Hin]; [reflexivity|].
  rewrite Forall_forall in Hall. specialize (HR _ _ (Hall _ Hin)). lia.
Qed.

(** * The response log *)

Lemma fetchResponses_spec (w : World GamePage.State) (rid : string) :
  Session.roomId (session w) = Some rid ->
  Js.truthy rid = true ->
  exec GamePage.fetchResponses w
  = mkWorld (db w) (session w) (location w) (timers w)
      (GamePage.setResponses
         (map (Supabase.embed (db w))
            (order_by Supabase.newest_first
               (filter (Supabase.response_in_room rid)
                  (Supabase.responses (db w)))))
         (ui w)).
Proof.
  intros Hr Ht.
  unfold exec, GamePage.fetchResponses, try_catch, try_catch_finally, bind,
    getItem, gets, query, orThrow, setState, modify, ret, return_.
  simpl. rewrite Hr, Ht. reflexivity.
Qed.

Lemma handleSubmitResponse_spec (w : World GamePage.State)
    (rid pid uuid : string) (p : Prompt.t) (now : Z) :
  Session.roomId (session w) = Some rid -> Js.truthy rid = true ->
  Session.playerId (session w) = Some pid -> Js.truthy pid = true ->
  GamePage.currentPrompt (ui w) = Some p ->
  exec (GamePage.handleSubmitResponse uuid now) w
  = mkWorld
      (fst (Supabase.insert_response uuid now rid pid (Prompt.id p)
              (Js.trim (GamePage.response (ui w))) (db w)))
      (session w) (location w)
      ((timers w ++ [(HideConfetti, 3000)])
         ++ [(NextTurn (Some rid) (GamePage.gameState (ui w))
                (GamePage.players (ui w)), 2000)])
      (GamePage.setShowConfetti true (GamePage.setHasResponded true (ui w))).
Proof.
  intros Hr Ht Hp Htp Hc.
  unfold exec, GamePage.handleSubmitResponse, try_catch, try_catch_finally, bind,
    getItem, state, gets, request, setState, setTimeout, modify, ret, return_.
  simpl. rewrite Hr, Hp, Hc, Ht, Htp. simpl.
  destruct (Supabase.insert_response _ _ _ _ _ _ _) as [db' r]. reflexivity.
Qed.

Lemma newest_first_total (a b : Response.t) :
  Supabase.newest_first a b = true \/ Supabase.newest_first b a = true.
Proof. unfold Supabase.newest_first. lia. Qed.

Lemma newest_first_trans (a b c : Response.t) :
  Supabase.newest_first a b = true -> Supabase.newest_first b c = true ->
  Supabase.newest_first a c = true.
Proof. unfold Supabase.newest_first. lia. Qed.

Lemma StronglySorted_impl {A : Type} (R S : A -> A -> Prop) (l : list A) :
  (forall a b, R a b -> S a b) -> StronglySorted R l -> StronglySorted S l.
Proof.
  intros HRS. induction 1 as [|x l Hs IH Hall]; constructor; auto.
  eapply Forall_impl; [|exact Hall]. auto.
Qed.

Lemma StronglySorted_map {A B : Type} (f : A -> B) (R : B -> B -> Prop) (l : list A) :
  StronglySorted (fun a b => R (f a) (f b)) l -> StronglySorted R (map f l).
Proof.
  induction 1 as [|x l Hs IH Hall]; simpl; constructor; auto.
  rewrite Forall_forall in *. intros y Hy. apply in_map_iff in Hy.
  destruct Hy as [z [<- Hz]]. auto.
Qed.

(** What [select_responses] returns is the room's rows, newest first. *)
Lemma select_responses_sorted (rid : string) (db : Supabase.t) (l : list ExtendedResponse.t) :
  Supabase.select_responses rid db = Supabase.Data l ->
  StronglySorted descending l
  /\ Permutation (filter (Supabase.response_in_room rid) (Supabase.responses db))
       (map ExtendedResponse.row l).
Proof.
  unfold Supabase.select_responses. intros [= <-]. split.
  - apply StronglySorted_map.
    eapply StronglySorted_impl; [|apply (order_by_sorted Supabase.newest_first);
      [apply newest_first_total | apply newest_first_trans]].
    intros a b. unfold precedes, descending, Supabase.newest_first. simpl. lia.
  - rewrite map_map. simpl. rewrite map_id. apply order_by_perm.
Qed.

Lemma hd_error_map {A B : Type} (f : A -> B) (l : list A) (x : A) :
  hd_error l = Some x -> hd_error (map f l) = Some (f x).
Proof. destruct l; simpl; [discriminate|]. now intros [= ->]. Qed.

Lemma insert_response_ok (db : Supabase.t) (uuid rid pid prid text : string) (now : Z) :
  Supabase.has_room db rid = true ->
  Supabase.has_player db pid = true ->
  Supabase.has_prompt db prid = true ->
  existsb (fun r => (Response.id r =? uuid)%string) (Supabase.responses db) = false ->
  fst (Supabase.insert_response uuid now rid pid prid text db)
  = Supabase.mk (Supabase.rooms db) (Supabase.players db) (Supabase.prompts db)
      (Supabase.game_state db)
      (Supabase.responses db ++ [Response.mk uuid rid pid prid text now]).
Proof.
  intros Hr Hp Hq Hu. unfold Supabase.insert_response.
  rewrite Hu, Hr, Hp, Hq. reflexivity.
Qed.

(** C8. [fetchResponses] shows the room's responses ordered by creation time
    descending (most recent first), and a response recorded by
    [handleSubmitResponse] is at the head of what the next [fetchResponses]
    shows.  For the second part the store accepts the insert (the session's
    room and player and the shown prompt exist, the generated id is new) and
    stamps it later than the room's earlier responses. *)
Theorem submitted_response_heads_the_log (w : World GamePage.State) (rid : string) :
  Session.roomId (session w) = Some rid ->
  Js.truthy rid = true ->
  (let shown := GamePage.responses (ui (exec GamePage.fetchResponses w)) in
   StronglySorted descending shown
   /\ Permutation
        (filter (Supabase.response_in_room rid) (Supabase.responses (db w)))
        (map ExtendedResponse.row shown))
  /\ (forall (pid uuid : string) (p : Prompt.t) (now : Z),
        Session.playerId (session w) = Some pid -> Js.truthy pid = true ->
        GamePage.currentPrompt (ui w) = Some p ->
        Supabase.has_room (db w) rid = true ->
        Supabase.has_player (db w) pid = true ->
        Supabase.has_prompt (db w) (Prompt.id p) = true ->
        existsb (fun r => (Response.id r =? uuid)%string)
          (Supabase.responses (db w)) = false ->
        (forall r, In r (Supabase.responses (db w)) ->
                   Response.room_id r = rid -> Response.created_at r < now) ->
        let new := Response.mk uuid rid pid (Prompt.id p)
                     (Js.trim (GamePage.response (ui w))) now in
        let w' := exec GamePage.fetchResponses
                    (exec (GamePage.handleSubmitResponse uuid now) w) in
        hd_error (GamePage.responses (ui w')) = Some (Supabase.embed (db w') new)).
Proof.
  intros Hr Ht. split.
  - intros shown. subst shown. rewrite (fetchResponses_spec w rid Hr Ht).
    cbn [ui GamePage.responses GamePage.setResponses].
    now apply select_responses_sorted.
  - intros pid uuid p now Hp Htp Hc Hroom Hplayer Hprompt Hfresh Hlate new w'.
    subst w'.
    rewrite (handleSubmitResponse_spec w rid pid uuid p now Hr Ht Hp Htp Hc).
    rewrite (fetchResponses_spec _ rid) by assumption.
    rewrite insert_response_ok by assumption.
    cbn [db ui GamePage.responses GamePage.setResponses Supabase.responses].
    fold new.
    assert (Hfilter :
      filter (Supabase.response_in_room rid) (Supabase.responses (db w) ++ [new])
      = (filter (Supabase.response_in_room rid) (Supabase.responses (db w)) ++ [new])%list).
    { rewrite filter_app. simpl. unfold Supabase.response_in_room at 2. simpl.
      now rewrite String.eqb_refl. }
    rewrite Hfilter.
    apply hd_error_map.
    apply (sorted_head (precedes Supabase.newest_first) Response.created_at).
    + unfold precedes, Supabase.newest_first. intros a b. lia.
    + apply (order_by_sorted Supabase.newest_first);
        [apply newest_first_total | apply newest_first_trans].
    + eapply Permutation_in; [apply order_by_perm|]. apply in_or_app. right. now left.
    + intros y Hy.
      apply (Permutation_in _ (Permutation_sym (order_by_perm Supabase.newest_first _))) in Hy.
      apply in_app_or in Hy. destruct Hy as [Hy|[<-|[]]]; [right | now left].
      apply filter_In in Hy. destruct Hy as [Hin Hroom'].
      unfold Supabase.response_in_room in Hroom'. apply String.eqb_eq in Hroom'.
      simpl. now apply Hlate.
Qed.

(** * The turn engine *)

Lemma findIndex_range {A : Type} (f : A -> bool) (l : list A) :
  -1 <= Js.findIndex f l < Js.length l.
Proof.
  unfold Js.length. induction l as [|x l IH]; simpl List.length.
  - simpl. lia.
  - simpl Js.findIndex. destruct (f x); [lia|].
    destruct (Js.findIndex f l <? 0) eqn:E; lia.
Qed.

Lemma nextPlayerIndex_bounds (g : GameState.t) (players : list Player.t) :
  players <> [] ->
  0 <= GamePage.nextPlayerIndex g players < Js.length players.
Proof.
  intros Hne. unfold GamePage.nextPlayerIndex, GamePage.currentPlayerIndex, Js.rem.
  pose proof (findIndex_range
    (fun p => (Player.id p =? GameState.current_player_id g)%string) players) as Hr.
  assert (0 < Js.length players)
    by (unfold Js.length; destruct players; [congruence | simpl List.length; lia]).
  apply Z.rem_bound_pos; lia.
Qed.

Lemma index_defined {A : Type} (l : list A) (i : Z) :
  0 <= i < Js.length l -> exists x, Js.index l i = Some x /\ In x l.
Proof.
  unfold Js.index, Js.length. intros Hi.
  destruct (i <? 0) eqn:E; [lia|].
  destruct (nth_error l (Z.to_nat i)) as [x|] eqn:En.
  - exists x. split; [reflexivity|]. eapply nth_error_In; eauto.
  - apply nth_error_None in En. lia.
Qed.

Lemma length_zero_iff {A : Type} (l : list A) :
  (Js.length l =? 0) = true <-> l = [].
Proof.
  unfold Js.length. destruct l; simpl List.length; split; intros H;
    try reflexivity; try discriminate; lia.
Qed.

(** The world [handleNextTurn] leaves when its guard passes and the next
    player is defined: the single update, then the state resets or the
    caught store error. *)
Lemma handleNextTurn_run (w : World GamePage.State) (rid : string)
    (g : GameState.t) (players : list Player.t) (now : Z) (p : Player.t) :
  Js.truthy rid = true ->
  players <> [] ->
  Js.index players (GamePage.nextPlayerIndex g players) = Some p ->
  exec (GamePage.handleNextTurn (Some rid) (Some g) players now) w
  = match Supabase.update_current_player now rid (Player.id p) (db w) with
    | (db', Supabase.Data _) =>
        mkWorld db' (session w) (location w) (timers w)
          (GamePage.setHasResponded false
             (GamePage.setResponse ""
                (GamePage.setSelectedType None
                   (GamePage.setShowTypeSelection true (ui w)))))
    | (db', Supabase.Failure _ message) =>
        mkWorld db' (session w) (location w) (timers w)
          (GamePage.setError message (ui w))
    end.
Proof.
  intros Ht Hne Hp.
  assert (Hlen : (Js.length players =? 0) = false).
  { destruct (Js.length players =? 0) eqn:E; [|reflexivity].
    apply length_zero_iff in E. contradiction. }
  unfold exec, GamePage.handleNextTurn, try_catch, try_catch_finally, bind,
    request, orThrow, setState, modify, throw, ret, return_.
  rewrite Ht, Hlen, Hp. simpl.
  destruct (Supabase.update_current_player now rid (Player.id p) (db w))
    as [db' [[]|code message]]; reflexivity.
Qed.

(** In every case the store after [handleNextTurn] is the store before, or
    the store after one [update_current_player] statement. *)
Lemma handleNextTurn_db (roomId : option string) (gameState : option GameState.t)
    (players : list Player.t) (now : Z) (w : World GamePage.State) :
  db (exec (GamePage.handleNextTurn roomId gameState players now) w) = db w
  \/ exists rid pid,
       db (exec (GamePage.handleNextTurn roomId gameState players now) w)
       = fst (Supabase.update_current_player now rid pid (db w)).
Proof.
  destruct roomId as [rid|], gameState as [g|]; try (left; reflexivity).
  destruct (Js.truthy rid) eqn:Ht.
  2:{ left. unfold exec, GamePage.handleNextTurn, try_catch, try_catch_finally.
      rewrite Ht. reflexivity. }
  destruct players as [|q players'] eqn:Ep.
  { left. unfold exec, GamePage.handleNextTurn, try_catch, try_catch_finally.
    rewrite Ht. reflexivity. }
  rewrite <- Ep.
  assert (Hne : players <> []) by (subst; discriminate).
  destruct (index_defined players _ (nextPlayerIndex_bounds g players Hne))
    as [p [Hp _]].
  rewrite (handleNextTurn_run w rid g players now p Ht Hne Hp).
  right. exists rid, (Player.id p).
  destruct (Supabase.update_current_player now rid (Player.id p) (db w))
    as [db' [[]|code message]]; reflexivity.
Qed.

Lemma update_current_player_frame (now : Z) (rid pid : string) (db : Supabase.t) :
  let db' := fst (Supabase.update_current_player now rid pid db) in
  map frame (Supabase.game_state db') = map frame (Supabase.game_state db)
  /\ Supabase.rooms db' = Supabase.rooms db
  /\ Supabase.players db' = Supabase.players db
  /\ Supabase.prompts db' = Supabase.prompts db
  /\ Supabase.responses db' = Supabase.responses db.
Proof.
  unfold Supabase.update_current_player.
  destruct (existsb _ _ && negb _); simpl; repeat split; try reflexivity.
  rewrite map_map. apply map_ext. intros g.
  destruct (Supabase.matches_room rid g); reflexivity.
Qed.

Lemma frame_filter (rid : string) (l l' : list GameState.t) :
  map frame l = map frame l' ->
  map GameState.current_prompt_id (filter (Supabase.matches_room rid) l)
  = map GameState.current_prompt_id (filter (Supabase.matches_room rid) l').
Proof.
  revert l'. induction l as [|g l IH]; intros [|g' l'] H; try discriminate; [reflexivity|].
  simpl in H. injection H as _ Hroom Hprompt _ _ Hl.
  specialize (IH _ Hl).
  assert (Hm : Supabase.matches_room rid g = Supabase.matches_room rid g')
    by (unfold Supabase.matches_room; now rewrite Hroom).
  cbn [filter]. rewrite Hm.
  destruct (Supabase.matches_room rid g'); cbn [map]; congruence.
Qed.

Lemma stored_current_prompt_alt (rid : string) (db : Supabase.t) :
  stored_current_prompt rid db
  = match map GameState.current_prompt_id
            (filter (Supabase.matches_room rid) (Supabase.game_state db)) with
    | [x] => Some x
    | _ => None
    end.
Proof.
  unfold stored_current_prompt, Supabase.select_game_state, Supabase.single.
  destruct (filter _ _) as [|g [|g' l]]; reflexivity.
Qed.

(** C7. The write of [handleNextTurn] touches [current_player_id] only: in
    every [game_state] row the id, room, [current_prompt_id], [status] and
    [created_at] are as before, the prompt a client reads for any room is as
    before, and no other table changes. *)
Theorem advance_leaves_prompt_and_status
    (roomId : option string) (gameState : option GameState.t)
    (players : list Player.t) (now : Z) (w : World GamePage.State) :
  let db' := db (exec (GamePage.handleNextTurn roomId gameState players now) w) in
  map frame (Supabase.game_state db') = map frame (Supabase.game_state (db w))
  /\ (forall rid, stored_current_prompt rid db' = stored_current_prompt rid (db w))
  /\ Supabase.rooms db' = Supabase.rooms (db w)
  /\ Supabase.players db' = Supabase.players (db w)
  /\ Supabase.prompts db' = Supabase.prompts (db w)
  /\ Supabase.responses db' = Supabase.responses (db w).
Proof.
  intros db'.
  assert (H : map frame (Supabase.game_state db') = map frame (Supabase.game_state (db w))
              /\ Supabase.rooms db' = Supabase.rooms (db w)
              /\ Supabase.players db' = Supabase.players (db w)
              /\ Supabase.prompts db' = Supabase.prompts (db w)
              /\ Supabase.responses db' = Supabase.responses (db w)).
  { subst db'.
    destruct (handleNextTurn_db roomId gameState players now w) as [->|[rid [pid ->]]].
    - repeat split.
    - apply update_current_player_frame. }
  destruct H as [Hf Hrest]. split; [exact Hf|]. split; [|exact Hrest].
  intros rid. rewrite !stored_current_prompt_alt. now rewrite (frame_filter rid _ _ Hf).
Qed.

Lemma update_current_player_ok (now : Z) (rid pid : string) (db : Supabase.t) :
  Supabase.has_player db pid = true ->
  Supabase.update_current_player now rid pid db
  = (Supabase.mk (Supabase.rooms db) (Supabase.players db) (Supabase.prompts db)
       (map (fun g =>
               if Supabase.matches_room rid g
               then GameState.mk (GameState.id g) (GameState.room_id g) pid
                      (GameState.current_prompt_id g) (GameState.status g)
                      (GameState.created_at g) now
               else g) (Supabase.game_state db))
       (Supabase.responses db),
     Supabase.Data tt).
Proof.
  intros H. unfold Supabase.update_current_player. rewrite H.
  now rewrite andb_false_r.
Qed.

Lemma findIndex_none {A : Type} (f : A -> bool) (l : list A) :
  (forall x, In x l -> f x = false) -> Js.findIndex f l = -1.
Proof.
  induction l as [|x l IH]; intros H; [reflexivity|].
  simpl. rewrite (H x (or_introl eq_refl)).
  rewrite IH by (intros y Hy; apply H; now right). reflexivity.
Qed.

(** C5. With a non-empty fetched roster [handleNextTurn] never reads past the
    roster and never writes a foreign player: whatever player the (possibly
    stale) [gameState] names, the next index is within bounds, the handler
    raises no error, and every [game_state] row of the room ends with the id
    of the roster's player at that index.  When the named player is not in
    the roster the index is 0. *)
Theorem next_turn_stays_in_roster
    (w : World GamePage.State) (rid : string) (g : GameState.t)
    (players : list Player.t) (now : Z) :
  Js.truthy rid = true ->
  players <> [] ->
  (forall p, In p players -> Supabase.has_player (db w) (Player.id p) = true) ->
  let i := GamePage.nextPlayerIndex g players in
  let w' := exec (GamePage.handleNextTurn (Some rid) (Some g) players now) w in
  0 <= i < Js.length players
  /\ ((forall q, In q players -> Player.id q <> GameState.current_player_id g) -> i = 0)
  /\ exists p,
       Js.index players i = Some p
       /\ In p players
       /\ GamePage.error (ui w') = GamePage.error (ui w)
       /\ forall g', In g' (Supabase.game_state (db w')) ->
                     GameState.room_id g' = rid ->
                     GameState.current_player_id g' = Player.id p.
Proof.
  intros Ht Hne Hfk i w'.
  pose proof (nextPlayerIndex_bounds g players Hne) as Hb. fold i in Hb.
  split; [exact Hb|]. split.
  - intros Hstale. subst i.
    unfold GamePage.nextPlayerIndex, GamePage.currentPlayerIndex.
    rewrite findIndex_none.
    + simpl. apply Z.rem_0_l. unfold Js.length.
      destruct players; [congruence | simpl List.length; lia].
    + intros q Hq. apply String.eqb_neq. now apply Hstale.
  - destruct (index_defined players i Hb) as [p [Hp Hin]].
    exists p. split; [exact Hp|]. split; [exact Hin|].
    subst w'. rewrite (handleNextTurn_run w rid g players now p Ht Hne Hp).
    rewrite (update_current_player_ok now rid (Player.id p) (db w) (Hfk p Hin)).
    split; [reflexivity|].
    cbn [db Supabase.game_state]. intros g' Hg' Hroom.
    apply in_map_iff in Hg'. destruct Hg' as [g0 [Hg0 _]].
    unfold Supabase.matches_room in Hg0.
    destruct (GameState.room_id g0 =? rid)%string eqn:E.
    + now subst g'.
    + subst g'. apply String.eqb_neq in E. contradiction.
Qed.

Lemma exec_call {W : Type} (f : M W unit) (w : W) : exec (call f) w = exec f w.
Proof. unfold exec, call. destruct (f w) as [w' []]; reflexivity. Qed.

(** The change event reaches the subscription: the component holds the new
    row; the store, the session and the roster it holds are untouched. *)
Lemma onGameStateChange_run (g : GameState.t) (w : World GamePage.State) :
  exists u,
    call (GamePage.onGameStateChange (Some g)) w
    = (mkWorld (db w) (session w) (location w) (timers w) u, Normal tt)
    /\ GamePage.gameState u = Some g
    /\ GamePage.players u = GamePage.players (ui w).
Proof.
  unfold GamePage.onGameStateChange.
  destruct (GameState.current_prompt_id g) as [promptId|].
  - destruct (Js.truthy promptId).
    + unfold call, GamePage.fetchCurrentPrompt, try_catch, try_catch_finally, bind,
        query, gets, orThrow, setState, modify, throw, ret. cbn.
      destruct (Supabase.select_prompt_by_id promptId (db w)) as [pr|c m]; cbn;
        eexists; (split; [reflexivity|]); split; reflexivity.
    + eexists. split; [reflexivity|]. split; reflexivity.
  - eexists. split; [reflexivity|]. split; reflexivity.
Qed.

Lemma advance_run (w : World GamePage.State) (rid : string) (g : GameState.t)
    (now : Z) (p : Player.t) :
  Session.roomId (session w) = Some rid ->
  Js.truthy rid = true ->
  Supabase.select_game_state rid (db w) = Supabase.Data g ->
  GamePage.players (ui w) <> [] ->
  Js.index (GamePage.players (ui w))
    (GamePage.nextPlayerIndex g (GamePage.players (ui w))) = Some p ->
  Supabase.has_player (db w) (Player.id p) = true ->
  let w' := exec (GamePage.advance now) w in
  db w' = fst (Supabase.update_current_player now rid (Player.id p) (db w))
  /\ session w' = session w
  /\ GamePage.players (ui w') = GamePage.players (ui w).
Proof.
  intros Hr Ht Hg Hne Hp Hfk w'. subst w'.
  destruct (onGameStateChange_run g w) as [u [Hrun [Hgs Hpl]]].
  unfold exec, GamePage.advance, bind, getItem, query, state, gets, GamePage.feed.
  rewrite Hr, Hg, Hrun. cbn [ui]. rewrite Hgs, Hpl.
  fold (exec (call (GamePage.handleNextTurn (Some rid) (Some g)
                      (GamePage.players (ui w)) now))
             (mkWorld (db w) (session w) (location w) (timers w) u)).
  rewrite exec_call, (handleNextTurn_run _ rid g _ now p Ht Hne Hp).
  cbn [db session location timers ui].
  rewrite (update_current_player_ok now rid (Player.id p) (db w) Hfk).
  cbn. now rewrite Hpl.
Qed.

Lemma single_data {A : Type} (l : list A) (x : A) :
  Supabase.single l = Supabase.Data x -> l = [x].
Proof. destruct l as [|y [|z l]]; simpl; intros H; now inversion H. Qed.

(** After the update a client reads the written player for the room. *)
Lemma select_after_update (now : Z) (rid pid : string) (db : Supabase.t)
    (g : GameState.t) :
  Supabase.has_player db pid = true ->
  Supabase.select_game_state rid db = Supabase.Data g ->
  Supabase.select_game_state rid
    (fst (Supabase.update_current_player now rid pid db))
  = Supabase.Data
      (GameState.mk (GameState.id g) (GameState.room_id g) pid
         (GameState.current_prompt_id g) (GameState.status g)
         (GameState.created_at g) now).
Proof.
  intros Hfk Hsel. rewrite (update_current_player_ok now rid pid db Hfk).
  unfold Supabase.select_game_state in *. cbn [fst Supabase.game_state].
  apply single_data in Hsel.
  set (f := fun g0 => if Supabase.matches_room rid g0 then _ else g0).
  assert (Hcomm : forall l,
    filter (Supabase.matches_room rid) (map f l)
    = map f (filter (Supabase.matches_room rid) l)).
  { induction l as [|x l IH]; [reflexivity|]. cbn [map filter].
    assert (Hm : Supabase.matches_room rid (f x) = Supabase.matches_room rid x).
    { unfold f. destruct (Supabase.matches_room rid x) eqn:E; [|exact E].
      exact E. }
    rewrite Hm. destruct (Supabase.matches_room rid x); cbn [map]; now rewrite IH. }
  rewrite Hcomm, Hsel. cbn [map Supabase.single]. unfold f.
  assert (Hin : In g (filter (Supabase.matches_room rid) (Supabase.game_state db)))
    by (rewrite Hsel; now left).
  apply filter_In in Hin. destruct Hin as [_ ->]. reflexivity.
Qed.

Lemma findIndex_nth (players : list Player.t) (i : nat) (p : Player.t) :
  NoDup (map Player.id players) ->
  nth_error players i = Some p ->
  Js.findIndex (fun q => (Player.id q =? Player.id p)%string) players = Z.of_nat i.
Proof.
  revert i. induction players as [|x l IH]; intros i Hnd Hn.
  - destruct i; discriminate.
  - simpl in Hnd. inversion Hnd as [|? ? Hnotin Hnd']; subst.
    destruct i as [|i]; simpl in Hn.
    + injection Hn as ->. simpl. now rewrite String.eqb_refl.
    + simpl Js.findIndex.
      destruct (Player.id x =? Player.id p)%string eqn:E.
      * apply String.eqb_eq in E. exfalso. apply Hnotin. rewrite E.
        apply in_map. eapply nth_error_In; eauto.
      * rewrite (IH i Hnd' Hn).
        destruct (Z.of_nat i <? 0) eqn:E'; lia.
Qed.

Lemma nextPlayerIndex_cyclic (g : GameState.t) (players : list Player.t)
    (i : nat) (p : Player.t) :
  NoDup (map Player.id players) ->
  nth_error players i = Some p ->
  GameState.current_player_id g = Player.id p ->
  GamePage.nextPlayerIndex g players
  = Z.of_nat ((i + 1) mod List.length players).
Proof.
  intros Hnd Hn Hc.
  unfold GamePage.nextPlayerIndex, GamePage.currentPlayerIndex, Js.rem, Js.length.
  rewrite Hc, (findIndex_nth players i p Hnd Hn).
  assert (i < List.length players)%nat by (apply nth_error_Some; congruence).
  rewrite Z.rem_mod_nonneg by lia.
  rewrite Nat2Z.inj_mod. f_equal. lia.
Qed.

Section Cycle.
Variable rid : string.
Variable roster : list Player.t.
Variable table : list Player.t.
Hypothesis rid_truthy : Js.truthy rid = true.
Hypothesis roster_ids : NoDup (map Player.id roster).
Hypothesis roster_stored :
  forall q, In q roster ->
    existsb (fun p => (Player.id p =? Player.id q)%string) table = true.

Lemma at_turn_read (i : nat) (w : World GamePage.State) :
  at_turn rid roster table i w ->
  stored_current_player rid (db w) = option_map Player.id (nth_error roster i).
Proof.
  intros (_ & _ & _ & g & p & Hsel & Hn & Hc).
  unfold stored_current_player. now rewrite Hsel, Hn, Hc.
Qed.

Lemma advance_at_turn (now : Z) (i : nat) (w : World GamePage.State) :
  at_turn rid roster table i w ->
  at_turn rid roster table ((i + 1) mod List.length roster)
    (exec (GamePage.advance now) w).
Proof.
  intros (Hr & Hpl & Htab & g & p & Hsel & Hn & Hc).
  assert (Hlt : (i < List.length roster)%nat) by (apply nth_error_Some; congruence).
  assert (Hne : roster <> []) by (destruct roster; [simpl in Hlt; lia | discriminate]).
  pose proof (nextPlayerIndex_cyclic g roster i p roster_ids Hn Hc) as Hnext.
  set (j := ((i + 1) mod List.length roster)%nat) in *.
  assert (Hj : (j < List.length roster)%nat) by (apply Nat.mod_upper_bound; lia).
  destruct (nth_error roster j) as [q|] eqn:Hq;
    [|apply nth_error_None in Hq; lia].
  assert (Hidx : Js.index roster (GamePage.nextPlayerIndex g roster) = Some q).
  { rewrite Hnext. unfold Js.index.
    destruct (Z.of_nat j <? 0) eqn:E; [lia|]. now rewrite Nat2Z.id. }
  assert (Hfk : Supabase.has_player (db w) (Player.id q) = true).
  { unfold Supabase.has_player. rewrite Htab. apply roster_stored.
    eapply nth_error_In; eauto. }
  rewrite <- Hpl in Hne, Hidx.
  destruct (advance_run w rid g now q Hr rid_truthy Hsel Hne Hidx Hfk)
    as (Hdb & Hses & Hpl').
  unfold at_turn. rewrite Hses, Hpl', Hdb. repeat split; try assumption.
  - rewrite (update_current_player_ok now rid (Player.id q) (db w) Hfk). exact Htab.
  - eexists _, q. split; [apply select_after_update; eassumption|]. split; [exact Hq|].
    reflexivity.
Qed.

Lemma advances_at_turn (nows : list Z) (i : nat) (w : World GamePage.State) :
  at_turn rid roster table i w ->
  at_turn rid roster table ((i + List.length nows) mod List.length roster)
    (GamePage.advances nows w).
Proof.
  revert i w. induction nows as [|now nows IH]; intros i w H.
  - simpl. rewrite Nat.add_0_r.
    destruct H as (Hr & Hpl & Htab & g & p & Hsel & Hn & Hc).
    assert (i < List.length roster)%nat by (apply nth_error_Some; congruence).
    rewrite Nat.mod_small by assumption.
    unfold at_turn. eauto 10.
  - unfold GamePage.advances in *. cbn [fold_left].
    specialize (IH _ _ (advance_at_turn now i w H)).
    replace ((i + List.length (now :: nows)) mod List.length roster)%nat
      with (((i + 1) mod List.length roster + List.length nows) mod List.length roster)%nat;
      [exact IH|].
    cbn [List.length].
    destruct H as (_ & _ & _ & g & p & _ & Hn & _).
    assert (i < List.length roster)%nat by (apply nth_error_Some; congruence).
    rewrite Nat.Div0.add_mod_idemp_l. f_equal. lia.
Qed.

End Cycle.

(** C1. Turn advance is a cyclic permutation of the roster: when the room's
    [game_state] row names the roster's player at index [i], one advance makes
    it name the player at index [(i + 1) mod N], [k] consecutive advances the
    player at index [(i + k) mod N], and [N] consecutive advances the player it
    started from.  The roster is the client's fetched one: its ids are
    distinct and its players are rows of the store. *)
Theorem turn_advance_is_cyclic
    (w : World GamePage.State) (rid : string) (g : GameState.t) (i : nat)
    (p : Player.t) :
  Session.roomId (session w) = Some rid ->
  Js.truthy rid = true ->
  NoDup (map Player.id (GamePage.players (ui w))) ->
  (forall q, In q (GamePage.players (ui w)) ->
             Supabase.has_player (db w) (Player.id q) = true) ->
  Supabase.select_game_state rid (db w) = Supabase.Data g ->
  nth_error (GamePage.players (ui w)) i = Some p ->
  GameState.current_player_id g = Player.id p ->
  let roster := GamePage.players (ui w) in
  let N := List.length roster in
  (exists q, nth_error roster ((i + 1) mod N) = Some q
             /\ forall now,
                  stored_current_player rid (db (exec (GamePage.advance now) w))
                  = Some (Player.id q))
  /\ (forall nows,
        stored_current_player rid (db (GamePage.advances nows w))
        = option_map Player.id (nth_error roster ((i + List.length nows) mod N)))
  /\ (forall nows,
        List.length nows = N ->
        stored_current_player rid (db (GamePage.advances nows w))
        = stored_current_player rid (db w)).
Proof.
  intros Hr Ht Hnd Hfk Hsel Hn Hc roster N.
  assert (Hat : at_turn rid roster (Supabase.players (db w)) i w).
  { unfold at_turn. repeat split; try assumption; try reflexivity.
    exists g, p. auto. }
  assert (Hsteps : forall nows,
    stored_current_player rid (db (GamePage.advances nows w))
    = option_map Player.id (nth_error roster ((i + List.length nows) mod N))).
  { intros nows. apply (at_turn_read rid roster (Supabase.players (db w))).
    now apply advances_at_turn. }
  assert (HiN : (i < N)%nat) by (apply nth_error_Some; unfold roster in *; congruence).
  split; [|split].
  - destruct (nth_error roster ((i + 1) mod N)) as [q|] eqn:Hq.
    + exists q. split; [reflexivity|]. intros now.
      specialize (Hsteps [now]). cbn [List.length] in Hsteps.
      rewrite Hq in Hsteps. exact Hsteps.
    + apply nth_error_None in Hq.
      assert ((i + 1) mod N < N)%nat by (apply Nat.mod_upper_bound; lia). fold N in Hq. lia.
  - exact Hsteps.
  - intros nows Hlen. rewrite Hsteps, Hlen.
    replace ((i + N) mod N)%nat with i.
    + unfold stored_current_player. rewrite Hsel. unfold roster. rewrite Hn. simpl.
      now rewrite Hc.
    + rewrite <- (Nat.mul_1_l N) at 1. rewrite Nat.Div0.mod_add.
      symmetry. now apply Nat.mod_small.
Qed.

(** * Duplicate triggers *)

Lemma findIndex_spec {A : Type} (f : A -> bool) (l : list A) :
  (Js.findIndex f l = -1 /\ forall x, In x l -> f x = false)
  \/ exists i x, Js.findIndex f l = Z.of_nat i /\ nth_error l i = Some x /\ f x = true.
Proof.
  induction l as [|y l IH].
  - left. split; [reflexivity|]. intros x [].
  - simpl Js.findIndex. destruct (f y) eqn:E.
    + right. exists 0%nat, y. auto.
    + destruct IH as [[Hm Hall]|(i & x & Hi & Hn & Hx)].
      * left. rewrite Hm. simpl. split; [reflexivity|].
        intros x [<-|Hx]; auto.
      * right. exists (S i), x. rewrite Hi.
        destruct (Z.of_nat i <? 0) eqn:E'; [lia|]. split; [lia|]. auto.
Qed.

(** With two players or more the next player is not the current one. *)
Lemma next_player_differs (g : GameState.t) (players : list Player.t) (q : Player.t) :
  NoDup (map Player.id players) ->
  (2 <= List.length players)%nat ->
  Js.index players (GamePage.nextPlayerIndex g players) = Some q ->
  Player.id q <> GameState.current_player_id g.
Proof.
  intros Hnd Hlen Hq.
  destruct (findIndex_spec
    (fun p => (Player.id p =? GameState.current_player_id g)%string) players)
    as [[Hm Hall]|(i & x & Hi & Hn & Hx)].
  - assert (Hin : In q players).
    { unfold Js.index in Hq. destruct (_ <? 0); [discriminate|].
      eapply nth_error_In; eauto. }
    specialize (Hall q Hin). now apply String.eqb_neq in Hall.
  - apply String.eqb_eq in Hx.
    rewrite (nextPlayerIndex_cyclic g players i x Hnd Hn (eq_sym Hx)) in Hq.
    unfold Js.index in Hq. destruct (_ <? 0); [discriminate|].
    rewrite Nat2Z.id in Hq. intros Heq.
    assert (Hi' : (i < List.length players)%nat) by (apply nth_error_Some; congruence).
    assert (Hij : ((i + 1) mod List.length players)%nat = i).
    { rewrite NoDup_nth_error in Hnd. apply Hnd.
      - rewrite length_map. apply Nat.mod_upper_bound. lia.
      - rewrite !nth_error_map, Hq, Hn. simpl. congruence. }
    destruct (Nat.eq_dec (i + 1) (List.length players)) as [E|E].
    + rewrite E, Nat.Div0.mod_same in Hij. lia.
    + rewrite Nat.mod_small in Hij by lia. lia.
Qed.

Lemma changes_cons (a b : option string) (l : list (option string)) :
  changes (a :: b :: l)
  = ((if option_string_eqb a b then 0 else 1) + changes (b :: l))%nat.
Proof. reflexivity. Qed.

Lemma option_string_eqb_eq (a b : option string) :
  option_string_eqb a b = true <-> a = b.
Proof.
  destruct a as [x|], b as [y|]; simpl; split; intros H;
    try discriminate; try reflexivity.
  - apply String.eqb_eq in H. now subst.
  - injection H as ->. apply String.eqb_refl.
Qed.

Lemma changes_repeat (b : option string) (n : nat) : changes (repeat b n) = 0%nat.
Proof.
  induction n as [|n IH]; [reflexivity|].
  destruct n; [reflexivity|].
  change (repeat b (S (S n))) with (b :: b :: repeat b n).
  rewrite changes_cons. change (b :: repeat b n) with (repeat b (S n)).
  rewrite IH. now rewrite (proj2 (option_string_eqb_eq b b) eq_refl).
Qed.

Lemma changes_once (a b : option string) (n : nat) :
  a <> b -> changes (a :: repeat b (S n)) = 1%nat.
Proof.
  intros Hab. change (repeat b (S n)) with (b :: repeat b n).
  rewrite changes_cons. change (b :: repeat b n) with (repeat b (S n)).
  rewrite changes_repeat.
  destruct (option_string_eqb a b) eqn:E; [|reflexivity].
  apply option_string_eqb_eq in E. contradiction.
Qed.

(** Every firing of the same trigger leaves the room with the player that
    trigger computed from its own closure. *)
Lemma fires_trace (rid : string) (g : GameState.t) (players : list Player.t)
    (q : Player.t) (nows : list Z) (w : World GamePage.State) :
  Js.truthy rid = true ->
  players <> [] ->
  Js.index players (GamePage.nextPlayerIndex g players) = Some q ->
  Supabase.has_player (db w) (Player.id q) = true ->
  (exists g0, Supabase.select_game_state rid (db w) = Supabase.Data g0) ->
  map (fun w' => stored_current_player rid (db w'))
    (GamePage.fires (NextTurn (Some rid) (Some g) players) nows w)
  = repeat (Some (Player.id q)) (List.length nows).
Proof.
  intros Ht Hne Hq. revert w.
  induction nows as [|now nows IH]; intros w Hfk [g0 Hsel]; [reflexivity|].
  cbn [GamePage.fires map List.length repeat].
  set (w' := exec (GamePage.fire _ now) w).
  assert (Hdb : db w' = fst (Supabase.update_current_player now rid (Player.id q) (db w))).
  { unfold w', GamePage.fire. rewrite exec_call.
    rewrite (handleNextTurn_run w rid g players now q Ht Hne Hq).
    rewrite (update_current_player_ok now rid (Player.id q) (db w) Hfk). reflexivity. }
  pose proof (select_after_update now rid (Player.id q) (db w) g0 Hfk Hsel) as Hsel'.
  rewrite <- Hdb in Hsel'.
  f_equal.
  - unfold stored_current_player. now rewrite Hsel'.
  - apply IH.
    + rewrite Hdb, (update_current_player_ok now rid (Player.id q) (db w) Hfk). exact Hfk.
    + eauto.
Qed.

Lemma insert_response_frame (uuid rid pid prid text : string) (now : Z) (db : Supabase.t) :
  let db' := fst (Supabase.insert_response uuid now rid pid prid text db) in
  Supabase.game_state db' = Supabase.game_state db
  /\ Supabase.players db' = Supabase.players db.
Proof.
  unfold Supabase.insert_response.
  destruct (existsb _ _); [split; reflexivity|].
  destruct (negb _); split; reflexivity.
Qed.

(** C2. A submitted response schedules one advance trigger, closed over the
    roster and the [game_state] of the render it was submitted from; however
    many times that trigger fires (duplicates included), the room's
    [current_player_id] changes once along the run.  The client is up to
    date at the submit and the roster holds two players or more, with
    distinct ids, all rows of the store. *)
Theorem duplicate_triggers_advance_once
    (w : World GamePage.State) (rid pid uuid : string) (prompt : Prompt.t)
    (g : GameState.t) (submitted : Z) (nows : list Z) :
  Session.roomId (session w) = Some rid -> Js.truthy rid = true ->
  Session.playerId (session w) = Some pid -> Js.truthy pid = true ->
  GamePage.currentPrompt (ui w) = Some prompt ->
  GamePage.gameState (ui w) = Some g ->
  Supabase.select_game_state rid (db w) = Supabase.Data g ->
  NoDup (map Player.id (GamePage.players (ui w))) ->
  (2 <= List.length (GamePage.players (ui w)))%nat ->
  (forall q, In q (GamePage.players (ui w)) ->
             Supabase.has_player (db w) (Player.id q) = true) ->
  nows <> [] ->
  let w1 := exec (GamePage.handleSubmitResponse uuid submitted) w in
  let trigger := NextTurn (Some rid) (Some g) (GamePage.players (ui w)) in
  timers w1 = (timers w ++ [(HideConfetti, 3000); (trigger, 2000)])%list
  /\ changes (map (fun w' => stored_current_player rid (db w'))
                (w1 :: GamePage.fires trigger nows w1)) = 1%nat.
Proof.
  intros Hr Ht Hp Htp Hc Hgs Hsel Hnd Hlen Hfk Hnows w1 trigger.
  assert (Hw1 := handleSubmitResponse_spec w rid pid uuid prompt submitted Hr Ht Hp Htp Hc).
  fold w1 in Hw1.
  destruct (insert_response_frame uuid rid pid (Prompt.id prompt)
              (Js.trim (GamePage.response (ui w))) submitted (db w)) as [Hgame Hplayers].
  assert (Hdb1 : Supabase.game_state (db w1) = Supabase.game_state (db w)
                 /\ Supabase.players (db w1) = Supabase.players (db w))
    by (rewrite Hw1; split; assumption).
  destruct Hdb1 as [Hgame1 Hplayers1].
  assert (Hsel1 : Supabase.select_game_state rid (db w1) = Supabase.Data g)
    by (unfold Supabase.select_game_state in *; now rewrite Hgame1).
  split.
  - rewrite Hw1. cbn [timers]. rewrite Hgs, <- app_assoc. reflexivity.
  - assert (Hne : GamePage.players (ui w) <> [])
      by (destruct (GamePage.players (ui w)); [simpl in Hlen; lia | discriminate]).
    destruct (index_defined (GamePage.players (ui w)) _
                (nextPlayerIndex_bounds g _ Hne)) as [q [Hq Hin]].
    assert (Hfk1 : Supabase.has_player (db w1) (Player.id q) = true)
      by (unfold Supabase.has_player; rewrite Hplayers1; now apply Hfk).
    cbn [map]. unfold trigger.
    rewrite (fires_trace rid g _ q nows w1 Ht Hne Hq Hfk1 (ex_intro _ g Hsel1)).
    destruct nows as [|now nows]; [congruence|]. cbn [List.length].
    apply changes_once.
    unfold stored_current_player. rewrite Hsel1.
    pose proof (next_player_differs g _ q Hnd Hlen Hq). congruence.
Qed.

(** * Choosing a type *)

Lemma filter_nil {A : Type} (f : A -> bool) (l : list A) :
  (forall x, In x l -> f x = false) -> filter f l = [].
Proof.
  induction l as [|x l IH]; intros H; [reflexivity|].
  simpl. rewrite (H x (or_introl eq_refl)). apply IH. intros y Hy. apply H. now right.
Qed.

Lemma PromptType_eqb_eq (a b : PromptType) : PromptType_eqb a b = true <-> a = b.
Proof. destruct a, b; simpl; split; intros H; congruence. Qed.

(** C4. Choosing a type of which the catalog holds no prompt fails with the
    no-prompts error, which the page shows instead of the game; the store,
    and so the room's [current_prompt_id], is left as it was, and nothing is
    scheduled for a retry. *)
Theorem choosing_a_type_without_prompts_fails
    (w : World GamePage.State) (rid : string) (type : PromptType)
    (random : Q) (now : Z) :
  Session.roomId (session w) = Some rid ->
  Js.truthy rid = true ->
  (forall p, In p (Supabase.prompts (db w)) -> Prompt.type p <> type) ->
  let w' := exec (GamePage.handleTypeSelection type random now) w in
  db w' = db w
  /\ (forall r, stored_current_prompt r (db w') = stored_current_prompt r (db w))
  /\ timers w' = timers w
  /\ GamePage.error (ui w') = GamePage.msg_no_prompts
  /\ (GamePage.loading (ui w) = false ->
      GamePage.render (ui w') = GamePage.ErrorView GamePage.msg_no_prompts).
Proof.
  intros Hr Ht Hnone w'.
  assert (Hf : filter (fun p => PromptType_eqb (Prompt.type p) type)
                 (Supabase.prompts (db w)) = []).
  { apply filter_nil. intros p Hp.
    destruct (PromptType_eqb (Prompt.type p) type) eqn:E; [|reflexivity].
    apply PromptType_eqb_eq in E. now apply Hnone in Hp. }
  assert (Hw' : w' = mkWorld (db w) (session w) (location w) (timers w)
            (GamePage.setError GamePage.msg_no_prompts
               (GamePage.setHasResponded false
                  (GamePage.setResponse ""
                     (GamePage.setShowTypeSelection false
                        (GamePage.setSelectedType (Some type) (ui w))))))).
  { unfold w', exec, GamePage.handleTypeSelection, try_catch, try_catch_finally, bind,
      getItem, query, gets, orThrow, setState, modify, throw, ret, return_.
    cbn [db session location timers ui fst snd]. rewrite Hr, Ht.
    unfold Supabase.select_prompts_by_type. cbn [negb]. cbv beta. cbn [db].
    rewrite Hf. reflexivity. }
  rewrite Hw'. cbn [db timers ui]. repeat split.
  intros Hl. unfold GamePage.render. cbn. now rewrite Hl.
Qed.

(** * Starting a game *)

(** C10. Starting a game is not atomic: with an empty prompt catalog the
    room has been set to [active] when the failure is raised, no
    [game_state] row is created, the error is shown and the host stays in
    the lobby. *)
Theorem start_with_empty_catalog_leaves_room_active
    (w : World RoomLobbyPage.State) (rid : string) (players : list Player.t)
    (random : Q) (uuid : string) (now : Z) :
  Session.roomId (session w) = Some rid ->
  Js.truthy rid = true ->
  Supabase.prompts (db w) = [] ->
  let w' := exec (RoomLobbyPage.startGame players random uuid now) w in
  db w' = fst (Supabase.update_room_status rid active (db w))
  /\ (forall r, In r (Supabase.rooms (db w)) -> Room.id r = rid ->
        In (Room.mk (Room.id r) (Room.code r) (Room.created_at r) active)
           (Supabase.rooms (db w')))
  /\ (forall r, In r (Supabase.rooms (db w')) -> Room.id r = rid ->
        Room.status r = active)
  /\ Supabase.game_state (db w') = Supabase.game_state (db w)
  /\ RoomLobbyPage.error (ui w') = RoomLobbyPage.msg_no_prompts
  /\ location w' = location w.
Proof.
  intros Hr Ht Hempty w'.
  assert (Hw' : w' = mkWorld (fst (Supabase.update_room_status rid active (db w)))
            (session w) (location w) (timers w)
            (RoomLobbyPage.setError RoomLobbyPage.msg_no_prompts (ui w))).
  { unfold w', exec, RoomLobbyPage.startGame, try_catch, try_catch_finally, bind,
      getItem, query, request, gets, orThrow, setState, modify, throw, ret, return_.
    cbn [db session location timers ui fst snd]. rewrite Hr, Ht.
    cbn [Supabase.update_room_status db session location timers ui fst snd
         Supabase.select_prompts_limit Supabase.prompts negb].
    cbv beta. cbn [db Supabase.prompts]. rewrite Hempty. reflexivity. }
  rewrite Hw'. cbn [db ui location]. split; [reflexivity|].
  cbn [Supabase.update_room_status fst Supabase.rooms Supabase.game_state].
  split; [|split; [|repeat split]].
  - intros r Hin Hid. apply in_map_iff. exists r. split; [|exact Hin].
    rewrite (proj2 (String.eqb_eq _ _) Hid). reflexivity.
  - intros r Hin Hid. apply in_map_iff in Hin. destruct Hin as [r0 [Hr0 _]].
    destruct (Room.id r0 =? rid)%string eqn:E.
    + now subst r.
    + subst r. apply String.eqb_neq in E. contradiction.
Qed.

(** * Joining a room *)

Lemma truthy_iff (s : string) : Js.truthy s = true <-> s <> "".
Proof.
  unfold Js.truthy. destruct (s =? "")%string eqn:E; simpl.
  - apply String.eqb_eq in E. split; [discriminate | contradiction].
  - apply String.eqb_neq in E. split; auto.
Qed.

Lemma handleJoinRoom_empty (w : World JoinRoomPage.State) (uuid : string) (now : Z) :
  Js.trim (JoinRoomPage.nickname (ui w)) = ""
  \/ Js.trim (JoinRoomPage.roomCode (ui w)) = "" ->
  exec (JoinRoomPage.handleJoinRoom uuid now) w
  = mkWorld (db w) (session w) (location w) (timers w)
      (JoinRoomPage.setError JoinRoomPage.msg_empty (ui w)).
Proof.
  intros H.
  unfold exec, JoinRoomPage.handleJoinRoom, bind, state, gets, setState, modify, return_.
  cbn [fst snd ui].
  assert (Hg : negb (Js.truthy (Js.trim (JoinRoomPage.nickname (ui w))))
               || negb (Js.truthy (Js.trim (JoinRoomPage.roomCode (ui w)))) = true).
  { destruct H as [H|H]; rewrite H; simpl; [reflexivity | apply orb_true_r]. }
  rewrite Hg. reflexivity.
Qed.

(** The world a rejected join leaves once the two fields are filled in: the
    error is shown and [loading] is back to [false]. *)
Lemma handleJoinRoom_rejected (w : World JoinRoomPage.State) (uuid : string)
    (now : Z) (message : string) :
  Js.trim (JoinRoomPage.nickname (ui w)) <> "" ->
  Js.trim (JoinRoomPage.roomCode (ui w)) <> "" ->
  match Supabase.select_room_by_code (JoinRoomPage.roomCode (ui w)) (db w) with
  | Supabase.Failure code _ =>
      code = Supabase.PGRST116 /\ message = JoinRoomPage.msg_not_found
  | Supabase.Data room =>
      Room.status room = active /\ message = JoinRoomPage.msg_started
  end ->
  exec (JoinRoomPage.handleJoinRoom uuid now) w
  = mkWorld (db w) (session w) (location w) (timers w)
      (JoinRoomPage.setLoading false
         (JoinRoomPage.setError message
            (JoinRoomPage.setError "" (JoinRoomPage.setLoading true (ui w))))).
Proof.
  intros Hn Hc Hsel.
  apply truthy_iff in Hn, Hc.
  unfold exec, JoinRoomPage.handleJoinRoom, bind, state, gets.
  cbn [fst snd ui]. rewrite Hn, Hc. cbn [negb orb].
  unfold try_catch_finally, bind, query, request, gets, setState, modify, throw, ret.
  cbn [db session location timers ui fst snd JoinRoomPage.roomCode
       JoinRoomPage.setError JoinRoomPage.setLoading].
  destruct (Supabase.select_room_by_code _ _) as [room|code m].
  - destruct Hsel as [Hs ->]. rewrite Hs. reflexivity.
  - destruct Hsel as [-> ->]. reflexivity.
Qed.

Lemma select_room_none (code : string) (db : Supabase.t) :
  (forall r, In r (Supabase.rooms db) -> Room.code r <> code) ->
  exists m, Supabase.select_room_by_code code db = Supabase.Failure Supabase.PGRST116 m.
Proof.
  intros H. unfold Supabase.select_room_by_code.
  rewrite filter_nil; [eexists; reflexivity|].
  intros r Hr. apply String.eqb_neq. now apply H.
Qed.

(** C9. A join is rejected with one error per case and without touching the
    store, so no player row is inserted: the fill-in-both-fields error when
    the nickname or the room code is empty once trimmed, the room-not-found
    error when no room has the code, the game-already-started error when the
    room is active.  The three messages differ from each other. *)
Theorem join_is_rejected_per_case
    (w : World JoinRoomPage.State) (uuid : string) (now : Z) :
  let nickname := JoinRoomPage.nickname (ui w) in
  let roomCode := JoinRoomPage.roomCode (ui w) in
  let w' := exec (JoinRoomPage.handleJoinRoom uuid now) w in
  (Js.trim nickname = "" \/ Js.trim roomCode = "" ->
     db w' = db w /\ session w' = session w /\ location w' = location w
     /\ JoinRoomPage.error (ui w') = JoinRoomPage.msg_empty)
  /\ (Js.trim nickname <> "" -> Js.trim roomCode <> "" ->
      (forall r, In r (Supabase.rooms (db w)) -> Room.code r <> roomCode) ->
      db w' = db w /\ session w' = session w /\ location w' = location w
      /\ JoinRoomPage.error (ui w') = JoinRoomPage.msg_not_found)
  /\ (Js.trim nickname <> "" -> Js.trim roomCode <> "" ->
      forall room,
        Supabase.select_room_by_code roomCode (db w) = Supabase.Data room ->
        Room.status room = active ->
        db w' = db w /\ session w' = session w /\ location w' = location w
        /\ JoinRoomPage.error (ui w') = JoinRoomPage.msg_started)
  /\ JoinRoomPage.msg_empty <> JoinRoomPage.msg_not_found
  /\ JoinRoomPage.msg_empty <> JoinRoomPage.msg_started
  /\ JoinRoomPage.msg_not_found <> JoinRoomPage.msg_started.
Proof.
  intros nickname roomCode w'. split; [|split; [|split]].
  - intros H. unfold w'. rewrite (handleJoinRoom_empty w uuid now H).
    repeat split.
  - intros Hn Hc Hnone. unfold w'.
    destruct (select_room_none roomCode (db w) Hnone) as [m Hsel].
    rewrite (handleJoinRoom_rejected w uuid now JoinRoomPage.msg_not_found Hn Hc).
    + repeat split.
    + fold roomCode. rewrite Hsel. split; reflexivity.
  - intros Hn Hc room Hsel Hactive. unfold w'.
    rewrite (handleJoinRoom_rejected w uuid now JoinRoomPage.msg_started Hn Hc).
    + repeat split.
    + fold roomCode. rewrite Hsel. split; [exact Hactive | reflexivity].
  - repeat split; discriminate.
Qed.

(** * The opening prompt *)

Lemma floor_bounds (random : Q) (n : Z) :
  (0 <= random)%Q -> (random < 1)%Q -> 0 < n ->
  0 <= Js.floor (random * inject_Z n) < n.
Proof.
  intros H0 H1 Hn. unfold Js.floor. split.
  - change 0 with (Qfloor 0). apply Qfloor_resp_le.
    apply Qmult_le_0_compat; [exact H0|].
    change 0%Q with (inject_Z 0). rewrite <- Zle_Qle. lia.
  - rewrite Zlt_Qlt. eapply Qle_lt_trans; [apply Qfloor_le|].
    rewrite <- (Qmult_1_l (inject_Z n)) at 2.
    apply Qmult_lt_compat_r; [|exact H1].
    change 0%Q with (inject_Z 0). rewrite <- Zlt_Qlt. lia.
Qed.



Lemma has_room_after_status (rid : string) (status : Status) (db : Supabase.t)
    (id : string) :
  Supabase.has_room (fst (Supabase.update_room_status rid status db)) id
  = Supabase.has_room db id.
Proof.
  unfold Supabase.has_room, Supabase.update_room_status. cbn [fst Supabase.rooms].
  induction (Supabase.rooms db) as [|r l IH]; [reflexivity|].
  cbn [map existsb]. rewrite IH. f_equal.
  destruct (Room.id r =? rid)%string; reflexivity.
Qed.

Lemma has_prompt_in (db : Supabase.t) (p : Prompt.t) :
  In p (Supabase.prompts db) -> Supabase.has_prompt db (Prompt.id p) = true.
Proof.
  intros H. unfold Supabase.has_prompt. apply existsb_exists.
  exists p. split; [exact H | apply String.eqb_refl].
Qed.

Lemma in_firstn {A : Type} (n : nat) (l : list A) (x : A) :
  In x (firstn n l) -> In x l.
Proof.
  intros H. rewrite <- (firstn_skipn n l). apply in_or_app. now left.
Qed.

Lemma index_in {A : Type} (l : list A) (i : Z) (x : A) :
  Js.index l i = Some x -> In x l.
Proof.
  unfold Js.index. destruct (i <? 0); [discriminate|]. apply nth_error_In.
Qed.

(** The store [startGame] leaves once its guard passes and the catalog
    query returns rows: the room is active, and the [game_state] insert is
    issued for the roster's first player and the prompt at the drawn index. *)
Lemma startGame_run (w : World RoomLobbyPage.State) (rid : string)
    (first : Player.t) (rest : list Player.t) (random : Q) (uuid : string)
    (now : Z) (opening : Prompt.t) :
  Session.roomId (session w) = Some rid ->
  Js.truthy rid = true ->
  Js.index (firstn 100 (Supabase.prompts (db w)))
    (Js.floor (random * inject_Z (Js.length (firstn 100 (Supabase.prompts (db w))))))
  = Some opening ->
  db (exec (RoomLobbyPage.startGame (first :: rest) random uuid now) w)
  = fst (Supabase.insert_game_state uuid now rid (Player.id first)
           (Prompt.id opening) active
           (fst (Supabase.update_room_status rid active (db w)))).
Proof.
  intros Hr Ht Hidx.
  assert (Hlen : (Js.length (firstn 100 (Supabase.prompts (db w))) =? 0) = false).
  { destruct (Js.length _ =? 0) eqn:E; [|reflexivity].
    apply length_zero_iff in E. rewrite E in Hidx.
    unfold Js.index in Hidx. destruct (_ <? 0); [discriminate|].
    destruct (Z.to_nat _); discriminate. }
  unfold exec, RoomLobbyPage.startGame, try_catch, try_catch_finally, bind,
    getItem, query, request, gets, orThrow, setState, modify, throw, ret, return_,
    useParams, navigate.
  cbn [db session location timers ui fst snd]. rewrite Hr, Ht.
  cbn [Supabase.update_room_status db session location timers ui fst snd
       Supabase.select_prompts_limit Supabase.prompts negb].
  cbv beta. cbn [db Supabase.prompts]. rewrite Hlen. cbv beta.
  cbn [Js.index Z.ltb Z.compare Z.to_nat nth_error]. rewrite Hidx.
  cbn [db session location timers ui fst snd].
  match goal with
  | |- context [Supabase.insert_game_state ?u ?n ?r ?a ?b ?c ?d] =>
      destruct (Supabase.insert_game_state u n r a b c d) as [db2 [[]|code m]]
  end; reflexivity.
Qed.

Lemma insert_game_state_ok (uuid rid pid prid : string) (now : Z) (db : Supabase.t) :
  existsb (fun g => (GameState.id g =? uuid)%string) (Supabase.game_state db) = false ->
  Supabase.has_room db rid = true ->
  Supabase.has_player db pid = true ->
  Supabase.has_prompt db prid = true ->
  Supabase.game_state
    (fst (Supabase.insert_game_state uuid now rid pid prid active db))
  = (Supabase.game_state db
       ++ [GameState.mk uuid rid pid (Some prid) active now now])%list.
Proof.
  intros Hu Hr Hp Hq. unfold Supabase.insert_game_state.
  rewrite Hu, Hr, Hp, Hq. reflexivity.
Qed.




(** * The first player *)

Lemma by_turn_order_total (a b : Player.t) :
  Supabase.by_turn_order a b = true \/ Supabase.by_turn_order b a = true.
Proof. unfold Supabase.by_turn_order. lia. Qed.

Lemma by_turn_order_trans (a b c : Player.t) :
  Supabase.by_turn_order a b = true -> Supabase.by_turn_order b c = true ->
  Supabase.by_turn_order a c = true.
Proof. unfold Supabase.by_turn_order. lia. Qed.

(** With the turn orders the two registration paths write (1 for the host,
    0 for a joiner), the roster the lobby fetches starts with a joiner as
    soon as the room has one. *)
Lemma fetched_roster_starts_with_joiner (rid : string) (db : Supabase.t)
    (joiner : Player.t) :
  (forall p, In p (Supabase.players db) -> Player.room_id p = rid ->
     Player.turn_order p = if Player.is_host p then 1 else 0) ->
  In joiner (Supabase.players db) ->
  Player.room_id joiner = rid ->
  Player.is_host joiner = false ->
  exists first rest,
    Supabase.select_players rid db = Supabase.Data (first :: rest)
    /\ Player.is_host first = false.
Proof.
  intros Horders Hin Hroom Hjoin.
  unfold Supabase.select_players.
  set (room := filter (Supabase.player_in_room rid) (Supabase.players db)).
  assert (Hjr : In joiner room).
  { apply filter_In. split; [exact Hin|].
    unfold Supabase.player_in_room. rewrite Hroom. apply String.eqb_refl. }
  pose proof (order_by_perm Supabase.by_turn_order room) as Hperm.
  pose proof (order_by_sorted Supabase.by_turn_order by_turn_order_total
                by_turn_order_trans room) as Hsorted.
  destruct (order_by Supabase.by_turn_order room) as [|first rest] eqn:E.
  - apply Permutation_sym, Permutation_nil in Hperm. rewrite Hperm in Hjr. contradiction.
  - exists first, rest. split; [reflexivity|].
    assert (Hfirst : In first room)
      by (eapply Permutation_in; [apply Permutation_sym, Hperm | now left]).
    apply filter_In in Hfirst. destruct Hfirst as [Hfin Hfroom].
    unfold Supabase.player_in_room in Hfroom. apply String.eqb_eq in Hfroom.
    pose proof (Horders first Hfin Hfroom) as Hfo.
    pose proof (Horders joiner Hin Hroom) as Hjo. rewrite Hjoin in Hjo.
    assert (Hle : Player.turn_order first <= Player.turn_order joiner).
    { apply (Permutation_in _ Hperm) in Hjr. destruct Hjr as [<-|Hjr]; [lia|].
      inversion Hsorted as [|? ? _ Hall]; subst.
      rewrite Forall_forall in Hall. specialize (Hall _ Hjr).
      unfold precedes, Supabase.by_turn_order in Hall. lia. }
    destruct (Player.is_host first); [lia | reflexivity].
Qed.

(** * Concrete runs *)

Lemma roster_ids_distinct : NoDup (map Player.id [Scenario.bob; Scenario.ann]).
Proof.
  simpl. constructor; [|constructor; [|constructor]].
  - intros [H|[]]. discriminate.
  - intros [].
Qed.

Lemma roster_is_stored (w : World GamePage.State) :
  Supabase.players (db w) = [Scenario.ann; Scenario.bob] ->
  forall q, In q [Scenario.bob; Scenario.ann] ->
            Supabase.has_player (db w) (Player.id q) = true.
Proof.
  intros H q Hq. unfold Supabase.has_player. rewrite H.
  destruct Hq as [<-|[<-|[]]]; reflexivity.
Qed.

Lemma turn_advance_is_cyclic_witness :
  (exists q, nth_error [Scenario.bob; Scenario.ann] 1 = Some q
             /\ forall now,
                  stored_current_player "room-1"
                    (db (exec (GamePage.advance now) Scenario.bob_game))
                  = Some (Player.id q))
  /\ stored_current_player "room-1" (db (GamePage.advances [31; 32] Scenario.bob_game))
     = Some "bob".
Proof.
  assert (H := turn_advance_is_cyclic Scenario.bob_game "room-1" Scenario.opening
                 0%nat Scenario.bob).
  destruct H as [Hnext [_ Hcycle]].
  - reflexivity.
  - reflexivity.
  - exact roster_ids_distinct.
  - exact (roster_is_stored Scenario.bob_game eq_refl).
  - reflexivity.
  - reflexivity.
  - reflexivity.
  - split; [exact Hnext|]. exact (Hcycle [31; 32] eq_refl).
Defined.

Lemma duplicate_triggers_advance_once_witness :
  changes
    (map (fun w' => stored_current_player "room-1" (db w'))
       (exec (GamePage.handleSubmitResponse "response-1" 40) Scenario.bob_answering
        :: GamePage.fires
             (NextTurn (Some "room-1") (Some Scenario.opening)
                [Scenario.bob; Scenario.ann])
             [42; 43]
             (exec (GamePage.handleSubmitResponse "response-1" 40)
                Scenario.bob_answering)))
  = 1%nat.
Proof.
  refine (proj2 (duplicate_triggers_advance_once Scenario.bob_answering
                   "room-1" "bob" "response-1" Scenario.dance Scenario.opening 40
                   [42; 43] _ _ _ _ _ _ _ _ _ _ _)); try reflexivity.
  - exact roster_ids_distinct.
  - apply roster_is_stored. reflexivity.
  - discriminate.
Defined.

Lemma next_turn_stays_in_roster_witness :
  GamePage.nextPlayerIndex Scenario.stale [Scenario.bob; Scenario.ann] = 0
  /\ stored_current_player "room-1"
       (db (exec (GamePage.handleNextTurn (Some "room-1") (Some Scenario.stale)
                    [Scenario.bob; Scenario.ann] 41)
              Scenario.bob_game))
     = Some "bob".
Proof.
  assert (H := next_turn_stays_in_roster Scenario.bob_game "room-1" Scenario.stale
                 [Scenario.bob; Scenario.ann] 41).
  destruct H as [_ [Hzero _]].
  - reflexivity.
  - discriminate.
  - apply roster_is_stored. reflexivity.
  - split; [|reflexivity].
    apply Hzero. intros q [<-|[<-|[]]]; discriminate.
Defined.

Lemma submitted_response_heads_the_log_witness :
  option_map (fun r => Response.response (ExtendedResponse.row r))
    (hd_error
       (GamePage.responses
          (ui (exec GamePage.fetchResponses
                 (exec (GamePage.handleSubmitResponse "response-1" 40)
                    Scenario.bob_answering)))))
  = Some "I once sang karaoke".
Proof.
  assert (H := submitted_response_heads_the_log Scenario.bob_answering "room-1"
                 eq_refl eq_refl).
  destruct H as [_ Hhead].
  rewrite (Hhead "bob" "response-1" Scenario.dance 40);
    [reflexivity | reflexivity | reflexivity | reflexivity | reflexivity
    | reflexivity | reflexivity | reflexivity | vm_compute; intros r []].
Defined.

Lemma choosing_a_type_without_prompts_fails_witness :
  GamePage.render
    (ui (exec (GamePage.handleTypeSelection dare (1 # 3) 41)
           Scenario.bob_game_truths))
  = GamePage.ErrorView "No prompts found"
  /\ stored_current_prompt "room-1"
       (db (exec (GamePage.handleTypeSelection dare (1 # 3) 41)
              Scenario.bob_game_truths))
     = Some (Some "prompt-2").
Proof.
  assert (H := choosing_a_type_without_prompts_fails Scenario.bob_game_truths
                 "room-1" dare (1 # 3) 41).
  destruct H as (_ & Hprompt & _ & _ & Hview).
  - reflexivity.
  - reflexivity.
  - vm_compute. intros p [<-|[<-|[<-|[]]]]; discriminate.
  - split; [apply Hview; reflexivity|]. rewrite Hprompt. reflexivity.
Defined.

Lemma start_with_empty_catalog_leaves_room_active_witness :
  map Room.status
    (Supabase.rooms
       (db (exec (RoomLobbyPage.startGame [Scenario.bob; Scenario.ann] (1 # 2)
                    "game-1" 30)
              (Scenario.ann_lobby []))))
  = [active]
  /\ Supabase.game_state
       (db (exec (RoomLobbyPage.startGame [Scenario.bob; Scenario.ann] (1 # 2)
                    "game-1" 30)
              (Scenario.ann_lobby [])))
     = [].
Proof.
  assert (H := start_with_empty_catalog_leaves_room_active (Scenario.ann_lobby [])
                 "room-1" [Scenario.bob; Scenario.ann] (1 # 2) "game-1" 30).
  destruct H as (Hdb & _ & _ & Hgame & _);
    [reflexivity | reflexivity | reflexivity |].
  split; [rewrite Hdb; reflexivity | rewrite Hgame; reflexivity].
Defined.

Lemma join_is_rejected_per_case_witness :
  JoinRoomPage.error
    (ui (exec (JoinRoomPage.handleJoinRoom "carol" 40)
           (Scenario.join_form (db (Scenario.ann_started Scenario.catalog))
              "  " "482913")))
  = "Please enter both nickname and room code"
  /\ JoinRoomPage.error
       (ui (exec (JoinRoomPage.handleJoinRoom "carol" 40)
              (Scenario.join_form (db (Scenario.ann_started Scenario.catalog))
                 "Carol" "000000")))
     = "Room not found. Please check the room code."
  /\ JoinRoomPage.error
       (ui (exec (JoinRoomPage.handleJoinRoom "carol" 40)
              (Scenario.join_form (db (Scenario.ann_started Scenario.catalog))
                 "Carol" "482913")))
     = "Game has already started".
Proof.
  split; [|split].
  - apply (join_is_rejected_per_case
             (Scenario.join_form (db (Scenario.ann_started Scenario.catalog))
                "  " "482913") "carol" 40).
    left. reflexivity.
  - apply (join_is_rejected_per_case
             (Scenario.join_form (db (Scenario.ann_started Scenario.catalog))
                "Carol" "000000") "carol" 40).
    + discriminate.
    + discriminate.
    + vm_compute. intros r [<-|[]]. discriminate.
  - apply (proj1 (proj2 (proj2 (join_is_rejected_per_case
             (Scenario.join_form (db (Scenario.ann_started Scenario.catalog))
                "Carol" "482913") "carol" 40)))
             ltac:(discriminate) ltac:(discriminate)
             (Room.mk "room-1" "482913" 10 active)); reflexivity.
Defined.




(** C3, what the code does: in a room of a host (Ann) and one joiner (Bob)
    the fetched roster, ascending by [turn_order], is Bob (0) then Ann (1),
    and the started game names Bob, who is not the host, as the first
    player. *)
Theorem started_game_names_the_joiner_first :
  map Player.nickname (RoomLobbyPage.players (ui (Scenario.ann_lobby Scenario.catalog)))
  = ["Bob"; "Ann"]
  /\ map Player.turn_order
       (RoomLobbyPage.players (ui (Scenario.ann_lobby Scenario.catalog)))
     = [0; 1]
  /\ map Player.is_host
       (RoomLobbyPage.players (ui (Scenario.ann_lobby Scenario.catalog)))
     = [false; true]
  /\ stored_current_player "room-1" (db (Scenario.ann_started Scenario.catalog))
     = Some (Player.id Scenario.bob).
Proof. repeat split. Qed.

(** * Room codes *)









(** * Creating a room *)

Lemma existsb_app_false {A : Type} (f : A -> bool) (l : list A) (x : A) :
  existsb f (l ++ [x]) = existsb f l || f x.
Proof. rewrite existsb_app. simpl. now rewrite orb_false_r. Qed.

Lemma filter_none_app {A : Type} (f : A -> bool) (l : list A) (x : A) :
  existsb f l = false -> f x = true -> filter f (l ++ [x]) = [x].
Proof.
  intros Hl Hx. rewrite filter_app. simpl. rewrite Hx.
  rewrite filter_nil; [reflexivity|].
  intros y Hy. destruct (f y) eqn:E; [|reflexivity].
  assert (existsb f l = true) by (apply existsb_exists; eauto). congruence.
Qed.

(** The world a successful [handleCreateRoom] leaves. *)
Lemma handleCreateRoom_run (w : World CreateRoomPage.State) (random : Q)
    (room_uuid : string) (room_now : Z) (player_uuid : string) (player_now : Z) :
  let code := CreateRoomPage.generateRoomCode random in
  let room := Room.mk room_uuid code room_now waiting in
  let host := Player.mk player_uuid (CreateRoomPage.nickname (ui w)) room_uuid
                true 1 player_now in
  Supabase.has_room (db w) room_uuid = false ->
  existsb (fun r => (Room.code r =? code)%string) (Supabase.rooms (db w)) = false ->
  Supabase.has_player (db w) player_uuid = false ->
  exec (CreateRoomPage.handleCreateRoom random room_uuid room_now
          player_uuid player_now) w
  = mkWorld
      (Supabase.mk (Supabase.rooms (db w) ++ [room])
         (Supabase.players (db w) ++ [host]) (Supabase.prompts (db w))
         (Supabase.game_state (db w)) (Supabase.responses (db w)))
      (Session.mk (Some player_uuid) (Some room_uuid)
         (Session.nickname (session w)) (Some code))
      (Some ("/room/" ++ code)) (timers w)
      (CreateRoomPage.mkState (CreateRoomPage.nickname (ui w)) false "").
Proof.
  intros code room host Hroom Hcode Hplayer.
  unfold exec, CreateRoomPage.handleCreateRoom, try_catch_finally, bind,
    request, state, gets, orThrow, setState, setItem, navigate, modify, throw, ret.
  cbn [db session location timers ui fst snd].
  fold code. unfold Supabase.insert_room. rewrite Hroom, Hcode.
  cbn [orb fst snd db session location timers ui CreateRoomPage.nickname
       CreateRoomPage.setError CreateRoomPage.setLoading].
  unfold Supabase.insert_player. cbn [Supabase.players Supabase.rooms].
  unfold Supabase.has_player in *. cbn [Supabase.players]. rewrite Hplayer.
  unfold Supabase.has_room. cbn [Supabase.rooms].
  rewrite existsb_app_false. cbn [Room.id]. rewrite String.eqb_refl, orb_true_r.
  reflexivity.
Qed.

Lemma no_player_of_missing_room (db : Supabase.t) (rid : string)
    (f : Player.t -> bool) :
  players_reference_rooms db ->
  Supabase.has_room db rid = false ->
  filter (fun p => Supabase.player_in_room rid p && f p) (Supabase.players db) = [].
Proof.
  intros Href Hno. apply filter_nil. intros p Hp.
  destruct (Supabase.player_in_room rid p) eqn:E; [|reflexivity].
  unfold Supabase.player_in_room in E. apply String.eqb_eq in E.
  specialize (Href p Hp). rewrite E in Href. congruence.
Qed.

(** X2. A room created under a code no room holds (and with new ids) is a
    waiting room the shared code finds, its creator is its one host, with
    turn order 1 and the nickname as typed, and nobody has joined it; the
    creator's session names the player and the room, and the page moves to
    the room's lobby without an error. *)
Theorem created_room_waits_with_its_host
    (w : World CreateRoomPage.State) (random : Q)
    (room_uuid : string) (room_now : Z) (player_uuid : string) (player_now : Z) :
  let code := CreateRoomPage.generateRoomCode random in
  let room := Room.mk room_uuid code room_now waiting in
  let host := Player.mk player_uuid (CreateRoomPage.nickname (ui w)) room_uuid
                true 1 player_now in
  let w' := exec (CreateRoomPage.handleCreateRoom random room_uuid room_now
                    player_uuid player_now) w in
  Supabase.has_room (db w) room_uuid = false ->
  existsb (fun r => (Room.code r =? code)%string) (Supabase.rooms (db w)) = false ->
  Supabase.has_player (db w) player_uuid = false ->
  Supabase.select_room_by_code code (db w') = Supabase.Data room
  /\ select_player_by_id player_uuid (db w') = Supabase.Data host
  /\ (players_reference_rooms (db w) ->
      hosts room_uuid (db w') = [host] /\ joiners room_uuid (db w') = [])
  /\ session w' = Session.mk (Some player_uuid) (Some room_uuid)
                    (Session.nickname (session w)) (Some code)
  /\ location w' = Some ("/room/" ++ code)
  /\ CreateRoomPage.error (ui w') = ""
  /\ CreateRoomPage.loading (ui w') = false.
Proof.
  intros code room host w' Hroom Hcode Hplayer.
  unfold w'.
  rewrite (handleCreateRoom_run w random room_uuid room_now player_uuid player_now
             Hroom Hcode Hplayer).
  fold code room host. cbn [db session location ui CreateRoomPage.error
                            CreateRoomPage.loading].
  split; [|split; [|split; [|repeat split]]].
  - unfold Supabase.select_room_by_code. cbn [Supabase.rooms].
    rewrite filter_none_app; [reflexivity | exact Hcode |].
    cbn. apply String.eqb_refl.
  - unfold select_player_by_id. cbn [Supabase.players].
    rewrite filter_none_app; [reflexivity | exact Hplayer |].
    cbn. apply String.eqb_refl.
  - intros Href. unfold hosts, joiners. cbn [Supabase.players].
    rewrite !filter_app.
    rewrite (no_player_of_missing_room (db w) room_uuid Player.is_host Href Hroom).
    rewrite (no_player_of_missing_room (db w) room_uuid
               (fun p => negb (Player.is_host p)) Href Hroom).
    cbn. unfold Supabase.player_in_room. cbn. rewrite String.eqb_refl. cbn.
    split; reflexivity.
Qed.

(** The world [handleCreateRoom] leaves when the store rejects the room. *)
Lemma handleCreateRoom_taken
    (w : World CreateRoomPage.State) (random : Q)
    (room_uuid : string) (room_now : Z) (player_uuid : string) (player_now : Z) :
  existsb (fun r => (Room.code r =? CreateRoomPage.generateRoomCode random)%string)
    (Supabase.rooms (db w)) = true ->
  exec (CreateRoomPage.handleCreateRoom random room_uuid room_now
          player_uuid player_now) w
  = mkWorld (db w) (session w) (location w) (timers w)
      (CreateRoomPage.mkState (CreateRoomPage.nickname (ui w)) false
         "duplicate key value violates unique constraint").
Proof.
  intros Hcode.
  unfold exec, CreateRoomPage.handleCreateRoom, try_catch_finally, bind,
    request, state, gets, orThrow, setState, setItem, navigate, modify, throw, ret.
  cbn [db session location timers ui fst snd].
  unfold Supabase.insert_room. rewrite Hcode, orb_true_r.
  reflexivity.
Qed.


(** * Joining a room: the accepted case *)

Lemma trimEnd_cons (c : ascii) (s : string) :
  Js.trimEnd (String c s)
  = match Js.trimEnd s with
    | EmptyString => if Js.isWhiteSpace c then EmptyString else String c EmptyString
    | t => String c t
    end.
Proof. reflexivity. Qed.

Lemma trimEnd_idempotent (s : string) : Js.trimEnd (Js.trimEnd s) = Js.trimEnd s.
Proof.
  induction s as [|c s IH]; [reflexivity|].
  rewrite trimEnd_cons. destruct (Js.trimEnd s) as [|d t] eqn:E.
  - destruct (Js.isWhiteSpace c) eqn:Ec; [reflexivity|].
    rewrite trimEnd_cons. cbn [Js.trimEnd]. now rewrite Ec.
  - rewrite trimEnd_cons, IH. reflexivity.
Qed.

Lemma trimStart_head (s : string) :
  match Js.trimStart s with
  | EmptyString => True
  | String c _ => Js.isWhiteSpace c = false
  end.
Proof.
  induction s as [|c s IH]; [exact I|].
  cbn [Js.trimStart]. destruct (Js.isWhiteSpace c) eqn:E; [exact IH | exact E].
Qed.

Lemma trimEnd_head (s : string) :
  match s with
  | EmptyString => True
  | String c _ => Js.isWhiteSpace c = false
  end ->
  Js.trimStart (Js.trimEnd s) = Js.trimEnd s.
Proof.
  destruct s as [|c s]; [reflexivity|]. intros Hc.
  rewrite trimEnd_cons. destruct (Js.trimEnd s); [rewrite Hc|];
    cbn [Js.trimStart]; now rewrite Hc.
Qed.

(** A trimmed string is its own trim. *)
Lemma trim_idempotent (s : string) : Js.trim (Js.trim s) = Js.trim s.
Proof.
  unfold Js.trim. rewrite (trimEnd_head _ (trimStart_head s)).
  apply trimEnd_idempotent.
Qed.

Lemma select_room_in (code : string) (db : Supabase.t) (room : Room.t) :
  Supabase.select_room_by_code code db = Supabase.Data room ->
  In room (Supabase.rooms db) /\ Room.code room = code.
Proof.
  unfold Supabase.select_room_by_code. intros H. apply single_data in H.
  assert (Hin : In room (filter (fun r => (Room.code r =? code)%string)
                           (Supabase.rooms db))) by (rewrite H; now left).
  apply filter_In in Hin. destruct Hin as [Hin Hc]. split; [exact Hin|].
  now apply String.eqb_eq.
Qed.

Lemma has_room_in (db : Supabase.t) (room : Room.t) :
  In room (Supabase.rooms db) -> Supabase.has_room db (Room.id room) = true.
Proof.
  intros H. unfold Supabase.has_room. apply existsb_exists. exists room.
  split; [exact H | apply String.eqb_refl].
Qed.

Lemma Status_eqb_eq (a b : Status) : Status_eqb a b = true <-> a = b.
Proof. destruct a, b; simpl; split; intros H; congruence. Qed.

(** The world an accepted [handleJoinRoom] leaves. *)
Lemma handleJoinRoom_run (w : World JoinRoomPage.State) (uuid : string) (now : Z)
    (room : Room.t) :
  let nickname := JoinRoomPage.nickname (ui w) in
  let roomCode := JoinRoomPage.roomCode (ui w) in
  let player := Player.mk uuid (Js.trim nickname) (Room.id room) false 0 now in
  Js.trim nickname <> "" ->
  Js.trim roomCode <> "" ->
  Supabase.select_room_by_code roomCode (db w) = Supabase.Data room ->
  Room.status room <> active ->
  Supabase.has_player (db w) uuid = false ->
  exec (JoinRoomPage.handleJoinRoom uuid now) w
  = mkWorld
      (Supabase.mk (Supabase.rooms (db w)) (Supabase.players (db w) ++ [player])
         (Supabase.prompts (db w)) (Supabase.game_state (db w))
         (Supabase.responses (db w)))
      (Session.mk (Some uuid) (Some (Room.id room)) (Some (Js.trim nickname))
         (Session.roomCode (session w)))
      (Some ("/room/" ++ roomCode)) (timers w)
      (JoinRoomPage.setLoading false
         (JoinRoomPage.setError "" (JoinRoomPage.setLoading true (ui w)))).
Proof.
  intros nickname roomCode player Hn Hc Hsel Hstatus Hfresh.
  apply truthy_iff in Hn, Hc.
  assert (Hs : Status_eqb (Room.status room) active = false).
  { destruct (Status_eqb (Room.status room) active) eqn:E; [|reflexivity].
    apply Status_eqb_eq in E. contradiction. }
  assert (Hroom : Supabase.has_room (db w) (Room.id room) = true)
    by (apply has_room_in; apply (select_room_in _ _ _ Hsel)).
  unfold exec, JoinRoomPage.handleJoinRoom, bind, state, gets.
  cbn [fst snd ui]. fold nickname roomCode. rewrite Hn, Hc. cbn [negb orb].
  unfold try_catch_finally, bind, query, request, gets, setState, setItem,
    navigate, modify, throw, ret.
  cbn [db session location timers ui fst snd JoinRoomPage.roomCode
       JoinRoomPage.setError JoinRoomPage.setLoading].
  fold roomCode. rewrite Hsel. rewrite Hs.
  cbn [db session location timers ui fst snd].
  unfold Supabase.insert_player. rewrite Hfresh, Hroom.
  reflexivity.
Qed.

(** X4. A join with both fields filled in, to a room the code finds and whose
    game is not running, registers the player: one row is appended, for that
    room, not a host, with turn order 0 and the trimmed nickname, which is
    not empty and is its own trim; the session names the new player and the
    room, and the page moves to the lobby with no error shown. *)
Theorem accepted_join_registers_a_joiner
    (w : World JoinRoomPage.State) (uuid : string) (now : Z) (room : Room.t) :
  let nickname := JoinRoomPage.nickname (ui w) in
  let roomCode := JoinRoomPage.roomCode (ui w) in
  let player := Player.mk uuid (Js.trim nickname) (Room.id room) false 0 now in
  let w' := exec (JoinRoomPage.handleJoinRoom uuid now) w in
  Js.trim nickname <> "" ->
  Js.trim roomCode <> "" ->
  Supabase.select_room_by_code roomCode (db w) = Supabase.Data room ->
  Room.status room <> active ->
  Supabase.has_player (db w) uuid = false ->
  Supabase.players (db w') = (Supabase.players (db w) ++ [player])%list
  /\ Supabase.rooms (db w') = Supabase.rooms (db w)
  /\ select_player_by_id uuid (db w') = Supabase.Data player
  /\ Player.nickname player <> ""
  /\ Js.trim (Player.nickname player) = Player.nickname player
  /\ session w' = Session.mk (Some uuid) (Some (Room.id room))
                    (Some (Js.trim nickname)) (Session.roomCode (session w))
  /\ location w' = Some ("/room/" ++ roomCode)
  /\ JoinRoomPage.error (ui w') = ""
  /\ JoinRoomPage.loading (ui w') = false.
Proof.
  intros nickname roomCode player w' Hn Hc Hsel Hstatus Hfresh. unfold w'.
  rewrite (handleJoinRoom_run w uuid now room Hn Hc Hsel Hstatus Hfresh).
  fold nickname roomCode player.
  cbn [db session location ui Supabase.players Supabase.rooms
       JoinRoomPage.error JoinRoomPage.loading JoinRoomPage.setError
       JoinRoomPage.setLoading Player.nickname].
  repeat split; try assumption.
  - unfold select_player_by_id. cbn [Supabase.players].
    rewrite filter_none_app; [reflexivity | exact Hfresh |].
    cbn. apply String.eqb_refl.
  - apply trim_idempotent.
Qed.

(** * What registration keeps *)

(** Whatever [handleJoinRoom] does to the store, it is nothing or one
    appended player row that is not a host, has turn order 0 and references
    a room of the store. *)
Lemma handleJoinRoom_db (w : World JoinRoomPage.State) (uuid : string) (now : Z) :
  db (exec (JoinRoomPage.handleJoinRoom uuid now) w) = db w
  \/ exists nickname rid,
       Supabase.has_room (db w) rid = true
       /\ db (exec (JoinRoomPage.handleJoinRoom uuid now) w)
          = Supabase.mk (Supabase.rooms (db w))
              (Supabase.players (db w) ++ [Player.mk uuid nickname rid false 0 now])
              (Supabase.prompts (db w)) (Supabase.game_state (db w))
              (Supabase.responses (db w)).
Proof.
  destruct (string_dec (Js.trim (JoinRoomPage.nickname (ui w))) "") as [Hn|Hn].
  { left. rewrite handleJoinRoom_empty by (now left). reflexivity. }
  destruct (string_dec (Js.trim (JoinRoomPage.roomCode (ui w))) "") as [Hc|Hc].
  { left. rewrite handleJoinRoom_empty by (now right). reflexivity. }
  destruct (Supabase.select_room_by_code (JoinRoomPage.roomCode (ui w)) (db w))
    as [room|code m] eqn:Hsel.
  - destruct (Status_eqb (Room.status room) active) eqn:Hs.
    + left. apply Status_eqb_eq in Hs.
      rewrite (handleJoinRoom_rejected w uuid now JoinRoomPage.msg_started Hn Hc);
        [reflexivity|]. rewrite Hsel. now split.
    + destruct (Supabase.has_player (db w) uuid) eqn:Hfresh.
      * left. apply truthy_iff in Hn, Hc.
        unfold exec, JoinRoomPage.handleJoinRoom, bind, state, gets.
        cbn [fst snd ui]. rewrite Hn, Hc. cbn [negb orb].
        unfold try_catch_finally, bind, query, request, gets, setState, setItem,
          navigate, modify, throw, ret.
        cbn [db session location timers ui fst snd JoinRoomPage.roomCode
             JoinRoomPage.setError JoinRoomPage.setLoading].
        rewrite Hsel, Hs. cbn [db session location timers ui fst snd].
        unfold Supabase.insert_player. rewrite Hfresh. reflexivity.
      * right. exists (Js.trim (JoinRoomPage.nickname (ui w))), (Room.id room).
        split; [apply has_room_in; apply (select_room_in _ _ _ Hsel)|].
        rewrite (handleJoinRoom_run w uuid now room Hn Hc Hsel); [reflexivity| |exact Hfresh].
        intros E. rewrite E in Hs. discriminate.
  - left. apply truthy_iff in Hn, Hc.
    unfold exec, JoinRoomPage.handleJoinRoom, bind, state, gets.
    cbn [fst snd ui]. rewrite Hn, Hc. cbn [negb orb].
    unfold try_catch_finally, bind, query, request, gets, setState, setItem,
      navigate, modify, throw, ret.
    cbn [db session location timers ui fst snd JoinRoomPage.roomCode
         JoinRoomPage.setError JoinRoomPage.setLoading].
    rewrite Hsel. destruct (code =? Supabase.PGRST116)%string; reflexivity.
Qed.

(** Whatever [handleCreateRoom] does to the store, it is nothing, or a new
    room row, or a new room row and its host row. *)
Lemma handleCreateRoom_db (w : World CreateRoomPage.State) (random : Q)
    (room_uuid : string) (room_now : Z) (player_uuid : string) (player_now : Z) :
  let after := db (exec (CreateRoomPage.handleCreateRoom random room_uuid room_now
                           player_uuid player_now) w) in
  let room := Room.mk room_uuid (CreateRoomPage.generateRoomCode random)
                room_now waiting in
  let host := Player.mk player_uuid (CreateRoomPage.nickname (ui w)) room_uuid
                true 1 player_now in
  after = db w
  \/ (Supabase.has_room (db w) room_uuid = false
      /\ Supabase.rooms after = (Supabase.rooms (db w) ++ [room])%list
      /\ (Supabase.players after = Supabase.players (db w)
          \/ Supabase.players after = (Supabase.players (db w) ++ [host])%list)).
Proof.
  intros after room host. subst after.
  destruct (Supabase.has_room (db w) room_uuid) eqn:Hroom.
  { left.
    unfold exec, CreateRoomPage.handleCreateRoom, try_catch_finally, bind,
      request, state, gets, orThrow, setState, setItem, navigate, modify, throw, ret.
    cbn [db session location timers ui fst snd].
    unfold Supabase.insert_room. rewrite Hroom. reflexivity. }
  destruct (existsb (fun r => (Room.code r =? CreateRoomPage.generateRoomCode random)%string)
              (Supabase.rooms (db w))) eqn:Hcode.
  { left. now rewrite handleCreateRoom_taken. }
  right. split; [reflexivity|].
  destruct (Supabase.has_player (db w) player_uuid) eqn:Hplayer.
  - unfold exec, CreateRoomPage.handleCreateRoom, try_catch_finally, bind,
      request, state, gets, orThrow, setState, setItem, navigate, modify, throw, ret.
    cbn [db session location timers ui fst snd].
    unfold Supabase.insert_room. rewrite Hroom, Hcode.
    cbn [orb fst snd db session location timers ui CreateRoomPage.nickname
         CreateRoomPage.setError CreateRoomPage.setLoading].
    unfold Supabase.insert_player. cbn [Supabase.players Supabase.rooms].
    unfold Supabase.has_player in *. cbn [Supabase.players]. rewrite Hplayer.
    cbn. split; [reflexivity | now left].
  - rewrite (handleCreateRoom_run w random room_uuid room_now player_uuid
               player_now Hroom Hcode Hplayer).
    cbn. split; [reflexivity | now right].
Qed.

(** X5. Registration keeps the store's shape: if every player references a
    room, no room has two hosts, and turn orders are 1 for hosts and 0 for
    joiners, the same holds after [handleCreateRoom] and after
    [handleJoinRoom], whatever their outcome; a join changes the hosts of no
    room. *)
Theorem registration_keeps_one_host_per_room
    (wc : World CreateRoomPage.State) (wj : World JoinRoomPage.State)
    (random : Q) (room_uuid : string) (room_now : Z) (player_uuid : string)
    (player_now : Z) (uuid : string) (now : Z) :
  let created := db (exec (CreateRoomPage.handleCreateRoom random room_uuid
                             room_now player_uuid player_now) wc) in
  let joined := db (exec (JoinRoomPage.handleJoinRoom uuid now) wj) in
  (players_reference_rooms (db wc) -> at_most_one_host (db wc) -> registered (db wc) ->
   players_reference_rooms created /\ at_most_one_host created /\ registered created)
  /\ (players_reference_rooms (db wj) -> at_most_one_host (db wj) -> registered (db wj) ->
      players_reference_rooms joined /\ at_most_one_host joined /\ registered joined)
  /\ (forall rid, hosts rid joined = hosts rid (db wj)).
Proof.
  intros created joined.
  assert (Hjoin_hosts : forall rid, hosts rid joined = hosts rid (db wj)).
  { intros rid. unfold joined.
    destruct (handleJoinRoom_db wj uuid now) as [->|(nick & r & _ & ->)];
      [reflexivity|].
    unfold hosts. cbn [Supabase.players]. rewrite filter_app. cbn.
    rewrite andb_false_r. apply app_nil_r. }
  split; [|split; [|exact Hjoin_hosts]].
  - intros Href Hone Hreg. unfold created.
    destruct (handleCreateRoom_db wc random room_uuid room_now player_uuid player_now)
      as [->|(Hnew & Hrooms & Hplayers)]; [auto|].
    set (after := db (exec (CreateRoomPage.handleCreateRoom random room_uuid
                              room_now player_uuid player_now) wc)) in *.
    assert (Hhas : forall id, Supabase.has_room (db wc) id = true ->
                              Supabase.has_room after id = true).
    { intros id H. unfold Supabase.has_room in *. rewrite Hrooms, existsb_app.
      now rewrite H. }
    assert (Hhas_new : Supabase.has_room after room_uuid = true).
    { unfold Supabase.has_room. rewrite Hrooms, existsb_app_false. cbn.
      rewrite String.eqb_refl. apply orb_true_r. }
    destruct Hplayers as [Hp|Hp].
    + repeat split.
      * intros p Hin. rewrite Hp in Hin. auto.
      * intros rid. unfold hosts. rewrite Hp. apply Hone.
      * intros p Hin. rewrite Hp in Hin. auto.
    + repeat split.
      * intros p Hin. rewrite Hp in Hin. apply in_app_or in Hin.
        destruct Hin as [Hin|[<-|[]]]; [auto | exact Hhas_new].
      * intros rid. unfold hosts. rewrite Hp, filter_app.
        rewrite length_app. cbn [filter].
        unfold Supabase.player_in_room at 2. cbn [Player.room_id Player.is_host].
        destruct (room_uuid =? rid)%string eqn:E.
        -- apply String.eqb_eq in E. subst rid.
           rewrite (no_player_of_missing_room (db wc) room_uuid Player.is_host Href Hnew).
           cbn. lia.
        -- cbn. rewrite Nat.add_0_r. apply Hone.
      * intros p Hin. rewrite Hp in Hin. apply in_app_or in Hin.
        destruct Hin as [Hin|[<-|[]]]; [auto | reflexivity].
  - intros Href Hone Hreg. split; [|split].
    + unfold joined.
      destruct (handleJoinRoom_db wj uuid now) as [->|(nick & r & Hr & ->)]; [auto|].
      intros p Hin. cbn [Supabase.players] in Hin. apply in_app_or in Hin.
      unfold Supabase.has_room. cbn [Supabase.rooms].
      destruct Hin as [Hin|[<-|[]]]; [apply Href, Hin | exact Hr].
    + intros rid. rewrite Hjoin_hosts. apply Hone.
    + unfold joined.
      destruct (handleJoinRoom_db wj uuid now) as [->|(nick & r & Hr & ->)]; [auto|].
      intros p Hin. cbn [Supabase.players] in Hin. apply in_app_or in Hin.
      destruct Hin as [Hin|[<-|[]]]; [auto | reflexivity].
Qed.

(** * The fetched roster *)





Lemma game_fetchPlayers_run (w : World GamePage.State) (rid : string)
    (gameState : option GameState.t) :
  Session.roomId (session w) = Some rid ->
  Js.truthy rid = true ->
  exec (GamePage.fetchPlayers gameState) w
  = mkWorld (db w) (session w) (location w) (timers w)
      (GamePage.setIsCurrentPlayer
         match gameState, Session.playerId (session w) with
         | Some g, Some playerId => (GameState.current_player_id g =? playerId)%string
         | _, _ => false
         end
         (GamePage.setPlayers
            (order_by Supabase.by_turn_order
               (filter (Supabase.player_in_room rid) (Supabase.players (db w))))
            (ui w))).
Proof.
  intros Hr Ht.
  unfold exec, GamePage.fetchPlayers, try_catch, try_catch_finally, bind,
    getItem, gets, query, orThrow, setState, modify, ret, return_.
  cbn [db session location timers ui fst snd]. rewrite Hr, Ht. reflexivity.
Qed.


(** * Choosing a type: the accepted case *)

Lemma update_current_prompt_ok (now : Z) (rid prid : string) (db : Supabase.t) :
  Supabase.has_prompt db prid = true ->
  Supabase.update_current_prompt now rid prid db
  = (Supabase.mk (Supabase.rooms db) (Supabase.players db) (Supabase.prompts db)
       (map (fun g =>
               if Supabase.matches_room rid g
               then GameState.mk (GameState.id g) (GameState.room_id g)
                      (GameState.current_player_id g) (Some prid)
                      (GameState.status g) (GameState.created_at g) now
               else g) (Supabase.game_state db))
       (Supabase.responses db),
     Supabase.Data tt).
Proof.
  intros H. unfold Supabase.update_current_prompt. rewrite H.
  now rewrite andb_false_r.
Qed.

(** The world [handleTypeSelection] leaves once a prompt is drawn. *)
Lemma handleTypeSelection_run (w : World GamePage.State) (rid : string)
    (type : PromptType) (random : Q) (now : Z) (p : Prompt.t) :
  let typed := filter (fun q => PromptType_eqb (Prompt.type q) type)
                 (Supabase.prompts (db w)) in
  Session.roomId (session w) = Some rid ->
  Js.truthy rid = true ->
  Js.index typed (Js.floor (random * inject_Z (Js.length typed))) = Some p ->
  exec (GamePage.handleTypeSelection type random now) w
  = mkWorld (fst (Supabase.update_current_prompt now rid (Prompt.id p) (db w)))
      (session w) (location w) (timers w)
      (GamePage.setHasResponded false
         (GamePage.setResponse ""
            (GamePage.setShowTypeSelection false
               (GamePage.setSelectedType (Some type) (ui w))))).
Proof.
  intros typed Hr Ht Hidx.
  assert (Hlen : (Js.length typed =? 0) = false).
  { destruct (Js.length typed =? 0) eqn:E; [|reflexivity].
    apply length_zero_iff in E. rewrite E in Hidx.
    unfold Js.index in Hidx. destruct (_ <? 0); [discriminate|].
    destruct (Z.to_nat _); discriminate. }
  unfold exec, GamePage.handleTypeSelection, try_catch, try_catch_finally, bind,
    getItem, query, request, gets, orThrow, setState, modify, throw, ret, return_.
  cbn [db session location timers ui fst snd]. rewrite Hr, Ht.
  unfold Supabase.select_prompts_by_type. cbn [negb]. cbv beta. cbn [db].
  fold typed. rewrite Hlen. cbv beta. rewrite Hidx.
  cbn [db session location timers ui fst snd].
  destruct (Supabase.update_current_prompt now rid (Prompt.id p) (db w)) as [db' r].
  reflexivity.
Qed.

(** X7. Choosing a type of which the catalog holds a prompt writes, for
    every value of [Math.random()], the id of a catalog prompt of that type
    as the room's [current_prompt_id]; the current player, the status and
    the rows of other rooms stay as they were, no error is shown, and the
    client leaves the type choice. *)
Theorem chosen_prompt_has_the_chosen_type
    (w : World GamePage.State) (rid : string) (type : PromptType)
    (random : Q) (now : Z) :
  Session.roomId (session w) = Some rid ->
  Js.truthy rid = true ->
  (exists q, In q (Supabase.prompts (db w)) /\ Prompt.type q = type) ->
  (0 <= random)%Q -> (random < 1)%Q ->
  let w' := exec (GamePage.handleTypeSelection type random now) w in
  exists p,
    In p (Supabase.prompts (db w)) /\ Prompt.type p = type
    /\ (forall g, In g (Supabase.game_state (db w')) -> GameState.room_id g = rid ->
          GameState.current_prompt_id g = Some (Prompt.id p))
    /\ map turn_frame (Supabase.game_state (db w'))
       = map turn_frame (Supabase.game_state (db w))
    /\ other_rooms rid (db w') = other_rooms rid (db w)
    /\ GamePage.error (ui w') = GamePage.error (ui w)
    /\ GamePage.showTypeSelection (ui w') = false
    /\ GamePage.selectedType (ui w') = Some type.
Proof.
  intros Hr Ht [q [Hq Hqt]] H0 H1 w'.
  set (typed := filter (fun q => PromptType_eqb (Prompt.type q) type)
                  (Supabase.prompts (db w))).
  assert (Hne : typed <> []).
  { intros E. assert (Hin : In q typed).
    { apply filter_In. split; [exact Hq|]. now apply PromptType_eqb_eq. }
    rewrite E in Hin. contradiction. }
  assert (Hn : 0 < Js.length typed)
    by (unfold Js.length; destruct typed; [congruence | simpl List.length; lia]).
  destruct (index_defined typed _ (floor_bounds random _ H0 H1 Hn)) as [p [Hidx Hin]].
  apply filter_In in Hin. destruct Hin as [Hp Hpt]. apply PromptType_eqb_eq in Hpt.
  exists p. split; [exact Hp|]. split; [exact Hpt|].
  unfold w'. rewrite (handleTypeSelection_run w rid type random now p Hr Ht Hidx).
  rewrite (update_current_prompt_ok now rid (Prompt.id p) (db w) (has_prompt_in _ _ Hp)).
  cbn [db ui fst Supabase.game_state GamePage.error GamePage.showTypeSelection
       GamePage.selectedType GamePage.setHasResponded GamePage.setResponse
       GamePage.setShowTypeSelection GamePage.setSelectedType].
  split; [|split; [|split; [|repeat split]]].
  - intros g Hg Hroom. apply in_map_iff in Hg. destruct Hg as [g0 [Hg0 _]].
    unfold Supabase.matches_room in Hg0.
    destruct (GameState.room_id g0 =? rid)%string eqn:E.
    + now subst g.
    + subst g. apply String.eqb_neq in E. contradiction.
  - rewrite map_map. apply map_ext. intros g.
    destruct (Supabase.matches_room rid g); reflexivity.
  - unfold other_rooms. cbn [Supabase.game_state].
    induction (Supabase.game_state (db w)) as [|g l IH]; [reflexivity|].
    cbn [map filter]. destruct (Supabase.matches_room rid g) eqn:E.
    + assert (Hm : Supabase.matches_room rid
                (GameState.mk (GameState.id g) (GameState.room_id g)
                   (GameState.current_player_id g) (Some (Prompt.id p))
                   (GameState.status g) (GameState.created_at g) now) = true)
        by exact E.
      rewrite Hm. cbn [negb]. exact IH.
    + rewrite E. cbn [negb]. now rewrite IH.
Qed.

(** * Rooms do not interfere *)

Lemma update_current_player_other_rooms (now : Z) (rid pid : string) (db : Supabase.t) :
  other_rooms rid (fst (Supabase.update_current_player now rid pid db))
  = other_rooms rid db.
Proof.
  unfold Supabase.update_current_player, other_rooms.
  destruct (existsb _ _ && negb _); [reflexivity|]. cbn [fst Supabase.game_state].
  induction (Supabase.game_state db) as [|g l IH]; [reflexivity|].
  cbn [map filter]. destruct (Supabase.matches_room rid g) eqn:E.
  - assert (Hm : Supabase.matches_room rid
              (GameState.mk (GameState.id g) (GameState.room_id g) pid
                 (GameState.current_prompt_id g) (GameState.status g)
                 (GameState.created_at g) now) = true) by exact E.
    rewrite Hm. cbn [negb]. exact IH.
  - rewrite E. cbn [negb]. now rewrite IH.
Qed.

Lemma select_game_state_other_rooms (rid other : string) (db db' : Supabase.t) :
  other <> rid ->
  other_rooms rid db' = other_rooms rid db ->
  Supabase.select_game_state other db' = Supabase.select_game_state other db.
Proof.
  intros Hneq H. unfold Supabase.select_game_state. f_equal.
  assert (Hf : forall l,
    filter (Supabase.matches_room other) l
    = filter (Supabase.matches_room other)
        (filter (fun g => negb (Supabase.matches_room rid g)) l)).
  { induction l as [|g l IH]; [reflexivity|]. cbn [filter].
    destruct (Supabase.matches_room rid g) eqn:E; cbn [negb].
    - assert (Supabase.matches_room other g = false) as ->; [|exact IH].
      unfold Supabase.matches_room in *. apply String.eqb_eq in E.
      apply String.eqb_neq. congruence.
    - cbn [filter]. destruct (Supabase.matches_room other g); now rewrite IH. }
  rewrite (Hf (Supabase.game_state db')), (Hf (Supabase.game_state db)).
  unfold other_rooms in H. now rewrite H.
Qed.

(** The one statement [handleNextTurn] may issue is for the room of its
    closure. *)
Lemma handleNextTurn_room (rid : string) (gameState : option GameState.t)
    (players : list Player.t) (now : Z) (w : World GamePage.State) :
  db (exec (GamePage.handleNextTurn (Some rid) gameState players now) w) = db w
  \/ exists pid,
       db (exec (GamePage.handleNextTurn (Some rid) gameState players now) w)
       = fst (Supabase.update_current_player now rid pid (db w)).
Proof.
  destruct gameState as [g|]; [|left; reflexivity].
  destruct (Js.truthy rid) eqn:Ht.
  2:{ left. unfold exec, GamePage.handleNextTurn, try_catch, try_catch_finally.
      rewrite Ht. reflexivity. }
  destruct players as [|q players'] eqn:Ep.
  { left. unfold exec, GamePage.handleNextTurn, try_catch, try_catch_finally.
    rewrite Ht. reflexivity. }
  rewrite <- Ep.
  assert (Hne : players <> []) by (subst; discriminate).
  destruct (index_defined players _ (nextPlayerIndex_bounds g players Hne))
    as [p [Hp _]].
  rewrite (handleNextTurn_run w rid g players now p Ht Hne Hp).
  right. exists (Player.id p).
  destruct (Supabase.update_current_player now rid (Player.id p) (db w))
    as [db' [[]|code message]]; reflexivity.
Qed.

(** X8. An advance in one room leaves the [game_state] rows of every other
    room exactly as they were, [updated_at] included: the player and the
    prompt a client of another room reads do not move. *)
Theorem advance_leaves_other_rooms
    (rid : string) (gameState : option GameState.t)
    (players : list Player.t) (now : Z) (w : World GamePage.State) :
  let db' := db (exec (GamePage.handleNextTurn (Some rid) gameState players now) w) in
  other_rooms rid db' = other_rooms rid (db w)
  /\ forall other,
       other <> rid ->
       stored_current_player other db' = stored_current_player other (db w)
       /\ stored_current_prompt other db' = stored_current_prompt other (db w).
Proof.
  intros db'.
  assert (H : other_rooms rid db' = other_rooms rid (db w)).
  { subst db'.
    destruct (handleNextTurn_room rid gameState players now w) as [->|[pid ->]];
      [reflexivity | apply update_current_player_other_rooms]. }
  split; [exact H|]. intros other Hneq.
  unfold stored_current_player, stored_current_prompt.
  now rewrite (select_game_state_other_rooms rid other (db w) db' Hneq H).
Qed.

(** * Submitting a response *)

(** Whatever [handleSubmitResponse] does to the store, it is nothing or one
    appended response row for the session's room and player and the shown
    prompt, holding the trimmed draft. *)
Lemma handleSubmitResponse_db (w : World GamePage.State) (uuid : string) (now : Z) :
  db (exec (GamePage.handleSubmitResponse uuid now) w) = db w
  \/ exists rid pid p,
       Session.roomId (session w) = Some rid
       /\ Session.playerId (session w) = Some pid
       /\ GamePage.currentPrompt (ui w) = Some p
       /\ db (exec (GamePage.handleSubmitResponse uuid now) w)
          = Supabase.mk (Supabase.rooms (db w)) (Supabase.players (db w))
              (Supabase.prompts (db w)) (Supabase.game_state (db w))
              (Supabase.responses (db w)
                 ++ [Response.mk uuid rid pid (Prompt.id p)
                       (Js.trim (GamePage.response (ui w))) now]).
Proof.
  destruct (Session.roomId (session w)) as [rid|] eqn:Hr.
  2:{ left. unfold exec, GamePage.handleSubmitResponse, try_catch, try_catch_finally,
        bind, getItem, state, gets, return_. cbn [fst snd]. rewrite Hr. reflexivity. }
  destruct (Session.playerId (session w)) as [pid|] eqn:Hp.
  2:{ left. unfold exec, GamePage.handleSubmitResponse, try_catch, try_catch_finally,
        bind, getItem, state, gets, return_. cbn [fst snd]. rewrite Hr, Hp. reflexivity. }
  destruct (GamePage.currentPrompt (ui w)) as [p|] eqn:Hc.
  2:{ left. unfold exec, GamePage.handleSubmitResponse, try_catch, try_catch_finally,
        bind, getItem, state, gets, return_. cbn [fst snd]. rewrite Hr, Hp, Hc.
      reflexivity. }
  destruct (Js.truthy rid) eqn:Ht.
  2:{ left. unfold exec, GamePage.handleSubmitResponse, try_catch, try_catch_finally,
        bind, getItem, state, gets, return_. cbn [fst snd]. rewrite Hr, Hp, Hc, Ht.
      reflexivity. }
  destruct (Js.truthy pid) eqn:Htp.
  2:{ left. unfold exec, GamePage.handleSubmitResponse, try_catch, try_catch_finally,
        bind, getItem, state, gets, return_. cbn [fst snd]. rewrite Hr, Hp, Hc, Ht, Htp.
      reflexivity. }
  rewrite (handleSubmitResponse_spec w rid pid uuid p now Hr Ht Hp Htp Hc).
  cbn [db]. unfold Supabase.insert_response.
  destruct (existsb _ _); [left; reflexivity|].
  destruct (negb _); [left; reflexivity|].
  right. exists rid, pid, p. repeat split.
Qed.

(** X9. Submitting writes nothing but the response log: the store is as
    before or has one more response row, so the turn does not move before
    the scheduled advance fires.  The answer of the store is not looked at:
    when the submit passes its guard and the store rejects the insert, no
    error is shown, the player counts as having responded, and the advance
    is scheduled all the same. *)
Theorem submit_writes_the_log_only
    (w : World GamePage.State) (uuid : string) (now : Z) :
  let w' := exec (GamePage.handleSubmitResponse uuid now) w in
  (Supabase.game_state (db w') = Supabase.game_state (db w)
   /\ Supabase.players (db w') = Supabase.players (db w)
   /\ Supabase.rooms (db w') = Supabase.rooms (db w)
   /\ Supabase.prompts (db w') = Supabase.prompts (db w)
   /\ (Supabase.responses (db w') = Supabase.responses (db w)
       \/ exists row, Supabase.responses (db w')
                      = (Supabase.responses (db w) ++ [row])%list))
  /\ (forall rid pid p code message,
        Session.roomId (session w) = Some rid -> Js.truthy rid = true ->
        Session.playerId (session w) = Some pid -> Js.truthy pid = true ->
        GamePage.currentPrompt (ui w) = Some p ->
        snd (Supabase.insert_response uuid now rid pid (Prompt.id p)
               (Js.trim (GamePage.response (ui w))) (db w))
        = Supabase.Failure code message ->
        db w' = db w
        /\ GamePage.error (ui w') = GamePage.error (ui w)
        /\ GamePage.hasResponded (ui w') = true
        /\ In (NextTurn (Some rid) (GamePage.gameState (ui w))
                 (GamePage.players (ui w)), 2000) (timers w')).
Proof.
  intros w'. split.
  - unfold w'.
    destruct (handleSubmitResponse_db w uuid now) as [->|(rid & pid & p & _ & _ & _ & ->)].
    + repeat split. now left.
    + cbn. repeat split. right. eexists. reflexivity.
  - intros rid pid p code message Hr Ht Hp Htp Hc Hfail. unfold w'.
    rewrite (handleSubmitResponse_spec w rid pid uuid p now Hr Ht Hp Htp Hc).
    cbn [db ui timers GamePage.error GamePage.hasResponded
         GamePage.setShowConfetti GamePage.setHasResponded].
    repeat split.
    + unfold Supabase.insert_response in *.
      destruct (existsb _ _); [reflexivity|].
      destruct (negb _); [reflexivity | discriminate].
    + apply in_or_app. right. now left.
Qed.

(** X10. A response that reaches the log through the submit button is never
    blank: the button is enabled only for the current player's rendered
    prompt and a draft that is not empty once trimmed, so a click either
    changes nothing or stores a row whose text is not empty and is its own
    trim. *)
Theorem submit_button_stores_no_blank_response
    (w : World GamePage.State) (uuid : string) (now : Z) :
  let w' := exec (GameView.clickSubmit uuid now) w in
  (GameView.submitEnabled (ui w) = false -> w' = w)
  /\ forall row,
       In row (Supabase.responses (db w')) ->
       In row (Supabase.responses (db w))
       \/ (Response.response row <> ""
           /\ Js.trim (Response.response row) = Response.response row
           /\ Some (Response.player_id row) = Session.playerId (session w)
           /\ Some (Response.room_id row) = Session.roomId (session w)).
Proof.
  intros w'.
  assert (Hrun : w' = if GameView.submitEnabled (ui w)
                      then exec (GamePage.handleSubmitResponse uuid now) w else w).
  { unfold w', GameView.clickSubmit, exec at 1, bind, state, gets. cbn [fst snd].
    destruct (GameView.submitEnabled (ui w)); [apply exec_call | reflexivity]. }
  split.
  - intros Hoff. now rewrite Hrun, Hoff.
  - intros row Hin. rewrite Hrun in Hin.
    destruct (GameView.submitEnabled (ui w)) eqn:Hon; [|now left].
    destruct (handleSubmitResponse_db w uuid now)
      as [Hsame|(rid & pid & p & Hr & Hp & _ & Hdb)].
    + left. now rewrite <- Hsame.
    + rewrite Hdb in Hin. cbn [Supabase.responses] in Hin.
      apply in_app_or in Hin. destruct Hin as [Hin|[<-|[]]]; [now left|].
      right. cbn. unfold GameView.submitEnabled in Hon.
      apply andb_true_iff in Hon. destruct Hon as [_ Hdraft].
      apply truthy_iff in Hdraft.
      split; [exact Hdraft|]. split; [apply trim_idempotent|]. now rewrite Hr, Hp.
Qed.

(** * The subscription and the rendered controls *)

Lemma onGameStateChange_ui (g : GameState.t) (w : World GamePage.State) :
  let w' := exec (call (GamePage.onGameStateChange (Some g))) w in
  db w' = db w
  /\ GamePage.showTypeSelection (ui w') = true
  /\ GamePage.selectedType (ui w') = None
  /\ GamePage.response (ui w') = ""
  /\ GamePage.hasResponded (ui w') = false
  /\ GamePage.gameState (ui w') = Some g
  /\ GamePage.isCurrentPlayer (ui w') = GamePage.isCurrentPlayer (ui w).
Proof.
  unfold exec, GamePage.onGameStateChange.
  destruct (GameState.current_prompt_id g) as [promptId|].
  - destruct (Js.truthy promptId).
    + unfold call, GamePage.fetchCurrentPrompt, try_catch, try_catch_finally, bind,
        query, gets, orThrow, setState, modify, throw, ret. cbn.
      destruct (Supabase.select_prompt_by_id promptId (db w)) as [pr|c m]; cbn;
        repeat split.
    + cbn. repeat split.
  - cbn. repeat split.
Qed.

(** X11. Every change event of the room's game state puts the client back
    to the type choice, whatever it was showing: the draft is cleared, the
    prompt panel and its submit button are not rendered, and a click on the
    submit control changes nothing.  The world before the event is any
    world, so this also holds for the event of the player's own type
    choice, which hides the prompt that choice has just drawn. *)
Theorem change_event_returns_to_type_choice
    (g : GameState.t) (w : World GamePage.State) (uuid : string) (now : Z) :
  let w' := exec (call (GamePage.onGameStateChange (Some g))) w in
  db w' = db w
  /\ GamePage.response (ui w') = ""
  /\ GameView.showsPrompt (ui w') = false
  /\ GameView.submitEnabled (ui w') = false
  /\ exec (GameView.clickSubmit uuid now) w' = w'.
Proof.
  intros w'.
  destruct (onGameStateChange_ui g w) as (Hdb & Hshow & _ & Hresp & _ & _ & _).
  fold w' in Hdb, Hshow, Hresp.
  assert (Hprompt : GameView.showsPrompt (ui w') = false).
  { unfold GameView.showsPrompt. rewrite Hshow.
    destruct (GamePage.currentPrompt (ui w')); cbn; apply andb_false_r. }
  assert (Hoff : GameView.submitEnabled (ui w') = false).
  { unfold GameView.submitEnabled, GameView.showsSubmit. now rewrite Hprompt. }
  repeat split; try assumption.
  - unfold GameView.clickSubmit, exec, bind, state, gets. cbn [fst snd].
    now rewrite Hoff.
Qed.

(** * Loading the game page *)

Lemma single_message_truthy {A : Type} (rows : list A) (c m : string) :
  Supabase.single rows = Supabase.Failure c m -> Js.truthy m = true.
Proof.
  unfold Supabase.single. destruct rows as [|a [|b rest]]; intros H;
    inversion H; reflexivity.
Qed.

Lemma fetchCurrentPrompt_run (promptId : string) (w : World GamePage.State) :
  exec (call (GamePage.fetchCurrentPrompt promptId)) w
  = mkWorld (db w) (session w) (location w) (timers w)
      match Supabase.select_prompt_by_id promptId (db w) with
      | Supabase.Data p => GamePage.setCurrentPrompt (Some p) (ui w)
      | Supabase.Failure _ m => GamePage.setError m (ui w)
      end.
Proof.
  unfold exec, call, GamePage.fetchCurrentPrompt, try_catch, try_catch_finally, bind,
    query, gets, orThrow, setState, modify, throw, ret. cbn.
  destruct (Supabase.select_prompt_by_id promptId (db w)); reflexivity.
Qed.


(** * Starting, seen from the other pages *)

(** Past its guard [startGame] has issued the status update, whatever comes
    after: the store is the updated one, with or without the new
    [game_state] row. *)
Lemma startGame_db (w : World RoomLobbyPage.State) (rid : string)
    (players : list Player.t) (random : Q) (uuid : string) (now : Z) :
  Session.roomId (session w) = Some rid ->
  Js.truthy rid = true ->
  let updated := fst (Supabase.update_room_status rid active (db w)) in
  let db' := db (exec (RoomLobbyPage.startGame players random uuid now) w) in
  db' = updated
  \/ exists pid prid,
       db' = fst (Supabase.insert_game_state uuid now rid pid prid active updated).
Proof.
  intros Hr Ht updated db'. subst db'.
  unfold exec, RoomLobbyPage.startGame, try_catch, try_catch_finally, bind,
    getItem, query, request, gets, orThrow, setState, modify, throw, ret, return_,
    useParams, navigate.
  cbn [db session location timers ui fst snd]. rewrite Hr, Ht.
  cbn [Supabase.update_room_status db session location timers ui fst snd
       Supabase.select_prompts_limit Supabase.prompts negb].
  cbv beta. cbn [db Supabase.prompts].
  destruct (Js.length (firstn 100 (Supabase.prompts (db w))) =? 0);
    [left; reflexivity|].
  cbv beta.
  destruct (Js.index players 0) as [first|]; [|left; reflexivity].
  cbn [db session location timers ui fst snd].
  destruct (Js.index (firstn 100 (Supabase.prompts (db w))) _) as [opening|];
    [|left; reflexivity].
  cbn [db session location timers ui fst snd].
  right. exists (Player.id first), (Prompt.id opening).
  unfold updated, gets. cbn [Supabase.update_room_status fst].
  match goal with
  | |- context [Supabase.insert_game_state ?u ?n ?r ?a ?b ?c ?d] =>
      destruct (Supabase.insert_game_state u n r a b c d) as [db2 [[]|code m]]
  end; reflexivity.
Qed.

Lemma insert_game_state_tables (uuid rid pid prid : string) (now : Z)
    (status : Status) (db : Supabase.t) :
  let db' := fst (Supabase.insert_game_state uuid now rid pid prid status db) in
  Supabase.rooms db' = Supabase.rooms db
  /\ Supabase.players db' = Supabase.players db
  /\ Supabase.prompts db' = Supabase.prompts db
  /\ Supabase.responses db' = Supabase.responses db.
Proof.
  unfold Supabase.insert_game_state.
  destruct (existsb _ _); [repeat split|]. destruct (negb _); repeat split.
Qed.

Lemma startGame_rooms (w : World RoomLobbyPage.State) (rid : string)
    (players : list Player.t) (random : Q) (uuid : string) (now : Z) :
  Session.roomId (session w) = Some rid ->
  Js.truthy rid = true ->
  let db' := db (exec (RoomLobbyPage.startGame players random uuid now) w) in
  Supabase.rooms db'
  = map (fun r => if (Room.id r =? rid)%string
                  then Room.mk (Room.id r) (Room.code r) (Room.created_at r) active
                  else r) (Supabase.rooms (db w))
  /\ Supabase.players db' = Supabase.players (db w)
  /\ Supabase.prompts db' = Supabase.prompts (db w)
  /\ Supabase.responses db' = Supabase.responses (db w).
Proof.
  intros Hr Ht db'.
  destruct (startGame_db w rid players random uuid now Hr Ht) as [H|(pid & prid & H)];
    fold db' in H; rewrite H.
  - repeat split.
  - destruct (insert_game_state_tables uuid rid pid prid now active
                (fst (Supabase.update_room_status rid active (db w))))
      as (H1 & H2 & H3 & H4).
    rewrite H1, H2, H3, H4. repeat split.
Qed.

(** X13. A start closes the room to joins at its first request, before it
    has drawn a prompt or written a game state: whatever the roster, the
    catalog and the outcome of the later requests, once [startGame] is past
    its guard every stored room with the session's room id is active, the
    players, prompts and responses are untouched, and a join to that room
    from any client leaves the store as it is, with the already-started
    message when both fields are filled in. *)
Theorem start_closes_the_room_to_joins
    (w : World RoomLobbyPage.State) (rid : string) (players : list Player.t)
    (random : Q) (uuid : string) (now : Z)
    (joiner : World JoinRoomPage.State) (juuid : string) (jnow : Z) :
  Session.roomId (session w) = Some rid ->
  Js.truthy rid = true ->
  let db' := db (exec (RoomLobbyPage.startGame players random uuid now) w) in
  (forall r, In r (Supabase.rooms db') -> Room.id r = rid -> Room.status r = active)
  /\ Supabase.players db' = Supabase.players (db w)
  /\ Supabase.prompts db' = Supabase.prompts (db w)
  /\ Supabase.responses db' = Supabase.responses (db w)
  /\ (db joiner = db' ->
      forall room,
        Supabase.select_room_by_code (JoinRoomPage.roomCode (ui joiner)) db'
        = Supabase.Data room ->
        Room.id room = rid ->
        let joiner' := exec (JoinRoomPage.handleJoinRoom juuid jnow) joiner in
        db joiner' = db'
        /\ session joiner' = session joiner
        /\ location joiner' = location joiner
        /\ (Js.trim (JoinRoomPage.nickname (ui joiner)) <> "" ->
            Js.trim (JoinRoomPage.roomCode (ui joiner)) <> "" ->
            JoinRoomPage.error (ui joiner') = JoinRoomPage.msg_started)).
Proof.
  intros Hr Ht db'.
  destruct (startGame_rooms w rid players random uuid now Hr Ht)
    as (Hrooms & Hplayers & Hprompts & Hresponses).
  fold db' in Hrooms, Hplayers, Hprompts, Hresponses.
  assert (Hactive : forall r, In r (Supabase.rooms db') -> Room.id r = rid ->
                      Room.status r = active).
  { intros r Hin Hid. rewrite Hrooms in Hin. apply in_map_iff in Hin.
    destruct Hin as (r0 & Hr0 & _).
    destruct (Room.id r0 =? rid)%string eqn:E.
    - now rewrite <- Hr0.
    - subst r0. apply String.eqb_neq in E. contradiction. }
  split; [exact Hactive|]. repeat (split; [assumption|]).
  intros Hdb room Hsel Hid joiner'.
  assert (Hstatus : Room.status room = active).
  { apply Hactive; [|exact Hid]. now apply (select_room_in _ _ _ Hsel). }
  destruct (string_dec (Js.trim (JoinRoomPage.nickname (ui joiner))) "") as [Hn|Hn].
  { unfold joiner'. rewrite (handleJoinRoom_empty joiner juuid jnow (or_introl Hn)).
    cbn. repeat split; [exact Hdb | contradiction]. }
  destruct (string_dec (Js.trim (JoinRoomPage.roomCode (ui joiner))) "") as [Hc|Hc].
  { unfold joiner'. rewrite (handleJoinRoom_empty joiner juuid jnow (or_intror Hc)).
    cbn. repeat split; [exact Hdb | contradiction]. }
  unfold joiner'.
  rewrite (handleJoinRoom_rejected joiner juuid jnow JoinRoomPage.msg_started Hn Hc).
  - cbn. repeat split. exact Hdb.
  - rewrite Hdb, Hsel. split; [exact Hstatus | reflexivity].
Qed.

Lemma single_many {A : Type} (a b : A) (rest : list A) :
  exists m, Supabase.single (a :: b :: rest) = Supabase.Failure Supabase.PGRST116 m.
Proof. eexists. reflexivity. Qed.

(** The world [fetchGameState] leaves when the read of the room's game state
    fails. *)
Lemma fetchGameState_failed (w : World GamePage.State) (rid c m : string) :
  Session.roomId (session w) = Some rid ->
  Js.truthy rid = true ->
  Supabase.select_game_state rid (db w) = Supabase.Failure c m ->
  exec GamePage.fetchGameState w
  = mkWorld (db w) (session w) (location w) (timers w)
      (GamePage.setLoading false (GamePage.setError m (ui w))).
Proof.
  intros Hr Ht Hsel.
  unfold exec, GamePage.fetchGameState, try_catch_finally, bind, getItem, gets,
    query, orThrow, setState, modify, throw, ret, return_. cbn.
  rewrite Hr, Ht. cbn. rewrite Hsel. reflexivity.
Qed.

(** X14. The store keeps no more than the code asks of it: nothing limits a
    room to one game state.  A start that succeeds on a room which already
    has a game state (the host's lobby renders the start button whether or
    not the game has started) adds a second row, after which the single-row
    read of the room's game state fails, and a game page loading then shows
    that error instead of the game. *)
Theorem second_start_breaks_the_game_page
    (w : World RoomLobbyPage.State) (rid : string)
    (first : Player.t) (rest : list Player.t) (random : Q) (uuid : string)
    (now : Z) (opening : Prompt.t) (page : World GamePage.State) :
  Session.roomId (session w) = Some rid ->
  Js.truthy rid = true ->
  Supabase.has_room (db w) rid = true ->
  Supabase.has_player (db w) (Player.id first) = true ->
  existsb (fun g => (GameState.id g =? uuid)%string) (Supabase.game_state (db w))
  = false ->
  Js.index (firstn 100 (Supabase.prompts (db w)))
    (Js.floor (random * inject_Z (Js.length (firstn 100 (Supabase.prompts (db w))))))
  = Some opening ->
  filter (Supabase.matches_room rid) (Supabase.game_state (db w)) <> [] ->
  let db' := db (exec (RoomLobbyPage.startGame (first :: rest) random uuid now) w) in
  (List.length (filter (Supabase.matches_room rid) (Supabase.game_state db'))
   = S (List.length (filter (Supabase.matches_room rid) (Supabase.game_state (db w)))))
  /\ stored_current_player rid db' = None
  /\ (db page = db' -> Session.roomId (session page) = Some rid ->
      exists m, GamePage.render (ui (exec GamePage.fetchGameState page))
                = GamePage.ErrorView m).
Proof.
  intros Hr Ht Hroom Hplayer Hfresh Hidx Hsome db'.
  assert (Hdb : Supabase.game_state db'
                = (Supabase.game_state (db w)
                     ++ [GameState.mk uuid rid (Player.id first)
                           (Some (Prompt.id opening)) active now now])%list).
  { unfold db'. rewrite (startGame_run w rid first rest random uuid now opening Hr Ht Hidx).
    rewrite insert_game_state_ok.
    - reflexivity.
    - exact Hfresh.
    - now rewrite has_room_after_status.
    - exact Hplayer.
    - apply has_prompt_in. cbn. apply (in_firstn 100). apply (index_in _ _ _ Hidx). }
  assert (Hrows : filter (Supabase.matches_room rid) (Supabase.game_state db')
                  = (filter (Supabase.matches_room rid) (Supabase.game_state (db w))
                       ++ [GameState.mk uuid rid (Player.id first)
                             (Some (Prompt.id opening)) active now now])%list).
  { rewrite Hdb, filter_app. cbn [filter]. unfold Supabase.matches_room at 2.
    cbn [GameState.room_id]. now rewrite String.eqb_refl. }
  assert (Hfail : exists m, Supabase.select_game_state rid db'
                            = Supabase.Failure Supabase.PGRST116 m).
  { unfold Supabase.select_game_state. rewrite Hrows.
    destruct (filter (Supabase.matches_room rid) (Supabase.game_state (db w)))
      as [|a l]; [contradiction|].
    destruct l as [|b l]; cbn [app]; apply single_many. }
  destruct Hfail as [m Hfail].
  split; [|split].
  - rewrite Hrows, length_app. cbn [List.length]. lia.
  - unfold stored_current_player. now rewrite Hfail.
  - intros Hpage Hsession. exists m.
    rewrite (fetchGameState_failed page rid Supabase.PGRST116 m Hsession Ht)
      by (now rewrite Hpage).
    cbn [ui]. unfold GamePage.render. cbn.
    rewrite <- Hpage in Hfail. unfold Supabase.select_game_state in Hfail.
    now rewrite (single_message_truthy _ _ _ Hfail).
Qed.

Lemma select_room_by_id_after_status (rid : string) (db : Supabase.t) (room : Room.t) :
  Supabase.select_room_by_id rid db = Supabase.Data room ->
  Supabase.select_room_by_id rid (fst (Supabase.update_room_status rid active db))
  = Supabase.Data (Room.mk (Room.id room) (Room.code room) (Room.created_at room) active).
Proof.
  unfold Supabase.select_room_by_id, Supabase.update_room_status.
  cbn [fst Supabase.rooms]. intros H. apply single_data in H.
  assert (Hmap : forall l,
            filter (fun r => (Room.id r =? rid)%string)
              (map (fun r => if (Room.id r =? rid)%string
                             then Room.mk (Room.id r) (Room.code r) (Room.created_at r) active
                             else r) l)
            = map (fun r => Room.mk (Room.id r) (Room.code r) (Room.created_at r) active)
                (filter (fun r => (Room.id r =? rid)%string) l)).
  { induction l as [|r l IH]; [reflexivity|]. cbn [map filter].
    destruct (Room.id r =? rid)%string eqn:E.
    - cbn [Room.id]. rewrite E. cbn [map]. now rewrite IH.
    - rewrite E. exact IH. }
  rewrite Hmap, H. reflexivity.
Qed.

Lemma checkGameStatus_run (w : World RoomLobbyPage.State) (rid : string) (room : Room.t) :
  Session.roomId (session w) = Some rid ->
  Js.truthy rid = true ->
  Supabase.select_room_by_id rid (db w) = Supabase.Data room ->
  exec RoomLobbyPage.checkGameStatus w
  = mkWorld (db w) (session w) (location w) (timers w)
      (RoomLobbyPage.setGameStarted (Status_eqb (Room.status room) active) (ui w)).
Proof.
  intros Hr Ht Hsel.
  unfold exec, RoomLobbyPage.checkGameStatus, try_catch, try_catch_finally, bind,
    getItem, gets, query, orThrow, setState, modify, throw, ret, return_. cbn.
  rewrite Hr, Ht. cbn. rewrite Hsel. reflexivity.
Qed.

(** X15. A start and the reads of the other pages agree.  After a start that
    succeeds on a room without a game state, a lobby of the room that runs
    [checkGameStatus] learns that the game has started, and a game page of
    the room that runs [fetchGameState] leaves loading with the game state
    the start wrote (the roster's first player, the drawn prompt, active)
    and with the drawn prompt as its current prompt, and shows the game. *)
Theorem started_game_is_what_the_pages_load
    (w : World RoomLobbyPage.State) (rid : string) (room : Room.t)
    (first : Player.t) (rest : list Player.t) (random : Q) (uuid : string)
    (now : Z) (opening : Prompt.t)
    (lobby : World RoomLobbyPage.State) (page : World GamePage.State) :
  Session.roomId (session w) = Some rid ->
  Js.truthy rid = true ->
  Supabase.select_room_by_id rid (db w) = Supabase.Data room ->
  Supabase.has_player (db w) (Player.id first) = true ->
  existsb (fun g => (GameState.id g =? uuid)%string) (Supabase.game_state (db w))
  = false ->
  Js.index (firstn 100 (Supabase.prompts (db w)))
    (Js.floor (random * inject_Z (Js.length (firstn 100 (Supabase.prompts (db w))))))
  = Some opening ->
  Supabase.select_prompt_by_id (Prompt.id opening) (db w) = Supabase.Data opening ->
  Js.truthy (Prompt.id opening) = true ->
  filter (Supabase.matches_room rid) (Supabase.game_state (db w)) = [] ->
  let db' := db (exec (RoomLobbyPage.startGame (first :: rest) random uuid now) w) in
  (db lobby = db' -> Session.roomId (session lobby) = Some rid ->
   RoomLobbyPage.gameStarted (ui (exec RoomLobbyPage.checkGameStatus lobby)) = true)
  /\ (db page = db' -> Session.roomId (session page) = Some rid ->
      GamePage.error (ui page) = "" ->
      let page' := exec GamePage.fetchGameState page in
      GamePage.gameState (ui page')
      = Some (GameState.mk uuid rid (Player.id first) (Some (Prompt.id opening))
                active now now)
      /\ GamePage.currentPrompt (ui page') = Some opening
      /\ GamePage.render (ui page') = GamePage.Game).
Proof.
  intros Hr Ht Hroom Hplayer Hfresh Hidx Hprompt Htp Hnone db'.
  assert (Hhas : Supabase.has_room (db w) rid = true).
  { unfold Supabase.select_room_by_id in Hroom. apply single_data in Hroom.
    unfold Supabase.has_room. apply existsb_exists. exists room.
    assert (Hin : In room (filter (fun r => (Room.id r =? rid)%string)
                             (Supabase.rooms (db w)))) by (rewrite Hroom; now left).
    apply filter_In in Hin. exact Hin. }
  assert (Hin : In opening (Supabase.prompts (db w))).
  { apply (in_firstn 100). apply (index_in _ _ _ Hidx). }
  assert (Hdb : db' = Supabase.mk
                  (Supabase.rooms (fst (Supabase.update_room_status rid active (db w))))
                  (Supabase.players (db w)) (Supabase.prompts (db w))
                  (Supabase.game_state (db w)
                     ++ [GameState.mk uuid rid (Player.id first)
                           (Some (Prompt.id opening)) active now now])
                  (Supabase.responses (db w))).
  { unfold db'. rewrite (startGame_run w rid first rest random uuid now opening Hr Ht Hidx).
    unfold Supabase.insert_game_state.
    cbn [Supabase.update_room_status fst Supabase.game_state]. rewrite Hfresh.
    assert (H1 := has_room_after_status rid active (db w) rid).
    cbn [Supabase.update_room_status fst] in H1. rewrite H1, Hhas.
    unfold Supabase.has_player, Supabase.has_prompt in *. cbn [Supabase.players Supabase.prompts].
    rewrite Hplayer.
    assert (H2 := has_prompt_in (db w) opening Hin). unfold Supabase.has_prompt in H2.
    rewrite H2. reflexivity. }
  split.
  - intros Hlobby Hsession.
    assert (Hsel := select_room_by_id_after_status rid (db w) room Hroom).
    assert (Hsel' : Supabase.select_room_by_id rid (db lobby)
                    = Supabase.Data (Room.mk (Room.id room) (Room.code room)
                                       (Room.created_at room) active)).
    { rewrite Hlobby, Hdb. exact Hsel. }
    rewrite (checkGameStatus_run lobby rid _ Hsession Ht Hsel'). reflexivity.
  - intros Hpage Hsession Herr page'.
    assert (Hsel : Supabase.select_game_state rid (db page)
                   = Supabase.Data (GameState.mk uuid rid (Player.id first)
                                      (Some (Prompt.id opening)) active now now)).
    { rewrite Hpage, Hdb. unfold Supabase.select_game_state.
      cbn [Supabase.game_state]. rewrite filter_app, Hnone. cbn [filter app].
      unfold Supabase.matches_room. cbn [GameState.room_id].
      now rewrite String.eqb_refl. }
    assert (Hp : Supabase.select_prompt_by_id (Prompt.id opening) (db page)
                 = Supabase.Data opening).
    { rewrite Hpage, Hdb. exact Hprompt. }
    assert (Hrun : page' = mkWorld (db page) (session page) (location page) (timers page)
                     (GamePage.setLoading false
                        (GamePage.setCurrentPrompt (Some opening)
                           (GamePage.setGameState
                              (Some (GameState.mk uuid rid (Player.id first)
                                       (Some (Prompt.id opening)) active now now))
                              (ui page))))).
    { unfold page', exec, GamePage.fetchGameState, try_catch_finally, bind, getItem,
        gets, query, orThrow, setState, modify, throw, ret, return_. cbn.
      rewrite Hsession, Ht. cbn. rewrite Hsel. cbn. rewrite Htp.
      unfold call, GamePage.fetchCurrentPrompt, try_catch, try_catch_finally, bind,
        query, gets, orThrow, setState, modify, throw, ret. cbn.
      rewrite Hp. reflexivity. }
    rewrite Hrun. cbn [ui]. split; [reflexivity|]. split; [reflexivity|].
    unfold GamePage.render. cbn. now rewrite Herr.
Qed.

(** * The join form's room check *)

Lemma checkRoomStatus_run (w : World JoinRoomPage.State) :
  exec JoinRoomPage.checkRoomStatus w
  = mkWorld (db w) (session w) (location w) (timers w)
      match Supabase.select_room_by_code (JoinRoomPage.roomCode (ui w)) (db w) with
      | Supabase.Data room =>
          JoinRoomPage.setIsGameStarted (Status_eqb (Room.status room) active)
            (JoinRoomPage.setIsValidRoom true (ui w))
      | Supabase.Failure _ _ =>
          JoinRoomPage.setIsGameStarted false
            (JoinRoomPage.setIsValidRoom false (ui w))
      end.
Proof.
  unfold exec, JoinRoomPage.checkRoomStatus, try_catch, try_catch_finally, bind,
    state, query, gets, setState, modify, throw, ret. cbn.
  unfold Supabase.select_room_by_code, Supabase.single.
  destruct (filter _ (Supabase.rooms (db w))) as [|a [|b l]]; reflexivity.
Qed.

(** X16. The room check of the join form predicts the join.  The check
    writes neither the store nor the error, and for a form with both fields
    filled in: a code it marks invalid is refused with the room-not-found
    message, a room it marks as started is refused with the already-started
    message, and a room it marks valid and not started is joined, the player
    row being appended and the client sent to the room's lobby. *)
Theorem room_check_predicts_the_join
    (w : World JoinRoomPage.State) (uuid : string) (now : Z) :
  let nickname := JoinRoomPage.nickname (ui w) in
  let roomCode := JoinRoomPage.roomCode (ui w) in
  let checked := exec JoinRoomPage.checkRoomStatus w in
  let joined := exec (JoinRoomPage.handleJoinRoom uuid now) checked in
  db checked = db w
  /\ JoinRoomPage.error (ui checked) = JoinRoomPage.error (ui w)
  /\ (Js.trim nickname <> "" -> Js.trim roomCode <> "" ->
      (JoinRoomPage.isValidRoom (ui checked) = false ->
         db joined = db w
         /\ JoinRoomPage.error (ui joined) = JoinRoomPage.msg_not_found)
      /\ (JoinRoomPage.isValidRoom (ui checked) = true ->
          JoinRoomPage.isGameStarted (ui checked) = true ->
          db joined = db w
          /\ JoinRoomPage.error (ui joined) = JoinRoomPage.msg_started)
      /\ (JoinRoomPage.isValidRoom (ui checked) = true ->
          JoinRoomPage.isGameStarted (ui checked) = false ->
          Supabase.has_player (db w) uuid = false ->
          exists room,
            In room (Supabase.rooms (db w)) /\ Room.code room = roomCode
            /\ Supabase.players (db joined)
               = (Supabase.players (db w)
                    ++ [Player.mk uuid (Js.trim nickname) (Room.id room) false 0 now])%list
            /\ location joined = Some ("/room/" ++ roomCode)
            /\ JoinRoomPage.error (ui joined) = "")).
Proof.
  intros nickname roomCode checked joined.
  assert (Hrun := checkRoomStatus_run w). fold checked roomCode in Hrun.
  assert (Hdb : db checked = db w) by (now rewrite Hrun).
  assert (Hnick : JoinRoomPage.nickname (ui checked) = nickname).
  { rewrite Hrun. cbn [ui]. now destruct (Supabase.select_room_by_code roomCode (db w)). }
  assert (Hcode : JoinRoomPage.roomCode (ui checked) = roomCode).
  { rewrite Hrun. cbn [ui]. now destruct (Supabase.select_room_by_code roomCode (db w)). }
  split; [exact Hdb|]. split.
  { rewrite Hrun. cbn [ui]. now destruct (Supabase.select_room_by_code roomCode (db w)). }
  intros Hn Hc.
  assert (Hn' : Js.trim (JoinRoomPage.nickname (ui checked)) <> "") by now rewrite Hnick.
  assert (Hc' : Js.trim (JoinRoomPage.roomCode (ui checked)) <> "") by now rewrite Hcode.
  destruct (Supabase.select_room_by_code roomCode (db w)) as [room|c m] eqn:Hsel.
  - assert (Hvalid : JoinRoomPage.isValidRoom (ui checked) = true) by now rewrite Hrun.
    assert (Hstarted : JoinRoomPage.isGameStarted (ui checked)
                       = Status_eqb (Room.status room) active) by now rewrite Hrun.
    split; [intros H; congruence|]. split.
    + intros _ Hs. rewrite Hstarted in Hs. apply Status_eqb_eq in Hs.
      unfold joined.
      rewrite (handleJoinRoom_rejected checked uuid now JoinRoomPage.msg_started Hn' Hc').
      * cbn. split; [exact Hdb | reflexivity].
      * rewrite Hcode, Hdb, Hsel. split; [exact Hs | reflexivity].
    + intros _ Hs Hfresh. rewrite Hstarted in Hs.
      assert (Hwaiting : Room.status room <> active).
      { intros E. apply Status_eqb_eq in E. congruence. }
      exists room. destruct (select_room_in _ _ _ Hsel) as [Hin Hrc].
      split; [exact Hin|]. split; [exact Hrc|].
      unfold joined.
      rewrite (handleJoinRoom_run checked uuid now room Hn' Hc').
      * cbn. rewrite Hdb, Hnick, Hcode. repeat split.
      * now rewrite Hcode, Hdb.
      * exact Hwaiting.
      * now rewrite Hdb.
  - assert (Hvalid : JoinRoomPage.isValidRoom (ui checked) = false) by now rewrite Hrun.
    split; [|split; intros H; congruence].
    intros _. unfold joined.
    rewrite (handleJoinRoom_rejected checked uuid now JoinRoomPage.msg_not_found Hn' Hc').
    + cbn. split; [exact Hdb | reflexivity].
    + rewrite Hcode, Hdb, Hsel. split; [|reflexivity].
      unfold Supabase.select_room_by_code, Supabase.single in Hsel.
      destruct (filter _ _) as [|a [|b l]]; now inversion Hsel.
Qed.

(** * The lobby's controls *)

Lemma checkHost_run (playerId : string) (w : World RoomLobbyPage.State) :
  exec (checkHost playerId) w
  = mkWorld (db w) (session w) (location w) (timers w)
      (RoomLobbyPage.setIsHost
         match select_player_by_id playerId (db w) with
         | Supabase.Data player => Player.is_host player
         | Supabase.Failure _ _ => false
         end (ui w)).
Proof. reflexivity. Qed.

Lemma select_player_appended (db : Supabase.t) (p : Player.t) :
  Supabase.has_player db (Player.id p) = false ->
  select_player_by_id (Player.id p)
    (Supabase.mk (Supabase.rooms db) (Supabase.players db ++ [p])
       (Supabase.prompts db) (Supabase.game_state db) (Supabase.responses db))
  = Supabase.Data p.
Proof.
  intros Hfresh. unfold select_player_by_id. cbn [Supabase.players].
  rewrite filter_app. cbn [filter]. rewrite String.eqb_refl.
  rewrite filter_nil; [reflexivity|].
  intros q Hq. unfold Supabase.has_player in Hfresh.
  destruct (Player.id q =? Player.id p)%string eqn:E; [|reflexivity].
  assert (Hex : existsb (fun x => (Player.id x =? Player.id p)%string)
                  (Supabase.players db) = true)
    by (apply existsb_exists; now exists q).
  congruence.
Qed.

(** X17. The start button belongs to the creator.  [checkHost] writes
    nothing but [isHost]; it shows the start button only for a stored player
    row marked as host; in the lobby of a client that has just created a
    room it finds the host, and in the lobby of a client that has just joined
    it does not, so that a click on the start control of that render
    changes nothing. *)
Theorem start_button_belongs_to_the_creator
    (lobby : World RoomLobbyPage.State) (playerId : string) :
  let lobby' := exec (checkHost playerId) lobby in
  db lobby' = db lobby
  /\ RoomLobbyPage.error (ui lobby') = RoomLobbyPage.error (ui lobby)
  /\ (RoomLobbyPage.isHost (ui lobby') = true ->
      exists p, In p (Supabase.players (db lobby))
                /\ Player.id p = playerId /\ Player.is_host p = true)
  /\ (forall (creator : World CreateRoomPage.State) random room_uuid room_now player_now,
        Supabase.has_room (db creator) room_uuid = false ->
        existsb (fun r => (Room.code r =? CreateRoomPage.generateRoomCode random)%string)
          (Supabase.rooms (db creator)) = false ->
        Supabase.has_player (db creator) playerId = false ->
        db lobby = db (exec (CreateRoomPage.handleCreateRoom random room_uuid room_now
                               playerId player_now) creator) ->
        RoomLobbyPage.isHost (ui lobby') = true)
  /\ (forall (joiner : World JoinRoomPage.State) now room,
        Js.trim (JoinRoomPage.nickname (ui joiner)) <> "" ->
        Js.trim (JoinRoomPage.roomCode (ui joiner)) <> "" ->
        Supabase.select_room_by_code (JoinRoomPage.roomCode (ui joiner)) (db joiner)
        = Supabase.Data room ->
        Room.status room <> active ->
        Supabase.has_player (db joiner) playerId = false ->
        db lobby = db (exec (JoinRoomPage.handleJoinRoom playerId now) joiner) ->
        RoomLobbyPage.isHost (ui lobby') = false
        /\ forall random uuid start_now,
             exec (RoomLobbyPage.clickStart random uuid start_now) lobby' = lobby').
Proof.
  intros lobby'. unfold lobby'. rewrite checkHost_run. cbn [db ui].
  split; [reflexivity|]. split; [reflexivity|]. split; [|split].
  - cbn. destruct (select_player_by_id playerId (db lobby)) as [p|c m] eqn:Hsel;
      [|discriminate].
    intros Hhost. exists p. unfold select_player_by_id in Hsel.
    apply single_data in Hsel.
    assert (Hin : In p (filter (fun q => (Player.id q =? playerId)%string)
                          (Supabase.players (db lobby)))) by (rewrite Hsel; now left).
    apply filter_In in Hin. destruct Hin as [Hin Hid]. apply String.eqb_eq in Hid.
    repeat split; assumption.
  - intros creator random room_uuid room_now player_now Hroom Hcode Hplayer Hdb.
    rewrite (handleCreateRoom_run creator random room_uuid room_now playerId player_now
               Hroom Hcode Hplayer) in Hdb. cbn [db] in Hdb.
    rewrite Hdb.
    pose (host := Player.mk playerId (CreateRoomPage.nickname (ui creator)) room_uuid
                    true 1 player_now).
    assert (Hsel := select_player_appended
                      (Supabase.mk (Supabase.rooms (db creator)
                                      ++ [Room.mk room_uuid
                                            (CreateRoomPage.generateRoomCode random)
                                            room_now waiting])
                         (Supabase.players (db creator)) (Supabase.prompts (db creator))
                         (Supabase.game_state (db creator))
                         (Supabase.responses (db creator)))
                      host Hplayer).
    cbn [Supabase.rooms Supabase.players Supabase.prompts Supabase.game_state
         Supabase.responses Player.id host] in Hsel.
    unfold host in Hsel. rewrite Hsel. reflexivity.
  - intros joiner now room Hn Hc Hsel Hstatus Hfresh Hdb.
    rewrite (handleJoinRoom_run joiner playerId now room Hn Hc Hsel Hstatus Hfresh) in Hdb.
    cbn [db] in Hdb. rewrite Hdb.
    pose (player := Player.mk playerId (Js.trim (JoinRoomPage.nickname (ui joiner)))
                      (Room.id room) false 0 now).
    assert (Hp := select_player_appended (db joiner) player Hfresh).
    cbn [Player.id player] in Hp. unfold player in Hp. rewrite Hp.
    split; [reflexivity|].
    intros random uuid start_now. reflexivity.
Qed.

(** * The turn controls *)

(** X18. The turn controls follow the roster fetch.  After [fetchPlayers]
    on a game page with a session room, a client whose session player is not
    the current player of the game state that render holds has neither the
    type buttons nor the submit button: a click on either control changes
    nothing, so it writes nothing to the store.  The client whose session
    player is the current one is marked as current. *)
Theorem turn_controls_follow_the_roster_fetch
    (w : World GamePage.State) (rid : string) (gameState : option GameState.t)
    (type : PromptType) (random : Q) (uuid : string) (now : Z) :
  Session.roomId (session w) = Some rid ->
  Js.truthy rid = true ->
  let w' := exec (GamePage.fetchPlayers gameState) w in
  let current := option_map GameState.current_player_id gameState in
  db w' = db w
  /\ (GamePage.isCurrentPlayer (ui w') = true
      <-> current <> None /\ current = Session.playerId (session w))
  /\ (current = None \/ current <> Session.playerId (session w) ->
      exec (GameView.clickType type random now) w' = w'
      /\ exec (GameView.clickSubmit uuid now) w' = w').
Proof.
  intros Hr Ht w' current.
  assert (Hrun := game_fetchPlayers_run w rid gameState Hr Ht). fold w' in Hrun.
  assert (Hcur : GamePage.isCurrentPlayer (ui w')
                 = match gameState, Session.playerId (session w) with
                   | Some g, Some playerId =>
                       (GameState.current_player_id g =? playerId)%string
                   | _, _ => false
                   end) by now rewrite Hrun.
  assert (Hiff : GamePage.isCurrentPlayer (ui w') = true
                 <-> current <> None /\ current = Session.playerId (session w)).
  { rewrite Hcur. unfold current.
    destruct gameState as [g|]; cbn [option_map].
    - destruct (Session.playerId (session w)) as [pid|].
      + rewrite String.eqb_eq. split.
        * intros ->. split; [discriminate | reflexivity].
        * intros [_ [= ->]]. reflexivity.
      + split; [discriminate | intros [_ H]; discriminate].
    - split; [discriminate | intros [H _]; now elim H]. }
  split; [now rewrite Hrun|]. split; [exact Hiff|].
  intros Hnot.
  assert (Hoff : GamePage.isCurrentPlayer (ui w') = false).
  { destruct (GamePage.isCurrentPlayer (ui w')); [|reflexivity].
    destruct (proj1 Hiff eq_refl) as [H1 H2]. destruct Hnot; contradiction. }
  split.
  - unfold GameView.clickType, exec, bind, state, gets. cbn [fst snd].
    unfold GameView.showsTypeSelection. rewrite Hoff, andb_false_r. reflexivity.
  - unfold GameView.clickSubmit, exec, bind, state, gets. cbn [fst snd].
    unfold GameView.submitEnabled, GameView.showsSubmit.
    rewrite Hoff, andb_false_r. reflexivity.
Qed.

(** * Routes *)

Lemma prefix_app (r x : string) : prefix r (r ++ x) = true.
Proof.
  induction r as [|c r IH]; cbn; [now destruct x|].
  destruct (ascii_dec c c) as [_|N]; [exact IH | now elim N].
Qed.

Lemma substring_all (x : string) : substring 0 (String.length x) x = x.
Proof. induction x as [|c x IH]; cbn; [reflexivity | now rewrite IH]. Qed.

Lemma substring_app (r x : string) :
  substring (String.length r) (String.length (r ++ x) - String.length r) (r ++ x) = x.
Proof.
  induction r as [|c r IH]; cbn [String.length append].
  - rewrite Nat.sub_0_r. apply substring_all.
  - cbn [substring]. exact IH.
Qed.

Lemma useParams_route (UI : Type) (route code : string) (w : World UI) :
  location w = Some (route ++ code) ->
  useParams route w = (w, Normal (Some code)).
Proof.
  intros H. unfold useParams, gets. rewrite H, prefix_app, substring_app. reflexivity.
Qed.

(** X19. From the lobby at [/room/<code>] both ways out lead to
    [/game/<code>]: [joinGame] always, without touching the store, and
    [startGame] exactly when it has written the game state; a start that
    wrote no game state leaves the host in the lobby. *)
Theorem lobby_leads_to_the_game_route
    (w : World RoomLobbyPage.State) (code : string) (players : list Player.t)
    (random : Q) (uuid : string) (now : Z) :
  location w = Some ("/room/" ++ code) ->
  let joined := exec joinGame w in
  let started := exec (RoomLobbyPage.startGame players random uuid now) w in
  (location joined = Some ("/game/" ++ code) /\ db joined = db w)
  /\ ((location started = Some ("/game/" ++ code)
       /\ exists row, Supabase.game_state (db started)
                      = (Supabase.game_state (db w) ++ [row])%list)
      \/ (location started = location w
          /\ Supabase.game_state (db started) = Supabase.game_state (db w))).
Proof.
  intros Hloc joined started. split.
  - unfold joined, joinGame, exec, bind. rewrite (useParams_route _ _ _ _ Hloc).
    cbn. split; reflexivity.
  - unfold started, exec, RoomLobbyPage.startGame, try_catch, try_catch_finally, bind,
      getItem, query, request, gets, orThrow, setState, modify, throw, ret, return_,
      navigate.
    cbn [db session location timers ui fst snd].
    destruct (Session.roomId (session w)) as [rid|]; [|right; split; reflexivity].
    destruct (Js.truthy rid); cbn [negb]; [|right; split; reflexivity].
    cbn [Supabase.update_room_status db session location timers ui fst snd
         Supabase.select_prompts_limit Supabase.prompts negb].
    cbv beta. cbn [db Supabase.prompts].
    destruct (Js.length (firstn 100 (Supabase.prompts (db w))) =? 0);
      [right; split; reflexivity|].
    cbv beta.
    destruct (Js.index players 0) as [first|]; [|right; split; reflexivity].
    cbn [db session location timers ui fst snd].
    destruct (Js.index (firstn 100 (Supabase.prompts (db w))) _) as [opening|];
      [|right; split; reflexivity].
    cbn [db session location timers ui fst snd].
    unfold Supabase.insert_game_state. cbn [Supabase.game_state].
    destruct (existsb _ (Supabase.game_state (db w))); [right; split; reflexivity|].
    destruct (negb _); [right; split; reflexivity|].
    left. cbn [fst snd db session location timers ui].
    unfold useParams, gets. cbn [location]. rewrite Hloc.
    rewrite prefix_app, substring_app. cbn.
    split; [reflexivity|]. eexists. reflexivity.
Qed.

(** * The response log *)


(** * Further concrete runs *)

Lemma created_room_waits_with_its_host_witness :
  hosts "room-1" (db (Scenario.ann_created Scenario.catalog)) = [Scenario.ann]
  /\ location (Scenario.ann_created Scenario.catalog) = Some "/room/482913".
Proof.
  destruct (created_room_waits_with_its_host
              (Play.create_form (Scenario.seeded Scenario.catalog) "Ann")
              (382913 # 900000) "room-1" 10 "ann" 11 eq_refl eq_refl eq_refl)
    as (_ & _ & Hhosts & _ & Hloc & _).
  split.
  - destruct Hhosts as [H _]; [intros p [] | exact H].
  - exact Hloc.
Defined.


Lemma accepted_join_registers_a_joiner_witness :
  Supabase.players (db (Scenario.bob_joined Scenario.catalog))
  = [Scenario.ann; Scenario.bob].
Proof.
  destruct (accepted_join_registers_a_joiner Play.bob_form "bob" 20
              (Room.mk "room-1" "482913" 10 waiting)) as (Hplayers & _).
  - discriminate.
  - discriminate.
  - reflexivity.
  - discriminate.
  - reflexivity.
  - exact Hplayers.
Defined.

Lemma registration_keeps_one_host_per_room_witness :
  at_most_one_host (db (Scenario.bob_joined Scenario.catalog))
  /\ registered (db (Scenario.bob_joined Scenario.catalog)).
Proof.
  destruct (registration_keeps_one_host_per_room
              (Play.create_form (Scenario.seeded Scenario.catalog) "Ann")
              Play.bob_form (382913 # 900000) "room-1" 10 "ann" 11 "bob" 20)
    as (Hcreate & Hjoin & _).
  destruct Hcreate as (H1 & H2 & H3).
  - intros p [].
  - intros rid. apply Nat.le_0_l.
  - intros p [].
  - destruct (Hjoin H1 H2 H3) as (_ & Hone & Hreg). split; assumption.
Defined.


Lemma chosen_prompt_has_the_chosen_type_witness :
  exists p,
    Prompt.type p = dare
    /\ stored_current_prompt "room-1"
         (db (exec (GamePage.handleTypeSelection dare (1 # 3) 41) Scenario.bob_game))
       = Some (Some (Prompt.id p)).
Proof.
  destruct (chosen_prompt_has_the_chosen_type Scenario.bob_game "room-1" dare
              (1 # 3) 41) as (p & _ & Htype & Hprompt & _).
  - reflexivity.
  - reflexivity.
  - exists Scenario.dance. split; [vm_compute; tauto | reflexivity].
  - discriminate.
  - reflexivity.
  - exists p. split; [exact Htype|].
    assert (H := Hprompt (GameState.mk "game-1" "room-1" "bob" (Some "prompt-5")
                            active 30 41)).
    unfold stored_current_prompt. vm_compute. f_equal.
    apply H; [vm_compute; tauto | reflexivity].
Defined.

Lemma advance_leaves_other_rooms_witness :
  stored_current_player "room-2"
    (db (exec (GamePage.handleNextTurn (Some "room-1") (Some Scenario.opening)
                 [Scenario.bob; Scenario.ann] 42) Play.two_rooms))
  = Some "dan".
Proof.
  destruct (advance_leaves_other_rooms "room-1" (Some Scenario.opening)
              [Scenario.bob; Scenario.ann] 42 Play.two_rooms) as [_ H].
  destruct (H "room-2") as [Hplayer _]; [discriminate|].
  rewrite Hplayer. reflexivity.
Defined.

Lemma submit_writes_the_log_only_witness :
  let again := exec (GamePage.handleSubmitResponse "response-1" 45)
                 Play.bob_submitted in
  db again = db Play.bob_submitted
  /\ GamePage.error (ui again) = ""
  /\ GamePage.hasResponded (ui again) = true.
Proof.
  destruct (submit_writes_the_log_only Play.bob_submitted "response-1" 45) as [_ H].
  destruct (H "room-1" "bob" Scenario.dance "23505"
              "duplicate key value violates unique constraint"
              eq_refl eq_refl eq_refl eq_refl eq_refl eq_refl)
    as (Hdb & Herr & Hdone & _).
  cbv zeta. split; [exact Hdb|]. split; [rewrite Herr; reflexivity | exact Hdone].
Defined.

Lemma submit_button_stores_no_blank_response_witness :
  Forall (fun row => Js.trim (Response.response row) = Response.response row)
    (Supabase.responses
       (db (exec (GameView.clickSubmit "response-1" 42) Play.bob_typed))).
Proof.
  apply Forall_forall. intros row Hin.
  destruct (submit_button_stores_no_blank_response Play.bob_typed "response-1" 42)
    as [_ H].
  destruct (H row Hin) as [Hold|(_ & Htrim & _)].
  - vm_compute in Hold. destruct Hold.
  - exact Htrim.
Defined.


Lemma start_closes_the_room_to_joins_witness :
  let store := db (exec (RoomLobbyPage.startGame [Scenario.bob; Scenario.ann] (1 # 2)
                           "game-1" 30) (Scenario.ann_lobby [])) in
  JoinRoomPage.error
    (ui (exec (JoinRoomPage.handleJoinRoom "cy" 50)
           (Scenario.join_form store "Cy" "482913")))
  = JoinRoomPage.msg_started.
Proof.
  cbv zeta.
  destruct (start_closes_the_room_to_joins (Scenario.ann_lobby []) "room-1"
              [Scenario.bob; Scenario.ann] (1 # 2) "game-1" 30
              (Scenario.join_form
                 (db (exec (RoomLobbyPage.startGame [Scenario.bob; Scenario.ann] (1 # 2)
                              "game-1" 30) (Scenario.ann_lobby [])))
                 "Cy" "482913")
              "cy" 50 eq_refl eq_refl) as (_ & _ & _ & _ & H).
  destruct (H eq_refl (Room.mk "room-1" "482913" 10 active) eq_refl eq_refl)
    as (_ & _ & _ & Herr).
  apply Herr; discriminate.
Defined.

Lemma second_start_breaks_the_game_page_witness :
  stored_current_player "room-1"
    (db (exec (RoomLobbyPage.startGame [Scenario.bob; Scenario.ann] (1 # 2)
                 "game-2" 50) Play.ann_again))
  = None.
Proof.
  destruct (second_start_breaks_the_game_page Play.ann_again "room-1" Scenario.bob
              [Scenario.ann] (1 # 2) "game-2" 50 Scenario.dance
              (Play.fresh_page (db Play.ann_again)
                 (session (Scenario.bob_joined Scenario.catalog))))
    as (_ & Hnone & _).
  - reflexivity.
  - reflexivity.
  - reflexivity.
  - reflexivity.
  - reflexivity.
  - reflexivity.
  - discriminate.
  - exact Hnone.
Defined.

Lemma started_game_is_what_the_pages_load_witness :
  let store := db (exec (RoomLobbyPage.startGame [Scenario.bob; Scenario.ann] (1 # 2)
                           "game-1" 30) (Scenario.ann_lobby Scenario.catalog)) in
  RoomLobbyPage.gameStarted
    (ui (exec RoomLobbyPage.checkGameStatus
           (Play.lobby store (session (Scenario.bob_joined Scenario.catalog)))))
  = true
  /\ GamePage.currentPrompt
       (ui (exec GamePage.fetchGameState
              (Play.fresh_page store (session (Scenario.bob_joined Scenario.catalog)))))
     = Some Scenario.dance.
Proof.
  cbv zeta.
  destruct (started_game_is_what_the_pages_load (Scenario.ann_lobby Scenario.catalog)
              "room-1" (Room.mk "room-1" "482913" 10 waiting) Scenario.bob
              [Scenario.ann] (1 # 2) "game-1" 30 Scenario.dance
              (Play.lobby
                 (db (exec (RoomLobbyPage.startGame [Scenario.bob; Scenario.ann] (1 # 2)
                              "game-1" 30) (Scenario.ann_lobby Scenario.catalog)))
                 (session (Scenario.bob_joined Scenario.catalog)))
              (Play.fresh_page
                 (db (exec (RoomLobbyPage.startGame [Scenario.bob; Scenario.ann] (1 # 2)
                              "game-1" 30) (Scenario.ann_lobby Scenario.catalog)))
                 (session (Scenario.bob_joined Scenario.catalog))))
    as [Hlobby Hpage].
  - reflexivity.
  - reflexivity.
  - reflexivity.
  - reflexivity.
  - reflexivity.
  - reflexivity.
  - reflexivity.
  - reflexivity.
  - reflexivity.
  - split.
    + apply Hlobby; vm_compute; reflexivity.
    + destruct Hpage as (_ & Hprompt & _);
        [vm_compute; reflexivity | reflexivity | reflexivity|].
      exact Hprompt.
Defined.

Lemma room_check_predicts_the_join_witness :
  location
    (exec (JoinRoomPage.handleJoinRoom "bob" 20)
       (exec JoinRoomPage.checkRoomStatus Play.bob_form))
  = Some "/room/482913".
Proof.
  destruct (room_check_predicts_the_join Play.bob_form "bob" 20) as (_ & _ & H).
  destruct H as (_ & _ & Hjoin); [discriminate | discriminate |].
  destruct Hjoin as (room & _ & _ & _ & Hloc & _);
    [reflexivity | reflexivity | reflexivity |].
  exact Hloc.
Defined.

Lemma start_button_belongs_to_the_creator_witness :
  RoomLobbyPage.isHost
    (ui (exec (checkHost "bob")
           (Play.lobby (db (Scenario.bob_joined Scenario.catalog))
              (session (Scenario.bob_joined Scenario.catalog)))))
  = false.
Proof.
  destruct (start_button_belongs_to_the_creator
              (Play.lobby (db (Scenario.bob_joined Scenario.catalog))
                 (session (Scenario.bob_joined Scenario.catalog))) "bob")
    as (_ & _ & _ & _ & H).
  destruct (H Play.bob_form 20 (Room.mk "room-1" "482913" 10 waiting)) as [Hhost _].
  - discriminate.
  - discriminate.
  - reflexivity.
  - discriminate.
  - reflexivity.
  - vm_compute. reflexivity.
  - exact Hhost.
Defined.

Lemma turn_controls_follow_the_roster_fetch_witness :
  let page := exec (GamePage.fetchPlayers (Some Scenario.stale)) Scenario.bob_game in
  exec (GameView.clickType truth (1 # 3) 41) page = page.
Proof.
  cbv zeta.
  destruct (turn_controls_follow_the_roster_fetch Scenario.bob_game "room-1"
              (Some Scenario.stale) truth (1 # 3) "response-1" 41 eq_refl eq_refl)
    as (_ & _ & H).
  destruct H as [Hclick _]; [right; vm_compute; discriminate | exact Hclick].
Defined.

Lemma lobby_leads_to_the_game_route_witness :
  location (exec joinGame (Scenario.ann_lobby Scenario.catalog))
  = Some "/game/482913".
Proof.
  destruct (lobby_leads_to_the_game_route (Scenario.ann_lobby Scenario.catalog)
              "482913" [Scenario.bob; Scenario.ann] (1 # 2) "game-1" 30 eq_refl)
    as [[Hloc _] _].
  exact Hloc.
Defined.

